(** * Verification of the downsampled-feature loader and Random Forest driver

    Shallow embedding of [src/downsample/prepare_data.py] and
    [src/downsample/RF_train_and_evaluate.py].

    - Python integers are [Z]; array dimensions, which numpy keeps
      non-negative, are [nat].
    - A numpy array is its dtype and its shape together with its row-major
      buffer.  The dtypes are the numeric ones up to 64 bits, with numpy's
      promotion between them; converting an element from one dtype to
      another is a parameter of the development.
    - Finite floating-point values are rationals, and [>] on them is the
      order of the rationals, so scores and thresholds are [Q].
    - A Python exception is a value of [exn]; a call that may raise returns
      a [result].
    - The file system is a finite map from paths to nodes, directories
      included.  The functions of [prepare_data.py] only read it; [main]
      also changes it, and can fail where it does.  What is read, printed
      and written is recorded, in order, in a trace: a read when it is
      tried, a write when it is done. *)

From Stdlib Require Import ZArith QArith Lia Ascii String.
From stdpp Require Import base option list strings gmap.

Local Open Scope string_scope.
Local Open Scope list_scope.
Local Open Scope nat_scope.

(** ** Exceptions and results *)

Inductive exn : Type :=
| ValueError (msg : string)
| KeyError (key : string)
| IndexError (msg : string)
| TypeError (msg : string)
| FileNotFoundError (path : string)
| IsADirectoryError (path : string)
| NotADirectoryError (path : string)
| FileExistsError (path : string)
| ParserError (path : string).

Inductive result (A : Type) : Type :=
| Ok (a : A)
| Raise (e : exn).
Arguments Ok {A} a.
Arguments Raise {A} e.

#[global] Instance result_ret : MRet result := λ A a, Ok a.
#[global] Instance result_bind : MBind result := λ A B f m,
  match m with
  | Ok a => f a
  | Raise e => Raise e
  end.
#[global] Instance result_fmap : FMap result := λ A B f m,
  match m with
  | Ok a => Ok (f a)
  | Raise e => Raise e
  end.

(** ** numpy arrays *)

(** The numeric dtypes: boolean, signed and unsigned integers and floating
    point, up to 64 bits. *)
Inductive width : Type := W8 | W16 | W32 | W64.

Inductive np_dtype : Type :=
| np_bool
| np_int (w : width)
| np_uint (w : width)
| np_float16
| np_float32
| np_float64.

#[global] Instance width_eq_dec : EqDecision width.
Proof. solve_decision. Defined.
#[global] Instance np_dtype_eq_dec : EqDecision np_dtype.
Proof. solve_decision. Defined.

Definition bits (w : width) : nat :=
  match w with W8 => 8 | W16 => 16 | W32 => 32 | W64 => 64 end.

Definition wider (v w : width) : width := if bits v <=? bits w then w else v.

(** The smallest floating-point dtype that holds every integer of a width. *)
Definition float_for (w : width) : np_dtype :=
  match w with W8 => np_float16 | W16 => np_float32 | _ => np_float64 end.

(** The wider of two floating-point dtypes. *)
Definition float_max (f g : np_dtype) : np_dtype :=
  match f, g with
  | np_float64, _ | _, np_float64 => np_float64
  | np_float32, _ | _, np_float32 => np_float32
  | _, _ => np_float16
  end.

(** The signed integer dtype that holds a signed width [v] and an unsigned
    width [w]; there is none for 64 unsigned bits. *)
Definition signed_for (v w : width) : np_dtype :=
  if bits w <? bits v then np_int v
  else match w with
       | W8 => np_int W16
       | W16 => np_int W32
       | W32 => np_int W64
       | W64 => np_float64
       end.

(** [np.promote_types(a, b)]: the dtype [np.vstack] and [np.array] give to
    the arrays they build from arrays of dtypes [a] and [b]. *)
Definition promote_types (a b : np_dtype) : np_dtype :=
  match a with
  | np_bool => b
  | np_int v =>
      match b with
      | np_bool => a
      | np_int w => np_int (wider v w)
      | np_uint w => signed_for v w
      | _ => float_max (float_for v) b
      end
  | np_uint v =>
      match b with
      | np_bool => a
      | np_int w => signed_for w v
      | np_uint w => np_uint (wider v w)
      | _ => float_max (float_for v) b
      end
  | _ =>
      match b with
      | np_bool => a
      | np_int w | np_uint w => float_max (float_for w) a
      | _ => float_max a b
      end
  end.

(** Conversion of an element between dtypes: [astype from to x] is what the
    element [x] of an array of dtype [from] becomes in an array of dtype
    [to]. *)
Class Casting (elt : Type) : Type :=
  astype : np_dtype → np_dtype → elt → elt.

Record ndarray (elt : Type) : Type := NdArray {
  dtype : np_dtype;
  shape : list nat;
  data : list elt
}.
Arguments NdArray {elt} dtype shape data.
Arguments dtype {elt} _.
Arguments shape {elt} _.
Arguments data {elt} _.

(** [a.astype(dt)]: an array that has the dtype already keeps its
    elements. *)
Definition astype_array {elt} `{!Casting elt} (dt : np_dtype) (a : ndarray elt)
  : ndarray elt :=
  if decide (dtype a = dt) then a
  else NdArray dt (shape a) (astype (dtype a) dt <$> data a).

(** Number of elements of an array of a given shape. *)
Definition size_of (sh : list nat) : nat := foldr Nat.mul 1 sh.

(** What numpy guarantees of every array it hands out. *)
Definition wf_ndarray {elt} (a : ndarray elt) : Prop :=
  length (data a) = size_of (shape a).

(** [a.shape[k]] *)
Definition shape_at {elt} (a : ndarray elt) (k : nat) : result nat :=
  match shape a !! k with
  | Some n => Ok n
  | None => Raise (IndexError "tuple index out of range")
  end.

(** [len(a)] *)
Definition np_len {elt} (a : ndarray elt) : result nat :=
  match shape a with
  | n :: _ => Ok n
  | [] => Raise (TypeError "len() of unsized object")
  end.

(** The stop index of the slice [[:t]] on an axis of size [n]: a negative
    [t] counts from the end, and the result is clipped to [0..n]. *)
Definition slice_stop (n : nat) (t : Z) : nat :=
  if (0 <=? t)%Z then Nat.min (Z.to_nat t) n
  else Z.to_nat (Z.max 0 (Z.of_nat n + t)).

(** [a[:t]] *)
Definition slice_rows {elt} (a : ndarray elt) (t : Z) : result (ndarray elt) :=
  match shape a with
  | n :: rest =>
      let k := slice_stop n t in
      Ok (NdArray (dtype a) (k :: rest) (take (k * size_of rest) (data a)))
  | [] => Raise (IndexError "too many indices for array")
  end.

(** [np.atleast_2d(a)] *)
Definition atleast_2d {elt} (a : ndarray elt) : ndarray elt :=
  match shape a with
  | [] => NdArray (dtype a) [1; 1] (data a)
  | [n] => NdArray (dtype a) [1; n] (data a)
  | _ => a
  end.

Definition concat_ndim_msg : string :=
  "all the input arrays must have same number of dimensions".
Definition concat_dims_msg : string :=
  "all the input array dimensions except for the concatenation axis must match exactly".
Definition concat_zero_dim_msg : string :=
  "zero-dimensional arrays cannot be concatenated".

(** [np.concatenate((a, b), axis=0)]: both arrays are converted to the
    promotion of their dtypes. *)
Definition concatenate0 {elt} `{!Casting elt} (a b : ndarray elt)
  : result (ndarray elt) :=
  match shape a, shape b with
  | n :: ra, m :: rb =>
      if decide (length ra = length rb) then
        if decide (ra = rb) then
          let dt := promote_types (dtype a) (dtype b) in
          Ok (NdArray dt ((n + m) :: ra)
                (data (astype_array dt a) ++ data (astype_array dt b)))
        else Raise (ValueError concat_dims_msg)
      else Raise (ValueError concat_ndim_msg)
  | _, _ => Raise (ValueError concat_zero_dim_msg)
  end.

(** [np.vstack((a, b))] *)
Definition vstack {elt} `{!Casting elt} (a b : ndarray elt)
  : result (ndarray elt) :=
  concatenate0 (atleast_2d a) (atleast_2d b).

(** [a.flatten()] *)
Definition flatten {elt} (a : ndarray elt) : ndarray elt :=
  NdArray (dtype a) [size_of (shape a)] (data a).

(** The first [n] consecutive blocks of [d] elements of a buffer. *)
Definition chunks {elt} (d n : nat) (l : list elt) : list (list elt) :=
  (λ i, take d (drop (i * d) l)) <$> seq 0 n.

(** The slices of [a] along its first axis, in order: the rows of a 2-D
    array. *)
Definition array_rows {elt} (a : ndarray elt) : list (list elt) :=
  match shape a with
  | n :: rest => chunks (size_of rest) n (data a)
  | [] => []
  end.

Section Normalization.
Context {elt : Type} `{!Casting elt} (zero : elt).

Definition zeros_negative_msg : string :=
  "negative dimensions are not allowed".

(** [np.zeros((k, d))]: an array of dtype float64, [zero] being its
    [0.0]. *)
Definition np_zeros2 (k : Z) (d : nat) : result (ndarray elt) :=
  if (k <? 0)%Z then Raise (ValueError zeros_negative_msg)
  else Ok (NdArray np_float64 [Z.to_nat k; d]
             (replicate (Z.to_nat k * d) zero)).

(** prepare_data.py, lines 48-52: truncate or pad to [target_length] rows. *)
Definition normalize_length (target_length : Z) (feature_data : ndarray elt)
  : result (ndarray elt) :=
  n ← shape_at feature_data 0;
  if (Z.of_nat n >? target_length)%Z then
    slice_rows feature_data target_length
  else if (Z.of_nat n <? target_length)%Z then
    d ← shape_at feature_data 1;
    padding ← np_zeros2 (target_length - Z.of_nat n) d;
    vstack feature_data padding
  else Ok feature_data.

(** prepare_data.py, lines 48-55: the vector appended to [features]. *)
Definition normalized_vector (target_length : Z) (feature_data : ndarray elt)
  : result (ndarray elt) :=
  flatten <$> normalize_length target_length feature_data.

End Normalization.

(** ** Paths (posixpath) *)

Definition is_sep (c : ascii) : bool := bool_decide (c = "/"%char).

Fixpoint contains_sep (p : string) : bool :=
  match p with
  | EmptyString => false
  | String c rest => is_sep c || contains_sep rest
  end.

(** [os.path.basename(p)]: what follows the last separator. *)
Fixpoint basename (p : string) : string :=
  match p with
  | EmptyString => EmptyString
  | String c rest =>
      if contains_sep rest then basename rest
      else if is_sep c then rest
      else p
  end.

Definition starts_with_sep (p : string) : bool :=
  match p with
  | String c _ => is_sep c
  | EmptyString => false
  end.

Fixpoint ends_with_sep (p : string) : bool :=
  match p with
  | EmptyString => false
  | String c EmptyString => is_sep c
  | String _ rest => ends_with_sep rest
  end.

(** [os.path.join(a, b)] *)
Definition path_join (a b : string) : string :=
  if starts_with_sep b then b
  else if bool_decide (a = "") || ends_with_sep a then a +:+ b
  else a +:+ "/" +:+ b.

Fixpoint all_sep (p : string) : bool :=
  match p with
  | EmptyString => true
  | String c rest => is_sep c && all_sep rest
  end.

(** [p] up to its last separator, the separator included. *)
Fixpoint upto_last_sep (p : string) : string :=
  match p with
  | EmptyString => EmptyString
  | String c rest =>
      if is_sep c || contains_sep rest then String c (upto_last_sep rest)
      else EmptyString
  end.

Fixpoint rstrip_sep (p : string) : string :=
  match p with
  | EmptyString => EmptyString
  | String c rest => if all_sep p then EmptyString else String c (rstrip_sep rest)
  end.

(** [os.path.dirname(p)] *)
Definition dirname (p : string) : string :=
  let head := upto_last_sep p in
  if all_sep head then head else rstrip_sep head.

(** The directories above [p], outermost first, [pre] being what was read of
    the path before [p]: the prefixes that end where a name ends. *)
Fixpoint dirs_above (pre p : string) : list string :=
  match p with
  | EmptyString => []
  | String c rest =>
      let above := dirs_above (pre +:+ String c EmptyString) rest in
      if is_sep c && negb (all_sep pre) && negb (ends_with_sep pre)
      then pre :: above else above
  end.

(** ** The manifest: a pandas DataFrame *)

Inductive cell : Type :=
| CStr (s : string)
| CInt (z : Z)
| CFloat (q : Q)
| CNaN.

Record dataframe : Type := DataFrame {
  columns : list string;
  df_rows : list (gmap string cell)
}.

(** [row[column]] *)
Definition row_get (row : gmap string cell) (column : string) : result cell :=
  match row !! column with
  | Some c => Ok c
  | None => Raise (KeyError column)
  end.

(** [df[column] = value], for a scalar [value]. *)
Definition df_set_column (df : dataframe) (column : string) (value : cell)
  : dataframe :=
  DataFrame
    (if bool_decide (column ∈ columns df) then columns df
     else columns df ++ [column])
    (<[column := value]> <$> df_rows df).

(** [os.path.basename] of a manifest cell: only a string is a path. *)
Definition basename_of_cell (c : cell) : result string :=
  match c with
  | CStr s => Ok (basename s)
  | _ => Raise (TypeError "expected str, bytes or os.PathLike object")
  end.

(** The number a cell holds, if it holds one. *)
Definition cell_number (c : cell) : option Q :=
  match c with
  | CInt z => Some (inject_Z z)
  | CFloat q => Some q
  | _ => None
  end.

(** ** File system, messages and traces *)

(** [OtherFile] is a file that is neither a manifest nor a saved array, such
    as an image or a pickled model. *)
Inductive fsnode (elt : Type) : Type :=
| CsvFile (df : dataframe)
| NpyFile (a : ndarray elt)
| OtherFile
| Directory.
Arguments CsvFile {elt} df.
Arguments NpyFile {elt} a.
Arguments OtherFile {elt}.
Arguments Directory {elt}.

(** The line feed that starts some of the printed texts. *)
Definition nl : ascii := "010"%char.

(** What the program prints.  [message_template] gives the text of each,
    with the values formatted into it left out. *)
Inductive message : Type :=
| WarnMissing (feature_path : string)
| WarnDefaultWeight
| MsgTargetLength (target_length : Z)
| MsgText (s : string)
| MsgReport (report : string)
| MsgThreshold (threshold : Q)
| MsgMetrics (accuracy precision recall f1 : Q)
| MsgBestModel (f1 : Q)
| MsgFeatureRank (rank : nat) (index : nat) (importance : Q).

Definition message_template (m : message) : string :=
  match m with
  | WarnMissing p => "Warning: " +:+ p +:+ " does not exist and will be skipped."
  | WarnDefaultWeight =>
      "Warning: 'example_weight' column not found in data; setting default weight of 1 for all samples."
  | MsgTargetLength _ =>
      "Using target length of {} based on maximum sequence length in training data."
  | MsgText s => s
  | MsgReport r => r
  | MsgThreshold _ => "Threshold: {}"
  | MsgMetrics _ _ _ _ => "Accuracy: {}, Precision: {}, Recall: {}, F1 Score: {}"
  | MsgBestModel _ =>
      String nl
        "Best model saved as 'best_rf_model.joblib' with F1 Score: {}"
  | MsgFeatureRank _ _ _ => "{}. feature {} ({})"
  end.

Inductive event : Type :=
| EvReadCsv (path : string)
| EvExists (path : string)
| EvLoad (path : string)
| EvPrint (m : message)
| EvMakedirs (path : string)
| EvSaveFig (path : string) (fpr tpr : list Q) (roc_auc : Q)
| EvSaveTxt (path : string) (header : string) (table : list (list Q))
| EvDump (path : string).

(** A computation reads the file system, leaves a trace, and returns or
    raises.  The trace of a computation that raises is what happened up to
    the exception. *)
Definition IO (elt A : Type) : Type :=
  gmap string (fsnode elt) → result A * list event.

#[global] Instance IO_ret {elt} : MRet (IO elt) := λ A a _, (Ok a, []).
#[global] Instance IO_bind {elt} : MBind (IO elt) := λ A B f m fs,
  match m fs with
  | (Ok a, tr) => let '(r, tr') := f a fs in (r, tr ++ tr')
  | (Raise e, tr) => (Raise e, tr)
  end.

Definition lift {elt A} (r : result A) : IO elt A := λ _, (r, []).
Definition raise {elt A} (e : exn) : IO elt A := lift (Raise e).
Definition emit {elt} (ev : event) : IO elt () := λ _, (Ok (), [ev]).
Definition print {elt} (m : message) : IO elt () := emit (EvPrint m).

(** A [for] loop over [l] that threads the loop's variables. *)
Fixpoint for_each {elt S A} (body : S → A → IO elt S) (s : S) (l : list A)
  : IO elt S :=
  match l with
  | [] => mret s
  | x :: l' => s' ← body s x; for_each body s' l'
  end.

Definition unpickle_msg : string :=
  "Cannot load file containing pickled data when allow_pickle=False".

(** [pd.read_csv(path)] *)
Definition read_csv {elt} (path : string) : IO elt dataframe := λ fs,
  (match fs !! path with
   | Some (CsvFile df) => Ok df
   | Some Directory => Raise (IsADirectoryError path)
   | Some _ => Raise (ParserError path)
   | None => Raise (FileNotFoundError path)
   end, [EvReadCsv path]).

(** [os.path.exists(path)] *)
Definition path_exists {elt} (path : string) : IO elt bool := λ fs,
  (Ok (bool_decide (is_Some (fs !! path))), [EvExists path]).

(** [np.load(path)] *)
Definition np_load {elt} (path : string) : IO elt (ndarray elt) := λ fs,
  (match fs !! path with
   | Some (NpyFile a) => Ok a
   | Some Directory => Raise (IsADirectoryError path)
   | Some _ => Raise (ValueError unpickle_msg)
   | None => Raise (FileNotFoundError path)
   end, [EvLoad path]).

Definition inhomogeneous_msg : string :=
  "setting an array element with a sequence. The requested array has an inhomogeneous shape".

(** The promotion of the dtypes of a non-empty list of arrays. *)
Definition common_dtype {elt} (v : ndarray elt) (rest : list (ndarray elt))
  : np_dtype :=
  foldl (λ dt u, promote_types dt (dtype u)) (dtype v) rest.

(** [np.array(vs)] for a list of arrays: stacks arrays of one shape, each
    converted to the promotion of their dtypes; the empty list gives an
    empty float64 array. *)
Definition np_array {elt} `{!Casting elt} (vs : list (ndarray elt))
  : result (ndarray elt) :=
  match vs with
  | [] => Ok (NdArray np_float64 [0] [])
  | v :: rest =>
      if forallb (λ u, bool_decide (shape u = shape v)) rest
      then
        let dt := common_dtype v rest in
        Ok (NdArray dt (length vs :: shape v)
              (concat ((λ u, data (astype_array dt u)) <$> vs)))
      else Raise (ValueError inhomogeneous_msg)
  end.

(** ** Changes of the file system *)

(** A computation that may change the file system: it also gives the file
    system it leaves, whether it returns or raises. *)
Definition Run (elt A : Type) : Type :=
  gmap string (fsnode elt) →
  result A * list event * gmap string (fsnode elt).

#[global] Instance Run_ret {elt} : MRet (Run elt) := λ A a fs, (Ok a, [], fs).
#[global] Instance Run_bind {elt} : MBind (Run elt) := λ A B f m fs,
  match m fs with
  | (Ok a, tr, fs') => let '(r, tr', fs'') := f a fs' in (r, tr ++ tr', fs'')
  | (Raise e, tr, fs') => (Raise e, tr, fs')
  end.

(** A computation that only reads leaves the file system as it is. *)
Definition reads {elt A} (m : IO elt A) : Run elt A := λ fs, (m fs, fs).
Coercion reads : IO >-> Run.

(** What keeps an entry from being created at [path]: the directory it is
    to be in must exist.  The empty [dirname] is the current directory. *)
Definition parent_error {elt} (fs : gmap string (fsnode elt)) (path : string)
  : option exn :=
  let head := dirname path in
  if bool_decide (head = "") then None
  else match fs !! head with
       | Some Directory => None
       | Some _ => Some (NotADirectoryError path)
       | None => Some (FileNotFoundError path)
       end.

(** [os.mkdir(path)] as [os.makedirs] with [exist_ok=True] calls it: a
    directory that exists is left as it is. *)
Definition mkdir_exist_ok {elt} (path : string) : Run elt () := λ fs,
  match fs !! path with
  | Some Directory => (Ok (), [], fs)
  | Some _ => (Raise (FileExistsError path), [], fs)
  | None =>
      match parent_error fs path with
      | Some e => (Raise e, [], fs)
      | None => (Ok (), [], <[path := Directory]> fs)
      end
  end.

(** The recursion of [os.makedirs]: [heads] are the directories above
    [name], nearest first.  Where the nearest does not exist it is made
    first, in the same way, a [FileExistsError] of that being passed
    over. *)
Fixpoint makedirs_under {elt} (heads : list string) (name : string)
  : Run elt () :=
  match heads with
  | [] => mkdir_exist_ok name
  | head :: heads' =>
      (λ fs, if bool_decide (is_Some (fs !! head)) then (Ok (), [], fs)
             else match makedirs_under heads' head fs with
                  | (Raise (FileExistsError _), tr, fs') => (Ok (), tr, fs')
                  | run => run
                  end);;
      mkdir_exist_ok name
  end.

(** [os.makedirs(name, exist_ok=True)], for a relative path that does not
    end in a separator. *)
Definition makedirs {elt} (name : string) : Run elt () :=
  makedirs_under (reverse (dirs_above "" name)) name;;
  reads (emit (EvMakedirs name)).

(** Opening [path] for writing and writing a file there: the file is
    created, or replaced if there is one.  What is written is in the
    event. *)
Definition write_file {elt} (path : string) (written : event) : Run elt () :=
  λ fs,
    match parent_error fs path with
    | Some e => (Raise e, [], fs)
    | None =>
        match fs !! path with
        | Some Directory => (Raise (IsADirectoryError path), [], fs)
        | _ => (Ok (), [written], <[path := OtherFile]> fs)
        end
    end.

(** [plt.savefig(path)] of the figure drawn at lines 83-89. *)
Definition savefig {elt} (path : string) (fpr tpr : list Q) (roc_auc : Q)
  : Run elt () :=
  write_file path (EvSaveFig path fpr tpr roc_auc).

(** [np.savetxt(path, table, delimiter=",", fmt='%s', header=header)] *)
Definition savetxt {elt} (path : string) (table : list (list Q))
    (header : string) : Run elt () :=
  write_file path (EvSaveTxt path header table).

(** [joblib.dump(model, path)] *)
Definition dump {elt Model} (model : Model) (path : string) : Run elt () :=
  write_file path (EvDump path).

(** ** prepare_data.py *)

Definition target_length_msg : string :=
  "target_length must be specified to ensure consistent feature dimensions.".

Section Loader.
Context {elt : Type} `{!Casting elt} (zero : elt).

(** Lines 14-19, the body of the loop of [get_max_sequence_length]. *)
Definition max_length_step (primary_feature_dir feature_column : string)
    (max_length : Z) (row : gmap string cell) : IO elt Z :=
  name ← lift (row_get row feature_column);
  base ← lift (basename_of_cell name);
  let feature_path := path_join primary_feature_dir base in
  found ← path_exists feature_path;
  if negb found then
    print (WarnMissing feature_path);; mret max_length
  else
    feature_data ← np_load feature_path;
    n ← lift (shape_at feature_data 0);
    mret (Z.max max_length (Z.of_nat n)).

Definition get_max_sequence_length
    (label_info_path primary_feature_dir feature_column : string) : IO elt Z :=
  df ← read_csv label_info_path;
  for_each (max_length_step primary_feature_dir feature_column) 0%Z (df_rows df).

(** Lines 40-59, the body of the loop of [load_data]; the loop's variables
    are the three lists. *)
Definition load_row (primary_feature_dir feature_column label_column : string)
    (target_length : Z) (weight_column : string)
    (acc : list (ndarray elt) * list cell * list cell)
    (row : gmap string cell)
  : IO elt (list (ndarray elt) * list cell * list cell) :=
  let '(features, labels, sample_weights) := acc in
  name ← lift (row_get row feature_column);
  base ← lift (basename_of_cell name);
  let feature_path := path_join primary_feature_dir base in
  found ← path_exists feature_path;
  if negb found then
    print (WarnMissing feature_path);; mret acc
  else
    feature_data ← np_load feature_path;
    vector ← lift (normalized_vector zero target_length feature_data);
    label ← lift (row_get row label_column);
    weight ← lift (row_get row weight_column);
    mret (features ++ [vector], labels ++ [label], sample_weights ++ [weight]).

Definition load_data
    (label_info_path primary_feature_dir feature_column label_column : string)
    (target_length : option Z) (weight_column : string)
  : IO elt (ndarray elt * list cell * list cell) :=
  match target_length with
  | None => raise (ValueError target_length_msg)
  | Some target_length =>
      df ← read_csv label_info_path;
      df ← (if bool_decide (weight_column ∈ columns df) then mret df
            else print WarnDefaultWeight;;
                 mret (df_set_column df weight_column (CInt 1)));
      '(features, labels, sample_weights) ←
        for_each (load_row primary_feature_dir feature_column label_column
                    target_length weight_column)
                 ([], [], []) (df_rows df);
      X ← lift (np_array features);
      mret (X, labels, sample_weights)
  end.

End Loader.

(** What the program uses of scikit-learn's [StandardScaler].  A scaler
    object is the value of its fitted state: [fit_transform] returns the
    scaled matrix and the fitted object, [transform] only reads it. *)
Class ScalerAPI (elt : Type) : Type := {
  Scaler : Type;
  StandardScaler : Scaler;
  fit_transform : Scaler → ndarray elt → result (ndarray elt * Scaler);
  transform : Scaler → ndarray elt → result (ndarray elt)
}.

Section Wrappers.
Context {elt : Type} `{!Casting elt} (zero : elt) `{ScalerAPI elt}.

Definition load_train_data
    (label_info_path primary_feature_dir feature_column label_column : string)
    (target_length : option Z) (weight_column : string) (scaler : option Scaler)
  : IO elt (ndarray elt * list cell * list cell * Scaler) :=
  '(X_train, y_train, sample_weights) ←
    load_data zero label_info_path primary_feature_dir feature_column
      label_column target_length weight_column;
  match scaler with
  | None =>
      '(X_train, scaler) ← lift (fit_transform StandardScaler X_train);
      mret (X_train, y_train, sample_weights, scaler)
  | Some scaler => mret (X_train, y_train, sample_weights, scaler)
  end.

Definition load_eval_data
    (label_info_path primary_feature_dir feature_column label_column : string)
    (target_length : option Z) (scaler : option Scaler)
  : IO elt (ndarray elt * list cell) :=
  '(X_eval, y_eval, _) ←
    load_data zero label_info_path primary_feature_dir feature_column
      label_column target_length "example_weight";
  match scaler with
  | Some scaler =>
      X_eval ← lift (transform scaler X_eval);
      mret (X_eval, y_eval)
  | None => mret (X_eval, y_eval)
  end.

Definition load_test_data
    (label_info_path primary_feature_dir feature_column label_column : string)
    (target_length : option Z) (scaler : option Scaler)
  : IO elt (ndarray elt * list cell) :=
  '(X_test, y_test, _) ←
    load_data zero label_info_path primary_feature_dir feature_column
      label_column target_length "example_weight";
  match scaler with
  | Some scaler =>
      X_test ← lift (transform scaler X_test);
      mret (X_test, y_test)
  | None => mret (X_test, y_test)
  end.

End Wrappers.

(** ** RF_train_and_evaluate.py *)

(** What the program uses of the classifier, the metrics and [np.argsort].
    [predict_proba] returns one row of class probabilities per sample. *)
Class ForestAPI (elt : Type) : Type := {
  Model : Type;
  compute_class_weight_balanced : list cell → result (list Q);
  forest_fit : gmap nat Q → ndarray elt → list cell → list cell → result Model;
  predict : Model → ndarray elt → result (list cell);
  predict_proba : Model → ndarray elt → result (list (list Q));
  feature_importances_ : Model → list Q;
  accuracy_score : list cell → list cell → result Q;
  precision_score : list cell → list cell → result Q;
  recall_score : list cell → list cell → result Q;
  f1_score : list cell → list cell → result Q;
  classification_report : list cell → list cell → result string;
  roc_curve : list cell → list Q → result (list Q * list Q * list Q);
  auc : list Q → list Q → result Q;
  argsort : list Q → list nat
}.

(** [score > threshold] *)
Definition Qgtb (score threshold : Q) : bool := negb (Qle_bool score threshold).

(** Line 16: [(y_scores > threshold).astype(int)] *)
Definition threshold_predictions (y_scores : list Q) (threshold : Q) : list Z :=
  (λ score, if Qgtb score threshold then 1%Z else 0%Z) <$> y_scores.

(** [proba[:, 1]] *)
Definition column1 (proba : list (list Q)) : result (list Q) :=
  mapM (λ row : list Q,
          match row !! 1 with
          | Some p => Ok p
          | None => Raise (IndexError "index 1 is out of bounds for axis 1")
          end) proba.

(** [v[i]] *)
Definition np_index (v : list Q) (i : nat) : result Q :=
  match v !! i with
  | Some x => Ok x
  | None => Raise (IndexError "index is out of bounds for axis 0")
  end.

(** Line 107: the table [[indices[f], importances[indices[f]]]] over the
    chosen indices, which [np.savetxt] writes as an array of floats. *)
Definition feature_importance_table (importances : list Q) (indices : list nat)
  : result (list (list Q)) :=
  mapM (λ i : nat, x ← np_index importances i;
                   mret [inject_Z (Z.of_nat i); x]) indices.

Section Pipeline.
Context {elt : Type} `{!Casting elt} (zero : elt) `{ScalerAPI elt}
  `{ForestAPI elt}.

Definition evaluate_model_with_threshold (model : Model) (X_eval : ndarray elt)
    (y_eval : list cell) (threshold : Q) : IO elt (Q * Q * Q * Q) :=
  proba ← lift (predict_proba model X_eval);
  y_scores ← lift (column1 proba);
  let y_eval_pred := CInt <$> threshold_predictions y_scores threshold in
  accuracy ← lift (accuracy_score y_eval y_eval_pred);
  precision ← lift (precision_score y_eval y_eval_pred);
  recall ← lift (recall_score y_eval y_eval_pred);
  f1 ← lift (f1_score y_eval y_eval_pred);
  report ← lift (classification_report y_eval y_eval_pred);
  print (MsgReport report);;
  print (MsgThreshold threshold);;
  print (MsgMetrics accuracy precision recall f1);;
  mret (accuracy, precision, recall, f1).

(** Lines 101-104: the ranking printed to standard output. *)
Definition print_ranking (importances : list Q) (indices : list nat)
  : IO elt () :=
  for_each (λ (_ : ()) '(f, i),
              x ← lift (np_index importances i);
              print (MsgFeatureRank (f + 1) i x))
           () (imap (λ f i, (f, i)) indices).

(** Lines 29-113.  What only reads or prints runs through [reads]; lines
    93, 95, 109 and 113 change the file system and raise where they
    cannot. *)
Definition main : Run elt () :=
  target_length ← get_max_sequence_length
    "data/metadata/label_downsampled.csv" "data/downsampled_features"
    "feature_file";
  print (MsgTargetLength target_length);;
  '(X_train, y_train, sample_weights_train, scaler) ← load_train_data zero
    "data/metadata/train_downsample.csv" "data/downsampled_features"
    "contextual_feature_file" "class" (Some target_length) "example_weight"
    None;
  '(X_eval, y_eval) ← load_eval_data zero
    "data/metadata/eval_downsample.csv" "data/downsampled_features"
    "contextual_feature_file" "class" (Some target_length) (Some scaler);
  class_weights ← lift (compute_class_weight_balanced y_train);
  let class_weight_dict : gmap nat Q :=
    list_to_map (imap (λ i w, (i, w)) class_weights) in
  print (MsgText (String nl
    "Training baseline Random Forest model with 100 trees and max depth of None"));;
  baseline_model ← lift (forest_fit class_weight_dict X_train y_train
                           sample_weights_train);
  y_train_pred ← lift (predict baseline_model X_train);
  print (MsgText (String nl
    "Classification Report for the baseline Random Forest model on training data:"));;
  report ← lift (classification_report y_train y_train_pred);
  print (MsgReport report);;
  print (MsgText (String nl
    "Evaluation Results for the baseline Random Forest model on evaluation data:"));;
  let baseline_threshold := (1 # 2)%Q in
  '(_, _, _, f1) ← evaluate_model_with_threshold baseline_model X_eval y_eval
                     baseline_threshold;
  print (MsgBestModel f1);;
  proba ← lift (predict_proba baseline_model X_eval);
  y_eval_prob ← lift (column1 proba);
  '(fpr, tpr, thresholds) ← lift (roc_curve y_eval y_eval_prob);
  roc_auc ← lift (auc fpr tpr);
  let output_dir := "data/visualization" in
  makedirs output_dir;;
  let output_path := path_join output_dir "roc_auc_curve_RD_DOWN.png" in
  savefig output_path fpr tpr roc_auc;;
  let importances := feature_importances_ baseline_model in
  let indices := take 20 (reverse (argsort importances)) in
  print (MsgText "Feature ranking:");;
  print_ranking importances indices;;
  feature_importance ← lift (feature_importance_table importances indices);
  let output_csv_path :=
    path_join output_dir "feature_importance_downsampled.csv" in
  savetxt output_csv_path feature_importance "Feature,Importance";;
  dump baseline_model "models/baseline_model/best_rf_model.joblib".

End Pipeline.

(** ** Definitions used to state the properties *)

(** The error of line 28. *)
Definition config_error : exn := ValueError target_length_msg.

(** The messages printed along a trace, in order. *)
Definition printed (tr : list event) : list message :=
  omap (λ ev, match ev with EvPrint m => Some m | _ => None end) tr.

(** The path of a row's feature file: lines 14 and 40. *)
Definition feature_path_of (primary_feature_dir feature_column : string)
    (row : gmap string cell) : option string :=
  match row !! feature_column with
  | Some (CStr s) => Some (path_join primary_feature_dir (basename s))
  | _ => None
  end.

(** The rows whose feature file is a saved array, each with its array, in
    manifest order. *)
Definition resolved_rows {elt} (fs : gmap string (fsnode elt))
    (primary_feature_dir feature_column : string)
    (rows : list (gmap string cell)) : list (gmap string cell * ndarray elt) :=
  omap (λ row,
          p ← feature_path_of primary_feature_dir feature_column row;
          match fs !! p with
          | Some (NpyFile a) => Some (row, a)
          | _ => None
          end) rows.

(** The warnings for the rows whose feature file does not exist, in manifest
    order. *)
Definition missing_warnings {elt} (fs : gmap string (fsnode elt))
    (primary_feature_dir feature_column : string)
    (rows : list (gmap string cell)) : list message :=
  omap (λ row,
          p ← feature_path_of primary_feature_dir feature_column row;
          match fs !! p with
          | None => Some (WarnMissing p)
          | Some _ => None
          end) rows.

(** What walking one row leaves in the trace. *)
Definition row_trace {elt} (fs : gmap string (fsnode elt))
    (primary_feature_dir feature_column : string)
    (row : gmap string cell) : list event :=
  match feature_path_of primary_feature_dir feature_column row with
  | Some p =>
      match fs !! p with
      | Some _ => [EvExists p; EvLoad p]
      | None => [EvExists p; EvPrint (WarnMissing p)]
      end
  | None => []
  end.

(** A row [get_max_sequence_length] can walk: its feature column names a
    file, and that file, if it exists, is a saved array with at least one
    axis. *)
Definition row_walkable {elt} (fs : gmap string (fsnode elt))
    (primary_feature_dir feature_column : string)
    (row : gmap string cell) : bool :=
  match feature_path_of primary_feature_dir feature_column row with
  | Some p =>
      match fs !! p with
      | None => true
      | Some (NpyFile a) => bool_decide (shape a ≠ [])
      | Some _ => false
      end
  | None => false
  end.

(** [max] of a list of lengths, [0] for the empty list. *)
Definition max_list (l : list Z) : Z := foldr Z.max 0%Z l.

(** [a.shape[0]] of an array that has a first axis. *)
Definition first_dim {elt} (a : ndarray elt) : Z :=
  Z.of_nat (default 0 (head (shape a))).

(** The first dimensions of the arrays of the rows that resolve. *)
Definition resolved_lengths {elt} (fs : gmap string (fsnode elt))
    (primary_feature_dir feature_column : string)
    (rows : list (gmap string cell)) : list Z :=
  (λ kept, first_dim kept.2)
    <$> resolved_rows fs primary_feature_dir feature_column rows.

(** The cell of a row in a column the row has. *)
Definition cell_at (row : gmap string cell) (column : string) : cell :=
  default CNaN (row !! column).

(** Lines 33-35: the manifest once a missing weight column is filled in. *)
Definition with_default_weight (df : dataframe) (weight_column : string)
  : dataframe :=
  if bool_decide (weight_column ∈ columns df) then df
  else df_set_column df weight_column (CInt 1).

(** Truncate a 2-D array to [t] rows, or convert it to float64 and pad it
    with zeros to [t] rows, then flatten it. *)
Definition fit_length {elt} `{!Casting elt} (zero : elt) (t : nat)
    (a : ndarray elt) : ndarray elt :=
  match shape a with
  | [n; d] =>
      if decide (n < t) then
        NdArray np_float64 [t * d]
          (data (astype_array np_float64 a) ++ replicate ((t - n) * d) zero)
      else NdArray (dtype a) [t * d] (take (t * d) (data a))
  | _ => flatten a
  end.

(** The feature file of a row, if it exists, is a saved [n]-by-[d] array. *)
Definition row_feature_ok {elt} (fs : gmap string (fsnode elt))
    (primary_feature_dir feature_column : string) (d : nat)
    (row : gmap string cell) : bool :=
  match feature_path_of primary_feature_dir feature_column row with
  | Some p =>
      match fs !! p with
      | None => true
      | Some (NpyFile a) =>
          match shape a with
          | [n; d'] => bool_decide (d' = d)
                       && bool_decide (length (data a) = n * d)
          | _ => false
          end
      | Some _ => false
      end
  | None => false
  end.

(** A row the loop of [load_data] can process: its feature file is as
    above and the row has a label and a weight. *)
Definition row_loadable {elt} (fs : gmap string (fsnode elt))
    (primary_feature_dir feature_column label_column weight_column : string)
    (d : nat) (row : gmap string cell) : bool :=
  row_feature_ok fs primary_feature_dir feature_column d row
  && bool_decide (is_Some (row !! label_column))
  && bool_decide (is_Some (row !! weight_column)).

(** Every row of a DataFrame has exactly the table's columns. *)
Definition df_consistent (df : dataframe) : bool :=
  forallb (λ row : gmap string cell,
             bool_decide (dom row = list_to_set (columns df))) (df_rows df).

(** The weight of a row: its cell in the weight column, [1] without one. *)
Definition weight_of (weight_column : string) (row : gmap string cell) : cell :=
  default (CInt 1) (row !! weight_column).

(** [df'] is [df] with the column [wc] added. *)
Definition adds_column (wc : string) (df df' : dataframe) : Prop :=
  (∀ c, c ∈ columns df' ↔ c = wc ∨ c ∈ columns df)
  ∧ Forall2 (λ r r' : gmap string cell, ∀ c, c ≠ wc → r !! c = r' !! c)
      (df_rows df) (df_rows df').

(** The events of a run of [load_data] over the manifest [df]. *)
Definition load_trace {elt} (fs : gmap string (fsnode elt))
    (path dir fc wc : string) (df : dataframe) : list event :=
  EvReadCsv path
    :: (if bool_decide (wc ∈ columns df) then []
        else [EvPrint WarnDefaultWeight])
    ++ concat (row_trace fs dir fc <$> df_rows df).

(** The computation never raises [e]. *)
Definition never_raises {elt A} (e : exn) (m : IO elt A) : Prop :=
  ∀ fs tr, m fs ≠ (Raise e, tr).

(** The feature file of a row exists. *)
Definition row_file_exists {elt} (fs : gmap string (fsnode elt))
    (primary_feature_dir feature_column : string)
    (row : gmap string cell) : bool :=
  match feature_path_of primary_feature_dir feature_column row with
  | Some p => bool_decide (is_Some (fs !! p))
  | None => false
  end.

Definition is_default_warning (m : message) : bool :=
  match m with
  | WarnDefaultWeight => true
  | _ => false
  end.

Fixpoint sorted_asc (l : list Q) : bool :=
  match l with
  | x :: (y :: _) as rest => Qle_bool x y && sorted_asc rest
  | _ => true
  end.

(** What [np.argsort(v)] returns: the indices of [v], each once, in an order
    along which the values do not decrease. *)
Definition argsort_ok (v : list Q) (idx : list nat) : bool :=
  (length idx =? length v)
  && bool_decide (NoDup idx)
  && forallb (λ i, i <? length v) idx
  && sorted_asc ((λ i, default 0%Q (v !! i)) <$> idx).

(** Lines 101 and 107 together: the rows of the table. *)
Definition ranking_rows (importances : list Q) (sorted_idx : list nat)
  : list (list Q) :=
  (λ i, [inject_Z (Z.of_nat i); default 0%Q (importances !! i)])
    <$> take 20 (reverse sorted_idx).

(** Rounding of a whole number to a significand of [p] bits, to nearest,
    ties to even. *)
Definition round_to_significand (p : Z) (z : Z) : Z :=
  let a := Z.abs z in
  let e := (Z.log2 a + 1 - p)%Z in
  if (e <=? 0)%Z then z
  else
    let q := (a / 2 ^ e)%Z in
    let r := (a mod 2 ^ e)%Z in
    let half := (2 ^ (e - 1))%Z in
    let q' := if (half <? r)%Z || ((r =? half)%Z && Z.odd q)
              then (q + 1)%Z else q in
    (Z.sgn z * q' * 2 ^ e)%Z.

(** Arrays of whole numbers, held in an integer dtype or as floating-point
    values.  Conversion to a floating-point dtype rounds to its significand;
    the conversions to a boolean or integer dtype that promotion asks for
    keep the value. *)
#[global] Instance whole_number_casting : Casting Z := λ _ to z,
  match to with
  | np_float16 => round_to_significand 11 z
  | np_float32 => round_to_significand 24 z
  | np_float64 => round_to_significand 53 z
  | _ => z
  end.

(** A scaler that centres a matrix on the first entry of the matrix it was
    fit on. *)
#[global] Instance offset_scaler : ScalerAPI Z := {|
  Scaler := Z;
  StandardScaler := 0%Z;
  fit_transform _ X :=
    let m := default 0%Z (head (data X)) in
    Ok (NdArray np_float64 (shape X) ((λ x, (x - m)%Z) <$> data X), m);
  transform m X :=
    Ok (NdArray np_float64 (shape X) ((λ x, (x - m)%Z) <$> data X))
|}.

Fixpoint insert_index (v : list Q) (i : nat) (sorted : list nat) : list nat :=
  match sorted with
  | [] => [i]
  | j :: rest =>
      if Qle_bool (default 0%Q (v !! j)) (default 0%Q (v !! i))
      then j :: insert_index v i rest
      else i :: sorted
  end.

(** A stable insertion sort of the indices by value. *)
Definition insertion_argsort (v : list Q) : list nat :=
  foldl (λ sorted i, insert_index v i sorted) [] (seq 0 (length v)).

(** The share of positions at which two label vectors agree. *)
Definition agreement (y_true y_pred : list cell) : result Q :=
  Ok (Z.of_nat (length (List.filter
                          (λ p, match p with
                                | (CInt a, CInt b) => (a =? b)%Z
                                | _ => false
                                end) (zip y_true y_pred)))
      # Pos.of_succ_nat (length y_true))%Q.

(** A classifier that gives every sample the probabilities [9/10, 1/10] and
    whose three features have importances [1/2, 1/4, 1/2]. *)
#[global] Instance constant_forest : ForestAPI Z := {|
  Model := ();
  compute_class_weight_balanced _ := Ok [1%Q; 1%Q];
  forest_fit _ _ _ _ := Ok ();
  predict _ X := (λ n, replicate n (CInt 0)) <$> np_len X;
  predict_proba _ X := (λ n, replicate n [(9 # 10)%Q; (1 # 10)%Q]) <$> np_len X;
  feature_importances_ _ := [(1 # 2)%Q; (1 # 4)%Q; (1 # 2)%Q];
  accuracy_score := agreement;
  precision_score := agreement;
  recall_score := agreement;
  f1_score := agreement;
  classification_report _ _ := Ok "report";
  roc_curve _ _ := Ok ([0%Q; 1%Q], [0%Q; 1%Q], [1%Q; 0%Q]);
  auc _ _ := Ok (1 # 2)%Q;
  argsort := insertion_argsort
|}.

(** An [n]-by-2 float64 array holding [k+1], [k+2], ... *)
Definition ramp (k : Z) (n : nat) : ndarray Z :=
  NdArray np_float64 [n; 2] ((λ i, (k + Z.of_nat i)%Z) <$> seq 1 (n * 2)).

Definition manifest_row (cells : list (string * cell)) : gmap string cell :=
  list_to_map cells.

(** A manifest naming arrays of 3, 7 and 5 rows and one file that does not
    exist. *)
Definition lengths_manifest : dataframe :=
  DataFrame ["feature_file"; "class"] [
    manifest_row [("feature_file", CStr "raw/a.npy"); ("class", CInt 0)];
    manifest_row [("feature_file", CStr "raw/gone.npy"); ("class", CInt 1)];
    manifest_row [("feature_file", CStr "raw/b.npy"); ("class", CInt 1)];
    manifest_row [("feature_file", CStr "c.npy"); ("class", CInt 0)]].

(** A manifest of one missing and one existing file, without weights. *)
Definition two_manifest : dataframe :=
  DataFrame ["feature_file"; "class"] [
    manifest_row [("feature_file", CStr "raw/gone.npy"); ("class", CInt 1)];
    manifest_row [("feature_file", CStr "raw/a.npy"); ("class", CInt 0)]].

(** The same manifest with a weight column. *)
Definition two_weighted_manifest : dataframe :=
  DataFrame ["feature_file"; "class"; "example_weight"] [
    manifest_row [("feature_file", CStr "raw/gone.npy"); ("class", CInt 1);
                  ("example_weight", CFloat (3 # 2))];
    manifest_row [("feature_file", CStr "raw/a.npy"); ("class", CInt 0);
                  ("example_weight", CFloat (1 # 2))]].

Definition demo_fs : gmap string (fsnode Z) :=
  list_to_map [
    ("features/a.npy", NpyFile (ramp 0 3));
    ("features/b.npy", NpyFile (ramp 10 7));
    ("features/c.npy", NpyFile (ramp 30 5));
    ("lengths.csv", CsvFile lengths_manifest);
    ("two.csv", CsvFile two_manifest);
    ("two_weighted.csv", CsvFile two_weighted_manifest)
  ].

(** The directories and files [main] finds, with a label manifest whose only
    array has one row and a training manifest whose array has three. *)
Definition pipeline_fs : gmap string (fsnode Z) :=
  list_to_map [
    ("data", Directory);
    ("data/downsampled_features", Directory);
    ("data/metadata", Directory);
    ("models", Directory);
    ("models/baseline_model", Directory);
    ("data/downsampled_features/short.npy", NpyFile (ramp 0 1));
    ("data/downsampled_features/long.npy", NpyFile (ramp 10 3));
    ("data/metadata/label_downsampled.csv",
     CsvFile (DataFrame ["feature_file"; "class"] [
       manifest_row [("feature_file", CStr "short.npy"); ("class", CInt 0)]]));
    ("data/metadata/train_downsample.csv",
     CsvFile (DataFrame ["contextual_feature_file"; "class"; "example_weight"] [
       manifest_row [("contextual_feature_file", CStr "long.npy");
                     ("class", CInt 1); ("example_weight", CFloat 2)];
       manifest_row [("contextual_feature_file", CStr "short.npy");
                     ("class", CInt 0); ("example_weight", CFloat 1)]]));
    ("data/metadata/eval_downsample.csv",
     CsvFile (DataFrame ["contextual_feature_file"; "class"] [
       manifest_row [("contextual_feature_file", CStr "long.npy");
                     ("class", CInt 1)]]))
  ].

(** The padded array as C1 words it: the original rows, followed by rows of
    zeros up to [t] rows. *)
Definition original_rows_then_zeros {elt} (zero : elt) (t : nat)
    (a a' : ndarray elt) : Prop :=
  ∃ n d, shape a = [n; d]
         ∧ array_rows a'
           = array_rows a ++ replicate (t - n) (replicate d zero).

(** A 1-by-1 int64 array holding [2^53 + 1], which no float64 is. *)
Definition big_int_array : ndarray Z :=
  NdArray (np_int W64) [1; 1] [(2 ^ 53 + 1)%Z].

(** The wrappers as C8 words them: they differ only in what they do with
    the scaler.  Where neither does anything with it, [load_train_data]
    being given a scaler and [load_eval_data] none, they then do the same
    on the same arguments: the same trace, and the same matrix and labels
    or the same exception. *)
Definition differ_only_in_scaler_handling {elt} `{!Casting elt} (zero : elt)
    `{ScalerAPI elt} : Prop :=
  ∀ fs path dir fc lc tl wc scaler,
    let train := load_train_data zero path dir fc lc tl wc (Some scaler) fs in
    let eval := load_eval_data zero path dir fc lc tl None fs in
    train.2 = eval.2
    ∧ match train.1, eval.1 with
      | Ok (X, y, _, _), Ok (X', y') => X = X' ∧ y = y'
      | Raise e, Raise e' => e = e'
      | _, _ => False
      end.

(** The table as C9 words it: twenty rows, each giving rank, feature index
    and importance, in order of strictly decreasing importance. *)
Definition rows_give_rank_index_importance (table : list (list Q)) : Prop :=
  ∀ k row, table !! k = Some row →
    ∃ index importance,
      row = [inject_Z (Z.of_nat (k + 1)); index; importance].

Definition strictly_decreasing_importance (table : list (list Q)) : Prop :=
  ∀ a b ra rb xa xb, a < b →
    table !! a = Some ra → table !! b = Some rb →
    last ra = Some xa → last rb = Some xb → (xb < xa)%Q.

(** ** Definitions used to state the further properties *)

(** The feature column of the row names a file that does not exist. *)
Definition row_file_missing {elt} (fs : gmap string (fsnode elt))
    (primary_feature_dir feature_column : string)
    (row : gmap string cell) : bool :=
  match feature_path_of primary_feature_dir feature_column row with
  | Some p => bool_decide (fs !! p = None)
  | None => false
  end.

(** A row the loop of [load_data] can process whatever the number of
    columns of its array: the feature file, if it exists, is a saved 2-D
    array, and the row has a label and a weight. *)
Definition row_loadable_any {elt} (fs : gmap string (fsnode elt))
    (primary_feature_dir feature_column label_column weight_column : string)
    (row : gmap string cell) : bool :=
  match feature_path_of primary_feature_dir feature_column row with
  | Some p =>
      match fs !! p with
      | None => true
      | Some (NpyFile a) =>
          match shape a with
          | [n; d] => bool_decide (length (data a) = n * d)
          | _ => false
          end
      | Some _ => false
      end
  | None => false
  end
  && bool_decide (is_Some (row !! label_column))
  && bool_decide (is_Some (row !! weight_column)).

(** The paths whose existence a trace checks, and the paths it loads, in
    order. *)
Definition checked_paths (tr : list event) : list string :=
  omap (λ ev, match ev with EvExists p => Some p | _ => None end) tr.

Definition loaded_paths (tr : list event) : list string :=
  omap (λ ev, match ev with EvLoad p => Some p | _ => None end) tr.

Definition manifests_read (tr : list event) : list string :=
  omap (λ ev, match ev with EvReadCsv p => Some p | _ => None end) tr.

(** The events that change the file system, and the path each changes. *)
Definition is_write (ev : event) : bool :=
  match ev with
  | EvMakedirs _ | EvSaveFig _ _ _ _ | EvSaveTxt _ _ _ | EvDump _ => true
  | _ => false
  end.

Definition write_target (ev : event) : option string :=
  match ev with
  | EvMakedirs p | EvSaveFig p _ _ _ | EvSaveTxt p _ _ | EvDump p => Some p
  | _ => None
  end.

Definition is_dump (ev : event) : bool :=
  match ev with
  | EvDump _ => true
  | _ => false
  end.

(** Every event of every run of [m], returning or raising, satisfies [P]. *)
Definition trace_all {elt A} (P : event → Prop) (m : IO elt A) : Prop :=
  ∀ fs, Forall P (m fs).2.

(** The paths of lines 92-94, 108 and 113. *)
Definition output_paths : list string :=
  ["data/visualization";
   "data/visualization/roc_auc_curve_RD_DOWN.png";
   "data/visualization/feature_importance_downsampled.csv";
   "models/baseline_model/best_rf_model.joblib"].

(** Every event of every run of [m], returning or raising, satisfies [P]. *)
Definition run_trace_all {elt A} (P : event → Prop) (m : Run elt A) : Prop :=
  ∀ fs, Forall P (m fs).1.2.

(** No run of [m], returning or raising, changes what is at a path that
    satisfies [Q]. *)
Definition leaves {elt A} (Q : string → Prop) (m : Run elt A) : Prop :=
  ∀ fs q, Q q → (m fs).2 !! q = fs !! q.

(** Where line 113 writes the model. *)
Definition model_dir : string := "models/baseline_model".
Definition model_path : string := "models/baseline_model/best_rf_model.joblib".

(** A computation that writes the model as its last action when it
    returns, which takes the model directory to exist beforehand, and
    otherwise writes no model. *)
Definition dump_last {elt A} (m : Run elt A) : Prop :=
  ∀ fs,
    match m fs with
    | (Ok _, tr, fs') =>
        (∃ tr', tr = tr' ++ [EvDump model_path]
                ∧ Forall (λ ev, is_dump ev = false) tr')
        ∧ fs' !! model_path = Some OtherFile
        ∧ fs !! model_dir = Some Directory
    | (Raise _, tr, fs') =>
        Forall (λ ev, is_dump ev = false) tr
        ∧ fs' !! model_path = fs !! model_path
    end.

(** The paths at which [main] can change the file system: its outputs and
    the directory above the output directory, which line 93 creates when
    it is missing. *)
Definition written_paths : list string := "data" :: output_paths.

(** What [main] finds where the model directory is missing. *)
Definition no_model_dir_fs : gmap string (fsnode Z) :=
  delete "models" (delete "models/baseline_model" pipeline_fs).

(** Manifests with a feature cell that is no string, with missing files
    only and no label column, and with arrays of 2 and of 3 columns. *)
Definition bad_cell_manifest : dataframe :=
  DataFrame ["feature_file"; "class"; "example_weight"] [
    manifest_row [("feature_file", CStr "raw/a.npy"); ("class", CInt 0);
                  ("example_weight", CFloat 1)];
    manifest_row [("feature_file", CNaN); ("class", CInt 1);
                  ("example_weight", CFloat 1)];
    manifest_row [("feature_file", CStr "raw/a.npy"); ("class", CInt 1);
                  ("example_weight", CFloat 1)]].

Definition missing_only_manifest : dataframe :=
  DataFrame ["feature_file"] [
    manifest_row [("feature_file", CStr "raw/gone1.npy")];
    manifest_row [("feature_file", CStr "/abs/gone2.npy")]].

Definition mixed_width_manifest : dataframe :=
  DataFrame ["feature_file"; "class"; "example_weight"] [
    manifest_row [("feature_file", CStr "a.npy"); ("class", CInt 0);
                  ("example_weight", CFloat 1)];
    manifest_row [("feature_file", CStr "wide.npy"); ("class", CInt 1);
                  ("example_weight", CFloat 1)]].

Definition edge_fs : gmap string (fsnode Z) :=
  list_to_map [
    ("features/a.npy", NpyFile (ramp 0 3));
    ("features/wide.npy",
     NpyFile (NdArray np_float64 [2; 3] [1; 2; 3; 4; 5; 6]%Z));
    ("bad.csv", CsvFile bad_cell_manifest);
    ("missing.csv", CsvFile missing_only_manifest);
    ("mixed.csv", CsvFile mixed_width_manifest)
  ].

(** A classifier fit on a single class: [predict_proba] has one column. *)
Definition single_class_forest : ForestAPI Z := {|
  Model := ();
  compute_class_weight_balanced _ := Ok [1%Q];
  forest_fit _ _ _ _ := Ok ();
  predict _ X := (λ n, replicate n (CInt 0)) <$> np_len X;
  predict_proba _ X := (λ n, replicate n [1%Q]) <$> np_len X;
  feature_importances_ _ := [1%Q];
  accuracy_score := agreement;
  precision_score := agreement;
  recall_score := agreement;
  f1_score := agreement;
  classification_report _ _ := Ok "report";
  roc_curve _ _ := Ok ([0%Q; 1%Q], [0%Q; 1%Q], [1%Q; 0%Q]);
  auc _ _ := Ok (1 # 2)%Q;
  argsort := insertion_argsort
|}.

(** * Properties *)

(** ** Row-major buffers *)

Section Chunks.
Context {elt : Type} `{!Casting elt}.
Implicit Types (l : list elt) (d n k : nat).

Lemma chunks_length d n l : length (chunks d n l) = n.
Proof. unfold chunks. by rewrite length_fmap, length_seq. Qed.

Lemma chunks_S d n l :
  chunks d (S n) l = take d l :: chunks d n (drop d l).
Proof.
  unfold chunks. cbn [seq fmap list_fmap]. f_equal.
  rewrite <- fmap_S_seq, <- list_fmap_compose.
  apply list_fmap_ext. intros _ i _. cbn.
  rewrite drop_drop. do 2 f_equal; lia.
Qed.

Lemma concat_chunks d n l : length l = n * d → concat (chunks d n l) = l.
Proof.
  revert l. induction n as [|n IH]; intros l Hl.
  - destruct l; [done | cbn in Hl; lia].
  - rewrite chunks_S. cbn [concat]. rewrite IH.
    + apply take_drop.
    + rewrite length_drop. lia.
Qed.

(** Truncating the buffer after [k] rows keeps the first [k] rows. *)
Lemma chunks_take d n k l :
  k ≤ n → chunks d k (take (k * d) l) = take k (chunks d n l).
Proof.
  intros Hk. unfold chunks. rewrite <- fmap_take, take_seq.
  replace (k `min` n) with k by lia.
  apply list_fmap_ext. intros j i Hi.
  apply lookup_seq in Hi as [-> Hi]. cbn.
  rewrite !take_drop_commute, take_take. do 2 f_equal. nia.
Qed.

(** Appending [m * d] copies of [z] appends [m] rows of [z]. *)
Lemma chunks_app_replicate d n m l (z : elt) :
  length l = n * d →
  chunks d (n + m) (l ++ replicate (m * d) z)
  = chunks d n l ++ replicate m (replicate d z).
Proof.
  intros Hl. unfold chunks. rewrite seq_app, fmap_app. f_equal.
  - apply list_fmap_ext. intros j i Hi.
    apply lookup_seq in Hi as [-> Hi]. cbn.
    rewrite drop_app_le by nia.
    apply take_app_le. rewrite length_drop. nia.
  - cbn [Nat.add].
    replace (seq n m) with (Nat.add n <$> seq 0 m)
      by (rewrite fmap_add_seq; f_equal; lia).
    rewrite <- list_fmap_compose.
    rewrite (const_fmap _ (seq 0 m) (replicate d z)).
    + by rewrite length_seq.
    + intros i j Hj. apply lookup_seq in Hj as [-> Hj]. cbn.
      rewrite drop_app_ge by nia.
      rewrite drop_replicate, take_replicate. f_equal. nia.
Qed.

End Chunks.

(** ** Length normalization *)

Section Dtypes.
Context {elt : Type} `{!Casting elt}.
Implicit Types (a : ndarray elt) (dt : np_dtype).

Lemma promote_types_float64_r dt : promote_types dt np_float64 = np_float64.
Proof. by destruct dt as [|[]|[]| | |]. Qed.

Lemma promote_types_float64_l dt : promote_types np_float64 dt = np_float64.
Proof. by destruct dt as [|[]|[]| | |]. Qed.

Lemma promote_types_idemp dt : promote_types dt dt = dt.
Proof. by destruct dt as [|[]|[]| | |]. Qed.

Lemma astype_array_same dt a : dtype a = dt → astype_array dt a = a.
Proof. intros Hdt. unfold astype_array. by rewrite decide_True. Qed.

Lemma astype_array_dtype dt a : dtype (astype_array dt a) = dt.
Proof. unfold astype_array. by case_decide. Qed.

Lemma astype_array_shape dt a : shape (astype_array dt a) = shape a.
Proof. unfold astype_array. by case_decide. Qed.

Lemma astype_array_length dt a :
  length (data (astype_array dt a)) = length (data a).
Proof. unfold astype_array. case_decide; [done|]. cbn. by rewrite length_fmap. Qed.

End Dtypes.

Section NormalizationProps.
Context {elt : Type} `{!Casting elt} (zero : elt).
Implicit Types (a : ndarray elt).

Lemma array_rows_2d dt n d (l : list elt) :
  array_rows (NdArray dt [n; d] l) = chunks d n l.
Proof. unfold array_rows. cbn. by rewrite Nat.mul_1_r. Qed.

Lemma flatten_2d dt n d (l : list elt) :
  flatten (NdArray dt [n; d] l) = NdArray dt [n * d] l.
Proof. unfold flatten. cbn. by rewrite Nat.mul_1_r. Qed.

(** Line 52 for a 2-D array and the zeros of line 51: the array is converted
    to float64 and the zeros follow it. *)
Lemma vstack_zeros a n d m :
  shape a = [n; d] →
  vstack a (NdArray np_float64 [m; d] (replicate (m * d) zero))
  = Ok (NdArray np_float64 [n + m; d]
          (data (astype_array np_float64 a) ++ replicate (m * d) zero)).
Proof.
  intros Hsh. unfold vstack, concatenate0, atleast_2d. rewrite Hsh. cbn.
  rewrite Hsh. cbn.
  rewrite !decide_True by done. rewrite promote_types_float64_r.
  by rewrite (astype_array_same np_float64 (NdArray np_float64 _ _)).
Qed.


End NormalizationProps.

(** ** The computation monad *)

Section IOProps.
Context {elt : Type} `{!Casting elt}.
Implicit Types (fs : gmap string (fsnode elt)) (tr : list event).

Lemma IO_bind_ok {A B} (m : IO elt A) (f : A → IO elt B) fs a b tr1 tr2 :
  m fs = (Ok a, tr1) → f a fs = (b, tr2) → (m ≫= f) fs = (b, tr1 ++ tr2).
Proof. intros Hm Hf. unfold mbind, IO_bind. by rewrite Hm, Hf. Qed.

Lemma IO_bind_ok_eq {A B} (m : IO elt A) (f : A → IO elt B) fs a b tr1 tr2 tr :
  m fs = (Ok a, tr1) → f a fs = (b, tr2) → tr = tr1 ++ tr2 →
  (m ≫= f) fs = (b, tr).
Proof. intros Hm Hf ->. by apply (IO_bind_ok _ _ _ a). Qed.

Lemma IO_bind_inv {A B} (m : IO elt A) (f : A → IO elt B) fs b tr :
  (m ≫= f) fs = (Ok b, tr) →
  ∃ a tr1 tr2, m fs = (Ok a, tr1) ∧ f a fs = (Ok b, tr2) ∧ tr = tr1 ++ tr2.
Proof.
  unfold mbind, IO_bind. destruct (m fs) as [[a|e] tr1]; [|done].
  destruct (f a fs) as [r tr2] eqn:Hf. intros [= -> <-].
  by exists a, tr1, tr2.
Qed.

End IOProps.

(** ** [get_max_sequence_length] *)

Section MaxLength.
Context {elt : Type} `{!Casting elt}.
Implicit Types (fs : gmap string (fsnode elt)) (row : gmap string cell).

Lemma feature_path_of_Some dir fc row p :
  feature_path_of dir fc row = Some p →
  ∃ s, row !! fc = Some (CStr s) ∧ p = path_join dir (basename s).
Proof.
  unfold feature_path_of. destruct (row !! fc) as [[s| | |]|]; try done.
  intros [= <-]. eauto.
Qed.

Lemma max_length_step_missing fs dir fc acc row p :
  feature_path_of dir fc row = Some p → fs !! p = None →
  max_length_step dir fc acc row fs
  = (Ok acc, [EvExists p; EvPrint (WarnMissing p)]).
Proof.
  intros (s & Hs & ->)%feature_path_of_Some Hp.
  unfold max_length_step, mbind, IO_bind, lift, row_get, path_exists.
  rewrite Hs. cbn. rewrite Hp. by rewrite bool_decide_false by by intros [].
Qed.

Lemma max_length_step_found fs dir fc acc row p a :
  feature_path_of dir fc row = Some p → fs !! p = Some (NpyFile a) →
  shape a ≠ [] →
  max_length_step dir fc acc row fs
  = (Ok (Z.max acc (first_dim a)), [EvExists p; EvLoad p]).
Proof.
  intros (s & Hs & ->)%feature_path_of_Some Hp Ha.
  unfold max_length_step, mbind, IO_bind, lift, row_get, path_exists, np_load.
  rewrite Hs. cbn. rewrite Hp. rewrite bool_decide_true by eauto. cbn.
  rewrite Hp. unfold shape_at, first_dim.
  destruct (shape a) as [|n rest]; [done|]. done.
Qed.

Lemma max_list_bounds (l : list Z) :
  (∀ x, x ∈ l → (x ≤ max_list l)%Z)
  ∧ (l ≠ [] → Forall (λ x, (0 ≤ x)%Z) l → max_list l ∈ l)
  ∧ (0 ≤ max_list l)%Z.
Proof.
  unfold max_list. induction l as [|x l (IH1 & IH2 & IH3)]; cbn [foldr].
  - split; [by intros x ?%elem_of_nil|]. split; [done|lia].
  - split; [|split; [|lia]].
    + intros y [->|Hy]%elem_of_cons; [lia|]. specialize (IH1 y Hy). lia.
    + intros _ [Hx Hl]%Forall_cons.
      destruct (Z.max_spec x (foldr Z.max 0%Z l)) as [[Hlt ->]|[_ ->]].
      * destruct l as [|x' l']; [cbn in Hlt; lia|].
        right. by apply IH2.
      * left.
Qed.

Lemma max_length_loop fs dir fc rows acc :
  forallb (row_walkable fs dir fc) rows = true → (0 ≤ acc)%Z →
  for_each (max_length_step dir fc) acc rows fs
  = (Ok (Z.max acc (max_list (resolved_lengths fs dir fc rows))),
     concat (row_trace fs dir fc <$> rows)).
Proof.
  revert acc. induction rows as [|row rows IH]; intros acc Hw Hacc.
  - cbn. unfold mret, IO_ret. do 2 f_equal. lia.
  - cbn in Hw. apply andb_prop in Hw as [Hrow Hrows].
    unfold row_walkable in Hrow. cbn [for_each fmap list_fmap concat].
    unfold resolved_lengths, resolved_rows, row_trace. cbn [omap list_omap].
    destruct (feature_path_of dir fc row) as [p|] eqn:Hp; [|done].
    cbn [mbind option_bind].
    destruct (fs !! p) as [[df|a| |]|] eqn:Hfs; try done.
    + apply bool_decide_eq_true in Hrow.
      erewrite IO_bind_ok;
        [|by eapply max_length_step_found|apply IH; [done|lia]].
      cbn. do 2 f_equal. unfold resolved_lengths, resolved_rows, max_list.
      lia.
    + erewrite IO_bind_ok;
        [|by eapply max_length_step_missing|by apply IH].
      done.
Qed.

End MaxLength.

Section MaxLengthSpec.
Context {elt : Type} `{!Casting elt}.
Implicit Types (fs : gmap string (fsnode elt)) (row : gmap string cell).

Lemma printed_app tr1 tr2 : printed (tr1 ++ tr2) = printed tr1 ++ printed tr2.
Proof. apply omap_app. Qed.

Lemma printed_row_traces fs dir fc rows :
  printed (concat (row_trace fs dir fc <$> rows))
  = missing_warnings fs dir fc rows.
Proof.
  induction rows as [|row rows IH]; [done|].
  cbn [fmap list_fmap concat]. rewrite printed_app, IH.
  unfold missing_warnings, row_trace. cbn [omap list_omap].
  destruct (feature_path_of dir fc row) as [p|]; [|done].
  cbn [mbind option_bind]. by destruct (fs !! p).
Qed.

Lemma resolved_lengths_nonneg fs dir fc rows :
  Forall (λ x, (0 ≤ x)%Z) (resolved_lengths fs dir fc rows).
Proof.
  unfold resolved_lengths. apply Forall_fmap, Forall_true.
  intros [row a]. unfold first_dim. cbn. lia.
Qed.

(** C3.  Over a manifest whose rows can be walked,
    [get_max_sequence_length] returns the greatest first dimension among
    the arrays of the rows whose feature file exists, and [0] when no row
    resolves; each row whose file is missing is skipped with one warning
    and contributes nothing. *)
Theorem get_max_sequence_length_maximum fs path dir fc df :
  fs !! path = Some (CsvFile df) →
  forallb (row_walkable fs dir fc) (df_rows df) = true →
  ∃ m tr,
    get_max_sequence_length path dir fc fs = (Ok m, tr)
    ∧ m = max_list (resolved_lengths fs dir fc (df_rows df))
    ∧ (∀ x, x ∈ resolved_lengths fs dir fc (df_rows df) → (x ≤ m)%Z)
    ∧ (resolved_rows fs dir fc (df_rows df) ≠ [] →
         m ∈ resolved_lengths fs dir fc (df_rows df))
    ∧ (resolved_rows fs dir fc (df_rows df) = [] → m = 0%Z)
    ∧ printed tr = missing_warnings fs dir fc (df_rows df).
Proof.
  intros Hcsv Hwalk.
  pose proof (max_list_bounds (resolved_lengths fs dir fc (df_rows df)))
    as (Hub & Hmem & Hpos).
  eexists _, _. split.
  { unfold get_max_sequence_length. eapply IO_bind_ok.
    - unfold read_csv. by rewrite Hcsv.
    - by apply max_length_loop. }
  rewrite Z.max_r by done.
  split; [done|]. split; [done|]. split; [|split].
  - intros Hne. apply Hmem; [|apply resolved_lengths_nonneg].
    unfold resolved_lengths. by intros ?%fmap_nil_inv.
  - unfold resolved_lengths. by intros ->.
  - cbn [app printed omap list_omap]. apply printed_row_traces.
Qed.

End MaxLengthSpec.

(** ** [load_data] *)

Section LoadLoop.
Context {elt : Type} `{!Casting elt} (zero : elt).
Implicit Types (fs : gmap string (fsnode elt)) (row : gmap string cell).
Implicit Types (a : ndarray elt).

Lemma normalized_vector_fit (t : Z) n d a :
  shape a = [n; d] → length (data a) = n * d → (0 ≤ t)%Z →
  normalized_vector zero t a = Ok (fit_length zero (Z.to_nat t) a).
Proof.
  intros Hsh Hlen Ht.
  unfold fit_length, normalized_vector, normalize_length, shape_at.
  rewrite Hsh. cbn.
  destruct (Z.gtb_spec (Z.of_nat n) t) as [Hgt|Hle].
  - unfold slice_rows, slice_stop. rewrite Hsh. cbn.
    rewrite (proj2 (Z.leb_le _ _) Ht), Nat.mul_1_r.
    replace (Z.to_nat t `min` n) with (Z.to_nat t) by lia.
    rewrite decide_False by lia.
    unfold flatten. cbn. by rewrite Nat.mul_1_r.
  - destruct (Z.ltb_spec (Z.of_nat n) t) as [Hlt|Hge].
    + unfold np_zeros2.
      destruct (Z.ltb_spec (t - Z.of_nat n) 0) as [?|_]; [lia|].
      cbn. rewrite (vstack_zeros zero a n d) by done. cbn.
      rewrite decide_True by lia. unfold flatten. cbn.
      replace (Z.to_nat (t - Z.of_nat n)) with (Z.to_nat t - n) by lia.
      do 3 f_equal. lia.
    + cbn. rewrite decide_False by lia. unfold flatten. rewrite Hsh. cbn.
      replace (Z.to_nat t) with n by lia.
      rewrite take_ge by lia. do 3 f_equal. lia.
Qed.

Lemma fit_length_shape (t n d : nat) a :
  shape a = [n; d] → shape (fit_length zero t a) = [t * d].
Proof. intros Hsh. unfold fit_length. rewrite Hsh. by case_decide. Qed.

Lemma fit_length_length (t n d : nat) a :
  shape a = [n; d] → length (data a) = n * d →
  length (data (fit_length zero t a)) = t * d.
Proof.
  intros Hsh Hlen. unfold fit_length. rewrite Hsh. case_decide; cbn.
  - rewrite length_app, length_replicate, astype_array_length. nia.
  - rewrite length_take. nia.
Qed.

Lemma load_row_missing fs dir fc lc t wc acc row p :
  feature_path_of dir fc row = Some p → fs !! p = None →
  load_row zero dir fc lc t wc acc row fs
  = (Ok acc, [EvExists p; EvPrint (WarnMissing p)]).
Proof.
  intros (s & Hs & ->)%feature_path_of_Some Hp.
  destruct acc as [[F L] W].
  unfold load_row, mbind, IO_bind, lift, row_get, path_exists.
  rewrite Hs. cbn. rewrite Hp. by rewrite bool_decide_false by by intros [].
Qed.

Lemma load_row_found fs dir fc lc t wc F L W row p a n d :
  feature_path_of dir fc row = Some p → fs !! p = Some (NpyFile a) →
  shape a = [n; d] → length (data a) = n * d → (0 ≤ t)%Z →
  is_Some (row !! lc) → is_Some (row !! wc) →
  load_row zero dir fc lc t wc (F, L, W) row fs
  = (Ok (F ++ [fit_length zero (Z.to_nat t) a],
         L ++ [cell_at row lc], W ++ [cell_at row wc]),
     [EvExists p; EvLoad p]).
Proof.
  intros (s & Hs & ->)%feature_path_of_Some Hp Hsh Hlen Ht [l Hl] [w Hw].
  unfold load_row, mbind, IO_bind, lift, row_get, path_exists, np_load, cell_at.
  rewrite Hs. cbn. rewrite Hp. rewrite bool_decide_true by eauto. cbn.
  rewrite Hp, (normalized_vector_fit t n d) by done.
  by rewrite Hl, Hw.
Qed.

Lemma load_loop fs dir fc lc wc t d rows F L W :
  (0 ≤ t)%Z → forallb (row_loadable fs dir fc lc wc d) rows = true →
  for_each (load_row zero dir fc lc t wc) (F, L, W) rows fs
  = (Ok (F ++ ((λ kept, fit_length zero (Z.to_nat t) kept.2)
                 <$> resolved_rows fs dir fc rows),
         L ++ ((λ kept, cell_at kept.1 lc) <$> resolved_rows fs dir fc rows),
         W ++ ((λ kept, cell_at kept.1 wc) <$> resolved_rows fs dir fc rows)),
     concat (row_trace fs dir fc <$> rows)).
Proof.
  intros Ht. revert F L W.
  induction rows as [|row rows IH]; intros F L W Hrows.
  - cbn. unfold mret, IO_ret. by rewrite !app_nil_r.
  - cbn in Hrows. apply andb_prop in Hrows as [Hrow Hrows].
    apply andb_prop in Hrow as [[Ha Hl%bool_decide_eq_true]%andb_prop
                                 Hw%bool_decide_eq_true].
    unfold row_feature_ok in Ha. cbn [for_each fmap list_fmap concat].
    unfold resolved_rows, row_trace. cbn [omap list_omap].
    destruct (feature_path_of dir fc row) as [p|] eqn:Hp; [|done].
    cbn [mbind option_bind].
    destruct (fs !! p) as [[df|a| |]|] eqn:Hfs; try done.
    + destruct (shape a) as [|n [|d' [|]]] eqn:Hsh; try done.
      apply andb_prop in Ha as [->%bool_decide_eq_true Hlen%bool_decide_eq_true].
      erewrite IO_bind_ok;
        [|by eapply load_row_found|by apply IH].
      cbn. by rewrite <- !app_assoc.
    + erewrite IO_bind_ok;
        [|by eapply load_row_missing|by apply IH].
      done.
Qed.

End LoadLoop.

Section Stacking.
Context {elt : Type} `{!Casting elt}.
Implicit Types (vs : list (ndarray elt)).

Lemma chunks_concat d (ls : list (list elt)) :
  Forall (λ l, length l = d) ls → chunks d (length ls) (concat ls) = ls.
Proof.
  induction 1 as [|l ls Hl _ IH]; [done|].
  cbn [length concat]. rewrite chunks_S.
  rewrite take_app_length', drop_app_length' by done. by rewrite IH.
Qed.

Lemma np_array_uniform vs L :
  Forall (λ v, shape v = [L] ∧ length (data v) = L) vs →
  ∃ X, np_array vs = Ok X ∧ np_len X = Ok (length vs)
       ∧ array_rows X = (λ v, data (astype_array (dtype X) v)) <$> vs.
Proof.
  intros Hvs. destruct vs as [|v vs]; [by eexists|].
  pose proof Hvs as Hall'.
  apply Forall_cons in Hvs as [[Hsh Hlen] Hvs].
  assert (forallb (λ u, bool_decide (shape u = shape v)) vs = true) as Hall.
  { apply Is_true_true, forallb_True.
    eapply Forall_impl; [done|]. intros u [Hu _]. cbn.
    apply bool_decide_pack. congruence. }
  unfold np_array. rewrite Hall.
  eexists. split; [done|]. split; [done|].
  unfold array_rows. cbn [shape data dtype]. rewrite Hsh. cbn [size_of foldr].
  rewrite Nat.mul_1_r.
  rewrite <- (length_fmap (λ u, data (astype_array (common_dtype v vs) u))).
  rewrite chunks_concat; [done|].
  apply Forall_fmap. eapply Forall_impl; [exact Hall'|].
  intros u [_ Hu]. cbn. by rewrite astype_array_length.
Qed.

End Stacking.

Section Agreement.
Context {elt : Type} `{!Casting elt}.
Implicit Types (fs : gmap string (fsnode elt)) (row : gmap string cell).

Lemma feature_path_of_agree dir fc row row' :
  row !! fc = row' !! fc →
  feature_path_of dir fc row = feature_path_of dir fc row'.
Proof. unfold feature_path_of. by intros ->. Qed.

Lemma row_traces_agree fs dir fc rows rows' :
  Forall2 (λ r r', r !! fc = r' !! fc) rows rows' →
  concat (row_trace fs dir fc <$> rows) = concat (row_trace fs dir fc <$> rows').
Proof.
  induction 1 as [|r r' rows rows' Hr _ IH]; [done|]. cbn.
  unfold row_trace at 1 3. by rewrite (feature_path_of_agree dir fc r r'), IH.
Qed.

Lemma row_feature_ok_agree fs dir fc d rows rows' :
  Forall2 (λ r r', r !! fc = r' !! fc) rows rows' →
  forallb (row_feature_ok fs dir fc d) rows
  = forallb (row_feature_ok fs dir fc d) rows'.
Proof.
  induction 1 as [|r r' rows rows' Hr _ IH]; [done|]. cbn.
  unfold row_feature_ok at 1 3.
  by rewrite (feature_path_of_agree dir fc r r'), IH.
Qed.

(** What is computed from the resolved rows is the same for two manifests
    that agree on the feature column and on what is computed. *)
Lemma resolved_rows_agree {B} fs dir fc
    (g g' : gmap string cell → ndarray elt → B) rows rows' :
  Forall2 (λ r r', r !! fc = r' !! fc ∧ ∀ a, g r a = g' r' a) rows rows' →
  (λ k, g k.1 k.2) <$> resolved_rows fs dir fc rows
  = (λ k, g' k.1 k.2) <$> resolved_rows fs dir fc rows'.
Proof.
  induction 1 as [|r r' rows rows' [Hr Hg] _ IH]; [done|].
  unfold resolved_rows in *. cbn [omap list_omap].
  rewrite (feature_path_of_agree dir fc r r') by done.
  destruct (feature_path_of dir fc r') as [p|]; [|done].
  cbn [mbind option_bind].
  destruct (fs !! p) as [[|a| |]|]; try done.
  cbn. by rewrite Hg, IH.
Qed.

Lemma resolved_rows_elem fs dir fc rows row a :
  (row, a) ∈ resolved_rows fs dir fc rows → row ∈ rows.
Proof.
  unfold resolved_rows. intros (r & Hr & Hres)%list_elem_of_omap.
  destruct (feature_path_of dir fc r) as [p|]; [|done]. cbn in Hres.
  destruct (fs !! p) as [[|a'| |]|]; try done. by injection Hres as -> ->.
Qed.

End Agreement.

Section LoadData.
Context {elt : Type} `{!Casting elt} (zero : elt).
Implicit Types (fs : gmap string (fsnode elt)) (row : gmap string cell).

Lemma resolved_rows_shapes fs dir fc d rows :
  forallb (row_feature_ok fs dir fc d) rows = true →
  Forall (λ k, ∃ n, shape k.2 = [n; d] ∧ length (data k.2) = n * d)
         (resolved_rows fs dir fc rows).
Proof.
  induction rows as [|row rows IH]; [by constructor|].
  cbn. intros [Hrow Hrows]%andb_prop.
  unfold resolved_rows. cbn [omap list_omap]. unfold row_feature_ok in Hrow.
  destruct (feature_path_of dir fc row) as [p|]; [|done]. cbn.
  destruct (fs !! p) as [[|a| |]|]; try done; [|by apply IH].
  constructor; [|by apply IH]. cbn.
  destruct (shape a) as [|n [|d' [|]]] eqn:Hsh; try done.
  apply andb_prop in Hrow as [->%bool_decide_eq_true Hlen%bool_decide_eq_true].
  by exists n.
Qed.

Lemma consistent_lookup df row c :
  df_consistent df = true → row ∈ df_rows df →
  is_Some (row !! c) ↔ c ∈ columns df.
Proof.
  intros Hdf Hrow. unfold df_consistent in Hdf.
  apply Is_true_true, forallb_True in Hdf.
  rewrite Forall_forall in Hdf. specialize (Hdf row Hrow).
  apply bool_decide_unpack in Hdf.
  rewrite <- elem_of_dom, Hdf. apply elem_of_list_to_set.
Qed.

Lemma rows_loadable fs dir fc lc wc d rows :
  forallb (row_feature_ok fs dir fc d) rows = true →
  Forall (λ row, is_Some (row !! lc) ∧ is_Some (row !! wc)) rows →
  forallb (row_loadable fs dir fc lc wc d) rows = true.
Proof.
  intros Hok Hcells. apply Is_true_true, forallb_True.
  apply Is_true_true, forallb_True in Hok.
  rewrite Forall_forall in *. intros row Hin.
  destruct (Hcells row Hin) as [Hl Hw]. unfold row_loadable.
  rewrite (proj1 (Is_true_true _) (Hok row Hin)).
  by rewrite !bool_decide_true by done.
Qed.

(** The loop and the assembly of the arrays, over the rows of the
    manifest as the loop sees them. *)
Lemma load_data_rows fs dir fc lc wc t d rows :
  (0 ≤ t)%Z → forallb (row_loadable fs dir fc lc wc d) rows = true →
  forallb (row_feature_ok fs dir fc d) rows = true →
  ∃ X,
    np_array ((λ k, fit_length zero (Z.to_nat t) k.2)
                <$> resolved_rows fs dir fc rows) = Ok X
    ∧ np_len X = Ok (length (resolved_rows fs dir fc rows))
    ∧ array_rows X
      = (λ k, data (astype_array (dtype X) (fit_length zero (Z.to_nat t) k.2)))
          <$> resolved_rows fs dir fc rows
    ∧ ('(features, labels, sample_weights) ←
         for_each (load_row zero dir fc lc t wc) ([], [], []) rows;
       X ← lift (np_array features);
       mret (X, labels, sample_weights)) fs
      = (Ok (X, (λ k, cell_at k.1 lc) <$> resolved_rows fs dir fc rows,
                (λ k, cell_at k.1 wc) <$> resolved_rows fs dir fc rows),
         concat (row_trace fs dir fc <$> rows)).
Proof.
  intros Ht Hload Hok.
  destruct (np_array_uniform
              ((λ k, fit_length zero (Z.to_nat t) k.2)
                 <$> resolved_rows fs dir fc rows) (Z.to_nat t * d))
    as (X & HX & Hlen & Hrows).
  { apply Forall_fmap. eapply Forall_impl; [by apply resolved_rows_shapes|].
    intros [row a] (n & Hsh & Hl). cbn.
    by rewrite (fit_length_shape zero _ n d), (fit_length_length zero _ n d). }
  exists X. split; [done|]. rewrite length_fmap in Hlen. split; [done|].
  rewrite <- list_fmap_compose in Hrows. split; [done|].
  erewrite IO_bind_ok; [|by eapply load_loop|].
  2:{ cbn. unfold mbind, IO_bind, lift. rewrite HX. reflexivity. }
  by rewrite app_nil_r.
Qed.

End LoadData.

Section LoadDataRun.
Context {elt : Type} `{!Casting elt} (zero : elt).
Implicit Types (fs : gmap string (fsnode elt)) (row : gmap string cell).

(** What [load_data] does over a consistent manifest that has the feature
    and label columns and whose existing feature files are [n]-by-[d]
    arrays. *)
Lemma load_data_run fs path dir fc lc wc t d df :
  fs !! path = Some (CsvFile df) → (0 ≤ t)%Z → df_consistent df = true →
  fc ∈ columns df → lc ∈ columns df →
  forallb (row_feature_ok fs dir fc d) (df_rows df) = true →
  ∃ X,
    np_array ((λ k, fit_length zero (Z.to_nat t) k.2)
                <$> resolved_rows fs dir fc (df_rows df)) = Ok X
    ∧ np_len X = Ok (length (resolved_rows fs dir fc (df_rows df)))
    ∧ array_rows X
      = (λ k, data (astype_array (dtype X) (fit_length zero (Z.to_nat t) k.2)))
          <$> resolved_rows fs dir fc (df_rows df)
    ∧ load_data zero path dir fc lc (Some t) wc fs
      = (Ok (X,
             (λ k, cell_at k.1 lc) <$> resolved_rows fs dir fc (df_rows df),
             (λ k, weight_of wc k.1) <$> resolved_rows fs dir fc (df_rows df)),
         load_trace fs path dir fc wc df).
Proof.
  intros Hcsv Ht Hdf Hfc Hlc Hok.
  set (rows' := df_rows (with_default_weight df wc)).
  assert (Forall2 (λ r r', r !! fc = r' !! fc ∧ r !! lc = r' !! lc
                           ∧ r' !! wc = Some (weight_of wc r))
                  (df_rows df) rows') as Hagree.
  { unfold rows', with_default_weight. case_bool_decide as Hwc.
    - apply Forall_Forall2_diag, Forall_forall. intros row Hrow.
      do 2 (split; [done|]).
      destruct (proj2 (consistent_lookup df row wc Hdf Hrow) Hwc) as [w Hw].
      unfold weight_of. by rewrite Hw.
    - cbn. apply Forall2_fmap_r, Forall_Forall2_diag, Forall_forall.
      intros row Hrow.
      assert (row !! wc = None) as Hnone.
      { apply eq_None_not_Some.
        by rewrite (consistent_lookup df row wc Hdf Hrow). }
      unfold compose. rewrite !lookup_insert_ne by congruence.
      rewrite lookup_insert_eq. unfold weight_of. by rewrite Hnone. }
  assert (forallb (row_feature_ok fs dir fc d) rows' = true) as Hok'.
  { rewrite <- Hok. symmetry. apply row_feature_ok_agree.
    eapply Forall2_impl; [done|]. by intros ?? []. }
  assert (Forall (λ row, is_Some (row !! lc) ∧ is_Some (row !! wc)) rows')
    as Hcells.
  { apply Forall_forall. intros r' Hr'.
    apply (Forall2_Forall_r _ (λ r', is_Some (r' !! lc) ∧ is_Some (r' !! wc))
             (df_rows df) rows') in Hagree.
    - rewrite Forall_forall in Hagree. by apply Hagree.
    - apply Forall_forall. intros row Hrow r'' (_ & Hl & Hw).
      split; [|by rewrite Hw].
      rewrite <- Hl. by apply (consistent_lookup df). }
  destruct (load_data_rows zero fs dir fc lc wc t d rows' Ht
              (rows_loadable fs dir fc lc wc d rows' Hok' Hcells) Hok')
    as (X & HX & Hlen & Hrows & Hrun).
  assert (∀ B (g g' : gmap string cell → ndarray elt → B),
            (∀ r r' a, r !! lc = r' !! lc →
                       r' !! wc = Some (weight_of wc r) → g r a = g' r' a) →
            (λ k, g' k.1 k.2) <$> resolved_rows fs dir fc rows'
            = (λ k, g k.1 k.2) <$> resolved_rows fs dir fc (df_rows df))
    as Hback.
  { intros B g g' Hg. symmetry. apply resolved_rows_agree.
    eapply Forall2_impl; [done|]. intros r r' (Hf & Hl & Hw).
    split; [done|]. intros a. by apply Hg. }
  exists X.
  rewrite (Hback _ (λ _ a, fit_length zero (Z.to_nat t) a)
                   (λ _ a, fit_length zero (Z.to_nat t) a)) in HX by done.
  rewrite (Hback _
             (λ _ a, data (astype_array (dtype X)
                             (fit_length zero (Z.to_nat t) a)))
             (λ _ a, data (astype_array (dtype X)
                             (fit_length zero (Z.to_nat t) a))))
    in Hrows by done.
  rewrite (Hback _ (λ r _, cell_at r lc) (λ r _, cell_at r lc)) in Hrun.
  2:{ intros r r' _ Hl _. unfold cell_at. by rewrite Hl. }
  rewrite (Hback _ (λ r _, weight_of wc r) (λ r _, cell_at r wc)) in Hrun.
  2:{ intros r r' _ _ Hw. unfold cell_at. by rewrite Hw. }
  assert (length (resolved_rows fs dir fc rows')
          = length (resolved_rows fs dir fc (df_rows df))) as Hsame.
  { rewrite <- (length_fmap (λ k, k.2) (resolved_rows fs dir fc rows')).
    rewrite (Hback _ (λ _ a, a) (λ _ a, a)) by done.
    by rewrite length_fmap. }
  rewrite Hsame in Hlen.
  split; [done|]. split; [done|]. split; [done|].
  unfold load_data, load_trace.
  assert (concat (row_trace fs dir fc <$> df_rows df)
          = concat (row_trace fs dir fc <$> rows')) as ->.
  { apply row_traces_agree. eapply Forall2_impl; [done|]. by intros ?? []. }
  eapply IO_bind_ok_eq; [unfold read_csv; by rewrite Hcsv| |reflexivity].
  unfold rows', with_default_weight in *. case_bool_decide as Hwc.
  - eapply IO_bind_ok_eq; [reflexivity|exact Hrun|reflexivity].
  - eapply IO_bind_ok_eq; [reflexivity|exact Hrun|reflexivity].
Qed.

End LoadDataRun.

(** ** The configuration error *)

Section NeverRaises.
Context {elt : Type} `{!Casting elt} (zero : elt) (e : exn).

Lemma never_bind {A B} (m : IO elt A) (f : A → IO elt B) :
  never_raises e m → (∀ a, never_raises e (f a)) → never_raises e (m ≫= f).
Proof.
  intros Hm Hf fs tr. unfold mbind, IO_bind.
  destruct (m fs) as [[a|e'] tr1] eqn:Hrun.
  - destruct (f a fs) as [r tr2] eqn:Hrun'. intros [= -> <-].
    by apply (Hf a fs tr2).
  - intros [= -> ->]. by apply (Hm fs tr).
Qed.

Lemma never_ret {A} (a : A) : never_raises (elt:=elt) e (mret a).
Proof. by intros fs tr. Qed.

Lemma never_lift {A} (r : result A) :
  r ≠ Raise e → never_raises (elt:=elt) e (lift r).
Proof. intros Hr fs tr [= ? _]. done. Qed.

Lemma never_print (m : message) : never_raises (elt:=elt) e (print m).
Proof. by intros fs tr. Qed.

Lemma never_path_exists p : never_raises (elt:=elt) e (path_exists p).
Proof. by intros fs tr. Qed.

Lemma never_for_each {S A} (body : S → A → IO elt S) s l :
  (∀ s x, never_raises e (body s x)) → never_raises e (for_each body s l).
Proof.
  intros Hbody. revert s. induction l as [|x l IH]; intros s; cbn.
  - apply never_ret.
  - apply never_bind; [apply Hbody|]. intros s'. apply IH.
Qed.

End NeverRaises.

Section ConfigError.
Context {elt : Type} `{!Casting elt} (zero : elt).

Lemma never_read_csv p : never_raises (elt:=elt) config_error (read_csv p).
Proof.
  intros fs tr. unfold read_csv. by destruct (fs !! p) as [[]|].
Qed.

Lemma never_np_load p : never_raises (elt:=elt) config_error (np_load p).
Proof.
  intros fs tr. unfold np_load. by destruct (fs !! p) as [[]|].
Qed.

Lemma normalized_vector_not_config t (a : ndarray elt) :
  normalized_vector zero t a ≠ Raise config_error.
Proof.
  unfold normalized_vector, normalize_length, shape_at, slice_rows, np_zeros2,
    vstack, concatenate0, atleast_2d.
  destruct a as [dt sh l]. cbn.
  repeat (case_match; cbn; try done).
Qed.

Lemma np_array_not_config (vs : list (ndarray elt)) :
  np_array vs ≠ Raise config_error.
Proof. unfold np_array. by repeat case_match. Qed.

Lemma never_load_row dir fc lc t wc acc row :
  never_raises config_error (load_row zero dir fc lc t wc acc row).
Proof.
  destruct acc as [[F L] W]. unfold load_row.
  apply never_bind; [apply never_lift; unfold row_get; by case_match|].
  intros name.
  apply never_bind; [apply never_lift; by destruct name|]. intros base.
  apply never_bind; [apply never_path_exists|]. intros [].
  - cbn. apply never_bind; [apply never_np_load|]. intros a.
    apply never_bind; [apply never_lift, normalized_vector_not_config|].
    intros v.
    apply never_bind; [apply never_lift; unfold row_get; by case_match|].
    intros l.
    apply never_bind; [apply never_lift; unfold row_get; by case_match|].
    intros w. apply never_ret.
  - cbn. apply never_bind; [apply never_print|]. intros _. apply never_ret.
Qed.

(** C6.  [load_data] raises the configuration error exactly when
    [target_length] is [None], and then before anything is read or
    printed: the trace is empty and nothing is returned. *)
Theorem load_data_requires_target_length
    (fs : gmap string (fsnode elt)) path dir fc lc wc :
  load_data zero path dir fc lc None wc fs = (Raise config_error, [])
  ∧ ∀ target_length,
      (load_data zero path dir fc lc target_length wc fs).1
        = Raise config_error
      ↔ target_length = None.
Proof.
  split; [done|]. intros [t|]; [|done]. split; [|done].
  intros Hrun. exfalso.
  destruct (load_data zero path dir fc lc (Some t) wc fs) as [r tr] eqn:Hld.
  cbn in Hrun. subst r. revert Hld. unfold load_data.
  apply never_bind; [apply never_read_csv|]. intros df.
  apply never_bind.
  { case_bool_decide; [apply never_ret|].
    apply never_bind; [apply never_print|]. intros _. apply never_ret. }
  intros df'. apply never_bind.
  { apply never_for_each. intros acc row. apply never_load_row. }
  intros [[F L] W].
  apply never_bind; [apply never_lift, np_array_not_config|].
  intros X. apply never_ret.
Qed.

End ConfigError.

(** ** Skipped rows and default weights *)

Section LoadDataSpec.
Context {elt : Type} `{!Casting elt} (zero : elt).
Implicit Types (fs : gmap string (fsnode elt)) (row : gmap string cell).

Lemma resolved_rows_filter fs dir fc d rows :
  forallb (row_feature_ok fs dir fc d) rows = true →
  (λ k, k.1) <$> resolved_rows fs dir fc rows
  = List.filter (row_file_exists fs dir fc) rows.
Proof.
  induction rows as [|row rows IH]; [done|].
  cbn. intros [Hrow Hrows]%andb_prop.
  unfold resolved_rows in *. cbn [omap list_omap].
  unfold row_feature_ok in Hrow. unfold row_file_exists at 1.
  destruct (feature_path_of dir fc row) as [p|]; [|done]. cbn.
  destruct (fs !! p) as [[|a| |]|]; try done.
  - rewrite bool_decide_true by eauto. cbn. by rewrite IH.
  - rewrite bool_decide_false by (by intros []). by apply IH.
Qed.

Lemma printed_load_trace fs path dir fc wc df :
  printed (load_trace fs path dir fc wc df)
  = (if bool_decide (wc ∈ columns df) then [] else [WarnDefaultWeight])
    ++ missing_warnings fs dir fc (df_rows df).
Proof.
  unfold load_trace. cbn [printed omap list_omap].
  fold (printed ((if bool_decide (wc ∈ columns df) then []
                  else [EvPrint WarnDefaultWeight])
                 ++ concat (row_trace fs dir fc <$> df_rows df))).
  rewrite printed_app, printed_row_traces. by case_bool_decide.
Qed.

Lemma missing_warnings_not_default fs dir fc rows :
  List.filter is_default_warning (missing_warnings fs dir fc rows) = [].
Proof.
  induction rows as [|row rows IH]; [done|].
  unfold missing_warnings in *. cbn [omap list_omap].
  destruct (feature_path_of dir fc row) as [p|]; [|done]. cbn.
  by destruct (fs !! p).
Qed.

(** C5.  Over a consistent manifest with the feature and label columns,
    whose existing feature files are [n]-by-[d] arrays, [load_data] returns
    three arrays of one length, the number of rows whose feature file
    exists; their entries at each position are the normalized vector, in
    the dtype of the matrix, the label and the weight of the row at that
    position among those rows, in manifest order; and each row whose file
    is missing is skipped with one warning. *)
Theorem load_data_skips_missing_rows fs path dir fc lc wc t d df :
  fs !! path = Some (CsvFile df) → (0 ≤ t)%Z → df_consistent df = true →
  fc ∈ columns df → lc ∈ columns df →
  forallb (row_feature_ok fs dir fc d) (df_rows df) = true →
  ∃ X y w tr kept,
    load_data zero path dir fc lc (Some t) wc fs = (Ok (X, y, w), tr)
    ∧ (λ k, k.1) <$> kept
      = List.filter (row_file_exists fs dir fc) (df_rows df)
    ∧ np_len X = Ok (length kept)
    ∧ length y = length kept
    ∧ length w = length kept
    ∧ (∀ i row a, kept !! i = Some (row, a) →
         feature_path_of dir fc row ≫= (fs !!.) = Some (NpyFile a)
         ∧ y !! i = row !! lc
         ∧ w !! i = Some (weight_of wc row)
         ∧ ∃ v, normalized_vector zero t a = Ok v
                ∧ array_rows X !! i
                  = Some (data (astype_array (dtype X) v)))
    ∧ List.filter (λ m, negb (is_default_warning m)) (printed tr)
      = missing_warnings fs dir fc (df_rows df).
Proof.
  intros Hcsv Ht Hdf Hfc Hlc Hok.
  destruct (load_data_run zero fs path dir fc lc wc t d df)
    as (X & _ & Hlen & Hrows & Hrun); try done.
  eexists X, _, _, _, (resolved_rows fs dir fc (df_rows df)).
  split; [exact Hrun|].
  split; [by eapply resolved_rows_filter|].
  split; [done|]. rewrite !length_fmap. do 2 (split; [done|]). split.
  - intros i row a Hi.
    assert ((row, a) ∈ resolved_rows fs dir fc (df_rows df)) as Hin
      by (by eapply list_elem_of_lookup_2).
    pose proof (resolved_rows_shapes fs dir fc d _ Hok) as Hsh.
    rewrite Forall_forall in Hsh.
    destruct (Hsh _ Hin) as (n & Hshape & Hdata). cbn in Hshape, Hdata.
    split.
    { unfold resolved_rows in Hin.
      apply list_elem_of_omap in Hin as (r & _ & Hres).
      destruct (feature_path_of dir fc r) as [p|] eqn:Hp; [|done].
      cbn in Hres. destruct (fs !! p) as [[|a'| |]|] eqn:Hfs; try done.
      injection Hres as -> ->. rewrite Hp. cbn. done. }
    rewrite !list_lookup_fmap, Hrows, list_lookup_fmap, Hi. cbn.
    split.
    { apply resolved_rows_elem in Hin.
      destruct (proj2 (consistent_lookup df row lc Hdf Hin) Hlc) as [c Hc].
      unfold cell_at. by rewrite Hc. }
    split; [done|].
    eexists. split; [by eapply normalized_vector_fit|done].
  - rewrite printed_load_trace.
    assert (∀ l, List.filter (λ m, negb (is_default_warning m))
                   (missing_warnings fs dir fc l)
                 = missing_warnings fs dir fc l) as Hkeep.
    { intros l. induction l as [|row l IH]; [done|].
      unfold missing_warnings in *. cbn [omap list_omap].
      destruct (feature_path_of dir fc row) as [p|]; [|done]. cbn.
      destruct (fs !! p); [done|]. cbn. by rewrite IH. }
    case_bool_decide; cbn; apply Hkeep.
Qed.

(** C7.  Over such a manifest without the weight column, every returned
    weight is [1] and there is one per loaded row; the default is logged
    once; and the run differs from the run over a manifest that has the
    column only in the weights and in that one message. *)
Theorem load_data_default_weights fs path dir fc lc wc t d df :
  fs !! path = Some (CsvFile df) → (0 ≤ t)%Z → df_consistent df = true →
  fc ∈ columns df → lc ∈ columns df →
  forallb (row_feature_ok fs dir fc d) (df_rows df) = true →
  wc ∉ columns df →
  ∃ X y w rest,
    load_data zero path dir fc lc (Some t) wc fs
    = (Ok (X, y, w), EvReadCsv path :: EvPrint WarnDefaultWeight :: rest)
    ∧ w = replicate
            (length (List.filter (row_file_exists fs dir fc) (df_rows df)))
            (CInt 1)
    ∧ Forall (λ c, cell_number c = Some 1%Q) w
    ∧ np_len X = Ok (length w)
    ∧ length y = length w
    ∧ List.filter is_default_warning
        (printed (EvReadCsv path :: EvPrint WarnDefaultWeight :: rest))
      = [WarnDefaultWeight]
    ∧ ∀ path' df',
        fs !! path' = Some (CsvFile df') → df_consistent df' = true →
        adds_column wc df df' →
        ∃ w',
          load_data zero path' dir fc lc (Some t) wc fs
          = (Ok (X, y, w'), EvReadCsv path' :: rest)
          ∧ length w' = length w
          ∧ ∀ i row a,
              resolved_rows fs dir fc (df_rows df') !! i = Some (row, a) →
              w' !! i = row !! wc.
Proof.
  intros Hcsv Ht Hdf Hfc Hlc Hok Hwc.
  destruct (load_data_run zero fs path dir fc lc wc t d df)
    as (X & HX & Hlen & Hrows & Hrun); try done.
  unfold load_trace in Hrun. rewrite bool_decide_false in Hrun by done.
  assert ((λ k, weight_of wc k.1) <$> resolved_rows fs dir fc (df_rows df)
          = replicate (length (List.filter (row_file_exists fs dir fc)
                                 (df_rows df))) (CInt 1)) as Hw.
  { rewrite <- (resolved_rows_filter fs dir fc d) by done.
    rewrite length_fmap. apply const_fmap. intros i [row a] Hi. cbn.
    apply list_elem_of_lookup_2, resolved_rows_elem in Hi.
    unfold weight_of.
    destruct (row !! wc) eqn:Hcell; [|done].
    destruct Hwc. apply (consistent_lookup df row); eauto. }
  eexists X, _, _, _. split; [exact Hrun|].
  split; [done|]. rewrite Hw.
  split; [by apply Forall_replicate|].
  rewrite length_replicate, <- (resolved_rows_filter fs dir fc d) by done.
  rewrite !length_fmap. do 2 (split; [done|]). split.
  - cbn [printed omap list_omap app]. cbn [List.filter is_default_warning].
    f_equal. fold (printed (concat (row_trace fs dir fc <$> df_rows df))).
    rewrite printed_row_traces. apply missing_warnings_not_default.
  - intros path' df' Hcsv' Hdf' [Hcols Hsame].
    assert (Forall2 (λ r r' : gmap string cell,
                       r !! fc = r' !! fc ∧ r !! lc = r' !! lc)
                    (df_rows df) (df_rows df')) as Hagree.
    { eapply Forall2_impl; [done|]. intros r r' Hr. cbn in Hr.
      split; apply Hr; congruence. }
    destruct (load_data_run zero fs path' dir fc lc wc t d df')
      as (X' & HX' & _ & _ & Hrun'); try done.
    { apply Hcols. by right. }
    { apply Hcols. by right. }
    { rewrite <- Hok. symmetry. apply row_feature_ok_agree.
      eapply Forall2_impl; [done|]. by intros ?? []. }
    unfold load_trace in Hrun'. rewrite bool_decide_true in Hrun'.
    2:{ apply Hcols. by left. }
    rewrite <- (resolved_rows_agree fs dir fc
                  (λ _ a, fit_length zero (Z.to_nat t) a)
                  (λ _ a, fit_length zero (Z.to_nat t) a)
                  (df_rows df) (df_rows df')) in HX'.
    2:{ eapply Forall2_impl; [done|]. by intros ?? []. }
    rewrite HX in HX'. injection HX' as <-.
    rewrite <- (resolved_rows_agree fs dir fc
                  (λ r _, cell_at r lc) (λ r _, cell_at r lc)
                  (df_rows df) (df_rows df')) in Hrun'.
    2:{ eapply Forall2_impl; [done|]. intros r r' [Hf Hl].
        split; [done|]. intros _. unfold cell_at. by rewrite Hl. }
    rewrite <- (row_traces_agree fs dir fc (df_rows df) (df_rows df'))
      in Hrun'.
    2:{ eapply Forall2_impl; [done|]. by intros ?? []. }
    eexists. split; [exact Hrun'|]. split.
    + rewrite !length_fmap.
      rewrite <- (length_fmap (λ k, k.2)
                    (resolved_rows fs dir fc (df_rows df'))).
      rewrite <- (resolved_rows_agree fs dir fc (λ _ a, a) (λ _ a, a)
                    (df_rows df) (df_rows df')).
      * by rewrite length_fmap.
      * eapply Forall2_impl; [done|]. by intros ?? [].
    + intros i row a Hi. rewrite list_lookup_fmap, Hi. cbn.
      apply list_elem_of_lookup_2, resolved_rows_elem in Hi.
      destruct (proj2 (consistent_lookup df' row wc Hdf' Hi)) as [c Hc].
      { apply Hcols. by left. }
      unfold weight_of. by rewrite Hc.
Qed.

End LoadDataSpec.

(** ** The loader wrappers *)

Section WrapperProps.
Context {elt : Type} `{!Casting elt} (zero : elt) `{ScalerAPI elt}.
Implicit Types (fs : gmap string (fsnode elt)).

(** C8, as the program has it.  Each wrapper makes one call of [load_data],
    leaves its trace and its exception as they are, and then handles the
    scaler in its own way: [load_train_data], given no scaler, fits a new
    one on the loaded matrix and returns the scaled matrix with the fitted
    scaler; [load_eval_data] and [load_test_data], which are the same
    function, return the given scaler's transform of the loaded matrix, or
    the loaded matrix itself when given none, never fit and return no
    scaler.  [transform] only reads the scaler, which therefore stays as
    it was.  The wrappers differ in the sample weights as well:
    [load_train_data] reads them from the column it is given and returns
    them; the other two read the column [example_weight] and drop them, so
    that what [load_eval_data] returns without a scaler is what
    [load_train_data] returns for that column and a given scaler, less the
    weights and the scaler. *)
Theorem loader_wrappers_scaler_handling fs path dir fc lc tl wc :
  load_train_data zero path dir fc lc tl wc None fs
  = match load_data zero path dir fc lc tl wc fs with
    | (Ok (X, y, w), tr) =>
        match fit_transform StandardScaler X with
        | Ok (X_scaled, fitted) => (Ok (X_scaled, y, w, fitted), tr)
        | Raise e => (Raise e, tr)
        end
    | (Raise e, tr) => (Raise e, tr)
    end
  ∧ (∀ scaler,
       load_eval_data zero path dir fc lc tl (Some scaler) fs
       = match load_data zero path dir fc lc tl "example_weight" fs with
         | (Ok (X, y, _), tr) =>
             match transform scaler X with
             | Ok X_scaled => (Ok (X_scaled, y), tr)
             | Raise e => (Raise e, tr)
             end
         | (Raise e, tr) => (Raise e, tr)
         end)
  ∧ load_eval_data zero path dir fc lc tl None fs
    = match load_data zero path dir fc lc tl "example_weight" fs with
      | (Ok (X, y, _), tr) => (Ok (X, y), tr)
      | (Raise e, tr) => (Raise e, tr)
      end
  ∧ (∀ scaler,
       load_test_data zero path dir fc lc tl scaler fs
       = load_eval_data zero path dir fc lc tl scaler fs)
  ∧ (∀ scaler,
       load_train_data zero path dir fc lc tl wc (Some scaler) fs
       = match load_data zero path dir fc lc tl wc fs with
         | (Ok (X, y, w), tr) => (Ok (X, y, w, scaler), tr)
         | (Raise e, tr) => (Raise e, tr)
         end)
  ∧ (∀ scaler,
       load_eval_data zero path dir fc lc tl None fs
       = match load_train_data zero path dir fc lc tl "example_weight"
                 (Some scaler) fs with
         | (Ok (X, y, _, _), tr) => (Ok (X, y), tr)
         | (Raise e, tr) => (Raise e, tr)
         end).
Proof.
  repeat split.
  - unfold load_train_data, mbind, IO_bind, lift.
    destruct (load_data zero path dir fc lc tl wc fs) as [[[[X y] w]|e] tr];
      [|done].
    destruct (fit_transform StandardScaler X) as [[X' s]|e]; cbn;
      by rewrite ?app_nil_r.
  - intros scaler. unfold load_eval_data, mbind, IO_bind, lift.
    destruct (load_data zero path dir fc lc tl "example_weight" fs)
      as [[[[X y] w]|e] tr]; [|done].
    destruct (transform scaler X) as [X'|e]; cbn; by rewrite ?app_nil_r.
  - unfold load_eval_data, mbind, IO_bind.
    destruct (load_data zero path dir fc lc tl "example_weight" fs)
      as [[[[X y] w]|e] tr]; [|done].
    cbn. by rewrite app_nil_r.
  - intros scaler. unfold load_train_data, mbind, IO_bind.
    destruct (load_data zero path dir fc lc tl wc fs) as [[[[X y] w]|e] tr];
      [|done].
    cbn. by rewrite app_nil_r.
  - intros scaler. unfold load_eval_data, load_train_data, mbind, IO_bind.
    destruct (load_data zero path dir fc lc tl "example_weight" fs)
      as [[[[X y] w]|e] tr]; [|done].
    cbn. by rewrite !app_nil_r.
Qed.

(** C10.  Given a scaler, [load_train_data] neither fits nor transforms:
    it returns the matrix, labels and weights of [load_data] as they are,
    together with the very scaler it was given. *)
Theorem load_train_data_given_scaler fs path dir fc lc tl wc scaler :
  load_train_data zero path dir fc lc tl wc (Some scaler) fs
  = match load_data zero path dir fc lc tl wc fs with
    | (Ok (X, y, w), tr) => (Ok (X, y, w, scaler), tr)
    | (Raise e, tr) => (Raise e, tr)
    end.
Proof.
  unfold load_train_data, mbind, IO_bind.
  destruct (load_data zero path dir fc lc tl wc fs) as [[[[X y] w]|e] tr];
    [|done].
  cbn. by rewrite app_nil_r.
Qed.

End WrapperProps.

(** ** The decision threshold *)

Lemma Qgtb_lt (score threshold : Q) :
  Qgtb score threshold = true ↔ (threshold < score)%Q.
Proof.
  unfold Qgtb. rewrite negb_true_iff, <- not_true_iff_false, Qle_bool_iff.
  split; [apply Qnot_le_lt|apply Qlt_not_le].
Qed.

Lemma threshold_predictions_lookup (y_scores : list Q) threshold i score :
  y_scores !! i = Some score →
  ∃ pred, threshold_predictions y_scores threshold !! i = Some pred
          ∧ (pred = 1%Z ↔ (threshold < score)%Q)
          ∧ (pred = 0%Z ↔ ¬ (threshold < score)%Q).
Proof.
  intros Hi. unfold threshold_predictions. rewrite list_lookup_fmap, Hi. cbn.
  eexists. split; [done|]. rewrite <- Qgtb_lt.
  destruct (Qgtb score threshold); split; split; done.
Qed.

Lemma column1_lookup (proba : list (list Q)) y_scores i row :
  column1 proba = Ok y_scores → proba !! i = Some row →
  ∃ score, row !! 1 = Some score ∧ y_scores !! i = Some score.
Proof.
  unfold column1. revert y_scores i.
  induction proba as [|r proba IH]; intros y_scores i Hcol Hi; [done|].
  cbn in Hcol. destruct (r !! 1) as [p|] eqn:Hp; [|done]. cbn in Hcol.
  destruct (mapM _ proba) as [ps|e] eqn:Hps; [|done].
  cbn in Hcol. injection Hcol as <-.
  destruct i as [|i]; cbn in *.
  - injection Hi as <-. eauto.
  - by eapply IH.
Qed.

Section Threshold.
Context {elt : Type} `{!Casting elt} `{ForestAPI elt}.

(** C2.  At every threshold, [evaluate_model_with_threshold] predicts [1]
    for a sample exactly when column 1 of [predict_proba] for it is
    strictly greater than the threshold, and [0] otherwise, and it is
    these predictions that the reported metrics are computed from. *)
Theorem evaluate_model_threshold_strict
    (fs : gmap string (fsnode elt)) model X_eval y_eval threshold proba :
  predict_proba model X_eval = Ok proba →
  Forall (λ row : list Q, 2 ≤ length row) proba →
  ∃ y_eval_pred : list Z,
    length y_eval_pred = length proba
    ∧ (∀ i row, proba !! i = Some row →
         ∃ score pred,
           row !! 1 = Some score ∧ y_eval_pred !! i = Some pred
           ∧ (pred = 1%Z ↔ (threshold < score)%Q)
           ∧ (pred = 0%Z ↔ ¬ (threshold < score)%Q))
    ∧ (evaluate_model_with_threshold model X_eval y_eval threshold fs).1
      = (accuracy ← accuracy_score y_eval (CInt <$> y_eval_pred);
         precision ← precision_score y_eval (CInt <$> y_eval_pred);
         recall ← recall_score y_eval (CInt <$> y_eval_pred);
         f1 ← f1_score y_eval (CInt <$> y_eval_pred);
         _ ← classification_report y_eval (CInt <$> y_eval_pred);
         mret (accuracy, precision, recall, f1)).
Proof.
  intros Hproba Hcols.
  assert (∃ y_scores, column1 proba = Ok y_scores
                      ∧ length y_scores = length proba)
    as (y_scores & Hcol & Hlen).
  { clear Hproba. unfold column1.
    induction Hcols as [|row proba Hrow _ (ys & Hys & Hlen)];
      [by exists []|].
    destruct row as [|p0 [|p1 row]]; cbn in Hrow; try lia.
    exists (p1 :: ys). cbn. rewrite Hys. cbn. by rewrite Hlen. }
  exists (threshold_predictions y_scores threshold).
  split; [unfold threshold_predictions; by rewrite length_fmap|]. split.
  - intros i row Hi.
    destruct (column1_lookup proba y_scores i row Hcol Hi) as (s & Hs & Hys).
    destruct (threshold_predictions_lookup y_scores threshold i s Hys)
      as (pred & Hpred & H1 & H0).
    by exists s, pred.
  - unfold evaluate_model_with_threshold, mbind at 1 2 3 4 5 6, IO_bind, lift.
    rewrite Hproba, Hcol. cbn.
    destruct (accuracy_score _ _); [|done]. cbn.
    destruct (precision_score _ _); [|done]. cbn.
    destruct (recall_score _ _); [|done]. cbn.
    destruct (f1_score _ _); [|done]. cbn.
    by destruct (classification_report _ _).
Qed.

End Threshold.

(** ** The feature-importance table *)

Section Ranking.
Implicit Types (v l : list Q) (idx : list nat).

Lemma sorted_asc_lookup l i j x y :
  sorted_asc l = true → i ≤ j → l !! i = Some x → l !! j = Some y →
  (x <= y)%Q.
Proof.
  revert i j x. induction l as [|a l IH]; intros i j x Hs Hij Hi Hj; [done|].
  assert (sorted_asc l = true ∧ ∀ b, head l = Some b → (a <= b)%Q)
    as [Hs' Hhead].
  { destruct l as [|b l]; [done|]. cbn in Hs.
    apply andb_prop in Hs as [Hab Hs]. split; [done|].
    intros ? [= <-]. by apply Qle_bool_iff. }
  destruct i as [|i], j as [|j]; cbn in *; try lia.
  - injection Hi as <-. injection Hj as <-. apply Qle_refl.
  - injection Hi as <-. destruct l as [|b l]; [done|].
    apply Qle_trans with b; [by apply Hhead|].
    apply (IH 0 j b); [done|lia|done|done].
  - apply (IH i j x); [done|lia|done|done].
Qed.

Lemma argsort_ok_inv v idx :
  argsort_ok v idx = true →
  length idx = length v ∧ NoDup idx ∧ Forall (λ i, i < length v) idx
  ∧ sorted_asc ((λ i, default 0%Q (v !! i)) <$> idx) = true.
Proof.
  unfold argsort_ok.
  intros [[[Hlen Hnd]%andb_prop Hr]%andb_prop Hs]%andb_prop.
  apply Nat.eqb_eq in Hlen. apply bool_decide_eq_true in Hnd.
  repeat split; try done.
  apply Is_true_true, forallb_True in Hr.
  eapply Forall_impl; [done|]. intros i Hi. cbn in Hi.
  by apply Is_true_true, Nat.ltb_lt in Hi.
Qed.

(** Every index of [v] occurs in a valid [argsort]. *)
Lemma argsort_ok_complete v idx j :
  argsort_ok v idx = true → j < length v → j ∈ idx.
Proof.
  intros (Hlen & Hnd & Hr & _)%argsort_ok_inv Hj.
  assert (idx ≡ₚ seq 0 (length v)) as Hperm.
  { apply submseteq_length_Permutation.
    - apply NoDup_submseteq; [done|]. intros i Hi.
      rewrite Forall_forall in Hr. apply elem_of_seq. specialize (Hr i Hi). lia.
    - by rewrite length_seq, Hlen. }
  rewrite Hperm. apply elem_of_seq. lia.
Qed.

(** Along the reversed [argsort], values do not increase. *)
Lemma reverse_argsort_desc v idx a b i j :
  argsort_ok v idx = true → a ≤ b →
  reverse idx !! a = Some i → reverse idx !! b = Some j →
  (default 0 (v !! j) <= default 0 (v !! i))%Q.
Proof.
  intros (_ & _ & _ & Hs)%argsort_ok_inv Hab
         [Hi Ha]%reverse_lookup_Some [Hj Hb]%reverse_lookup_Some.
  eapply (sorted_asc_lookup _ (length idx - S b) (length idx - S a));
    [done|lia| |]; by rewrite list_lookup_fmap, ?Hi, ?Hj.
Qed.

Lemma feature_importance_table_rows v idx :
  argsort_ok v idx = true →
  feature_importance_table v (take 20 (reverse idx)) = Ok (ranking_rows v idx).
Proof.
  intros (_ & _ & Hr & _)%argsort_ok_inv.
  assert (Forall (λ i, i < length v) (take 20 (reverse idx))) as Hall.
  { apply Forall_forall. intros i [k [Hk _]]%elem_of_take.
    rewrite Forall_forall in Hr. apply Hr.
    apply elem_of_reverse. by eapply list_elem_of_lookup_2. }
  unfold feature_importance_table, ranking_rows.
  induction Hall as [|i l Hi _ IH]; [done|].
  destruct (lookup_lt_is_Some_2 v i Hi) as [x Hx].
  assert (np_index v i = Ok x) as Hn by (unfold np_index; by rewrite Hx).
  cbn -[np_index]. rewrite Hn. cbn -[np_index]. rewrite IH. cbn.
  by rewrite Hx.
Qed.

(** What the table holds, for any valid [argsort] of the importances. *)
Lemma ranking_rows_spec v idx :
  argsort_ok v idx = true →
  ∃ indices,
    length indices = 20 `min` length v
    ∧ NoDup indices
    ∧ Forall2 (λ i row, ∃ x, v !! i = Some x
                             ∧ row = [inject_Z (Z.of_nat i); x])
              indices (ranking_rows v idx)
    ∧ (∀ a b i j x y, a ≤ b →
         indices !! a = Some i → indices !! b = Some j →
         v !! i = Some x → v !! j = Some y → (y <= x)%Q)
    ∧ (∀ i j x y, i ∈ indices → j ∉ indices →
         v !! i = Some x → v !! j = Some y → (y <= x)%Q).
Proof.
  intros Hok. pose proof (argsort_ok_inv v idx Hok) as (Hlen & Hnd & Hr & _).
  exists (take 20 (reverse idx)). repeat split.
  - by rewrite length_take, length_reverse, Hlen.
  - eapply sublist_NoDup; [|apply sublist_take].
    by rewrite reverse_Permutation.
  - unfold ranking_rows. apply Forall2_fmap_r, Forall_Forall2_diag.
    apply Forall_forall. intros i [k [Hk _]]%elem_of_take.
    apply list_elem_of_lookup_2 in Hk. rewrite elem_of_reverse in Hk.
    rewrite Forall_forall in Hr.
    destruct (lookup_lt_is_Some_2 v i (Hr i Hk)) as [x Hx].
    exists x. by rewrite Hx.
  - intros a b i j x y Hab [Hi _]%lookup_take_Some [Hj _]%lookup_take_Some
           Hx Hy.
    pose proof (reverse_argsort_desc v idx a b i j Hok Hab Hi Hj) as Hle.
    by rewrite Hx, Hy in Hle.
  - intros i j x y [a [Ha Ha20]]%elem_of_take Hj Hx Hy.
    assert (j ∈ reverse idx) as [b Hb]%list_elem_of_lookup_1.
    { apply elem_of_reverse, (argsort_ok_complete v); [done|].
      by eapply lookup_lt_Some. }
    assert (a ≤ b) as Hab.
    { destruct (decide (b < 20)) as [Hb20|]; [|lia].
      destruct Hj. apply elem_of_take. eauto. }
    pose proof (reverse_argsort_desc v idx a b i j Hok Hab Ha Hb) as Hle.
    by rewrite Hx, Hy in Hle.
Qed.

End Ranking.

(** ** The driver *)

Ltac io_inv H :=
  repeat (cbv beta iota in H;
    match type of H with
    | (_ ≫= _) _ = (Ok _, _) =>
        let a := fresh "a" in
        let tr1 := fresh "tr" in
        let tr2 := fresh "tr" in
        let Hm := fresh "Hrun" in
        apply IO_bind_inv in H as (a & tr1 & tr2 & Hm & H & ->);
        repeat match goal with x : (_ * _)%type |- _ => destruct x end
    end).

Section RunProps.
Context {elt : Type}.
Implicit Types (fs : gmap string (fsnode elt)) (tr : list event).

Lemma Run_bind_inv {A B} (m : Run elt A) (f : A → Run elt B) fs b tr fs' :
  (m ≫= f) fs = (Ok b, tr, fs') →
  ∃ a tr1 tr2 fs1,
    m fs = (Ok a, tr1, fs1) ∧ f a fs1 = (Ok b, tr2, fs') ∧ tr = tr1 ++ tr2.
Proof.
  unfold mbind, Run_bind. destruct (m fs) as [[[a|e] tr1] fs1]; [|done].
  destruct (f a fs1) as [[r tr2] fs2] eqn:Hf. intros [= -> <- <-].
  by exists a, tr1, tr2, fs1.
Qed.

Lemma reads_inv {A} (m : IO elt A) fs (r : result A) tr fs' :
  reads m fs = (r, tr, fs') → m fs = (r, tr) ∧ fs' = fs.
Proof. unfold reads. by intros [= -> <-]. Qed.

Lemma write_file_inv path ev fs (u : ()) tr fs' :
  write_file path ev fs = (Ok u, tr, fs') →
  tr = [ev] ∧ fs' = <[path := OtherFile]> fs
  ∧ parent_error fs path = None ∧ fs !! path ≠ Some Directory.
Proof.
  unfold write_file. destruct (parent_error fs path); [done|].
  by destruct (fs !! path) as [[]|]; intros [= <- <-].
Qed.

End RunProps.

(** Takes a run of [main] that returns apart along its binds; what only
    reads is run on the file system as it was. *)
Ltac run_inv H :=
  repeat (cbv beta iota zeta in H;
    match type of H with
    | (_ ≫= _) _ = (Ok _, _, _) =>
        let a := fresh "a" in
        let tr1 := fresh "tr" in
        let tr2 := fresh "tr" in
        let fs1 := fresh "fs" in
        let Hm := fresh "Hrun" in
        apply Run_bind_inv in H as (a & tr1 & tr2 & fs1 & Hm & H & ->);
        try (apply reads_inv in Hm as [Hm ->]);
        repeat match goal with x : (_ * _)%type |- _ => destruct x end
    end).

Section Driver.
Context {elt : Type} `{!Casting elt} (zero : elt)
  `{ScalerAPI elt} `{ForestAPI elt}.
Implicit Types (fs : gmap string (fsnode elt)).

Lemma lift_ok {A} (r : result A) fs (a : A) tr :
  lift (elt:=elt) r fs = (Ok a, tr) → r = Ok a ∧ tr = [].
Proof. unfold lift. by intros [= -> <-]. Qed.

Lemma emit_ok ev fs (u : ()) tr :
  emit (elt:=elt) ev fs = (Ok u, tr) → tr = [ev].
Proof. unfold emit. by intros [= <-]. Qed.

(** C9, as the program has it.  When [main] runs to its end it has written
    one table under the header [Feature,Importance] to
    [data/visualization/feature_importance_downsampled.csv].  For any valid
    [argsort] the table has one row for each of the [min 20 n] most
    important of the [n] features of the model it trained, in order of
    non-increasing importance; a row holds the feature's index and its
    importance. *)
Theorem main_feature_importance_csv fs tr fs' :
  main zero fs = (Ok (), tr, fs') →
  (∀ model, argsort_ok (feature_importances_ model)
                       (argsort (feature_importances_ model)) = true) →
  ∃ model table indices,
    (∃ class_weight X y w, forest_fit class_weight X y w = Ok model)
    ∧ EvSaveTxt "data/visualization/feature_importance_downsampled.csv"
                "Feature,Importance" table ∈ tr
    ∧ length table = 20 `min` length (feature_importances_ model)
    ∧ NoDup indices
    ∧ Forall2 (λ i row, ∃ x, feature_importances_ model !! i = Some x
                             ∧ row = [inject_Z (Z.of_nat i); x])
              indices table
    ∧ (∀ a b i j x y, a ≤ b →
         indices !! a = Some i → indices !! b = Some j →
         feature_importances_ model !! i = Some x →
         feature_importances_ model !! j = Some y → (y <= x)%Q)
    ∧ (∀ i j x y, i ∈ indices → j ∉ indices →
         feature_importances_ model !! i = Some x →
         feature_importances_ model !! j = Some y → (y <= x)%Q).
Proof.
  intros Hmain Hsort. unfold main in Hmain. run_inv Hmain.
  match goal with
  | Hfit : lift (forest_fit _ _ _ _) _ = (Ok ?m, _),
    Htable : lift (feature_importance_table _ _) _ = (Ok ?t, _),
    Hsave : savetxt _ _ _ _ = _ |- _ =>
      apply lift_ok in Hfit as [Hfit _];
      apply lift_ok in Htable as [Htable _];
      apply write_file_inv in Hsave as (-> & _);
      rewrite feature_importance_table_rows in Htable by apply Hsort;
      injection Htable as <-;
      destruct (ranking_rows_spec _ _ (Hsort m))
        as (indices & Hlen & Hnd & Hrows & Hdesc & Htop);
      exists m, (ranking_rows (feature_importances_ m)
                   (argsort (feature_importances_ m))), indices
  end.
  split; [eauto|]. split.
  { rewrite !elem_of_app.
    repeat first [left; by apply list_elem_of_singleton | right]. }
  split; [|done].
  by rewrite <- (Forall2_length _ _ _ Hrows).
Qed.

End Driver.

(** ** Runs on the concrete inputs *)

Example basename_of_nested_path : basename "raw/sub/a.npy" = "a.npy".
Proof. reflexivity. Qed.

Example dirname_of_paths :
  dirname "models/baseline_model/best_rf_model.joblib"
  = "models/baseline_model"
  ∧ dirname "data//visualization" = "data" ∧ dirname "data" = ""
  ∧ dirname "/data" = "/"
  ∧ dirs_above "" "data/visualization/plots" = ["data"; "data/visualization"].
Proof. repeat split. Qed.

Example promote_types_table :
  promote_types (np_int W8) (np_uint W8) = np_int W16
  ∧ promote_types (np_int W64) (np_uint W64) = np_float64
  ∧ promote_types (np_uint W16) np_float16 = np_float32
  ∧ promote_types np_float32 (np_int W32) = np_float64
  ∧ promote_types np_bool np_float16 = np_float16.
Proof. repeat split. Qed.

(** Conversion to float64 keeps a whole number of up to 53 bits and rounds
    a longer one to even. *)
Example astype_float64_rounds :
  astype (np_int W64) np_float64 (2 ^ 53)%Z = (2 ^ 53)%Z
  ∧ astype (np_int W64) np_float64 (2 ^ 53 + 1)%Z = (2 ^ 53)%Z
  ∧ astype (np_int W64) np_float64 (2 ^ 53 + 3)%Z = (2 ^ 53 + 4)%Z
  ∧ astype (np_int W64) np_float64 (- (2 ^ 53 + 3))%Z = (- (2 ^ 53 + 4))%Z.
Proof. repeat split. Qed.

(** One padded sample makes the whole matrix float64: stacked with it, an
    int64 vector that needed no padding is converted as well. *)
Example np_array_promotes :
  np_array [NdArray (np_int W64) [1] [(2 ^ 53 + 1)%Z];
            NdArray np_float64 [1] [0%Z]]
  = Ok (NdArray np_float64 [2; 1] [(2 ^ 53)%Z; 0%Z]).
Proof. reflexivity. Qed.

Example feature_path_of_row :
  feature_path_of "features" "feature_file"
    (manifest_row [("feature_file", CStr "raw/a.npy"); ("class", CInt 0)])
  = Some "features/a.npy".
Proof. reflexivity. Qed.

(** With a negative [target_length] the slice counts from the end, which is
    why C1 is about target lengths that are lengths. *)
Example normalize_length_negative :
  normalize_length 0%Z (-1)%Z (ramp 0 3)
  = Ok (NdArray np_float64 [2; 2] [1; 2; 3; 4]%Z).
Proof. reflexivity. Qed.

(** Closes a decidable proposition on concrete data by evaluation. *)
Ltac by_decide := apply (bool_decide_unpack _); vm_compute; exact I.



Lemma get_max_sequence_length_maximum_witness :
  (get_max_sequence_length "lengths.csv" "features" "feature_file" demo_fs).1
  = Ok 7%Z.
Proof.
  destruct (get_max_sequence_length_maximum demo_fs "lengths.csv" "features"
              "feature_file"
              lengths_manifest)
    as (m & tr & Hrun & Hm & _); [reflexivity|reflexivity|].
  rewrite Hrun, Hm. reflexivity.
Defined.

Lemma load_data_skips_missing_rows_witness :
  ∃ X y w tr,
    load_data 0%Z "two.csv" "features" "feature_file" "class" (Some 4%Z)
      "example_weight" demo_fs = (Ok (X, y, w), tr)
    ∧ np_len X = Ok 1 ∧ length y = 1 ∧ length w = 1
    ∧ List.filter (λ m, negb (is_default_warning m)) (printed tr)
      = [WarnMissing "features/gone.npy"].
Proof.
  destruct (load_data_skips_missing_rows 0%Z demo_fs "two.csv" "features"
              "feature_file" "class" "example_weight" 4%Z 2 two_manifest)
    as (X & y & w & tr & kept & Hrun & Hkept & HX & Hy & Hw & _ & Hwarn);
    [reflexivity|lia|reflexivity|by_decide|by_decide|reflexivity|].
  assert (length kept = 1) as Hlen.
  { rewrite <- (length_fmap (λ k, k.1)), Hkept. reflexivity. }
  exists X, y, w, tr. rewrite Hlen in HX, Hy, Hw.
  repeat split; [exact Hrun|exact HX|exact Hy|exact Hw|exact Hwarn].
Defined.

Lemma two_weighted_adds_column :
  adds_column "example_weight" two_manifest two_weighted_manifest.
Proof.
  split.
  - intros c. cbn. rewrite !elem_of_cons, elem_of_nil. tauto.
  - unfold two_manifest, two_weighted_manifest, manifest_row. cbn.
    constructor; [|constructor; [|constructor]]; intros c Hc;
      rewrite !lookup_insert; repeat case_decide; congruence.
Defined.

Lemma load_data_default_weights_witness :
  ∃ X y rest w',
    load_data 0%Z "two.csv" "features" "feature_file" "class" (Some 4%Z)
      "example_weight" demo_fs
    = (Ok (X, y, [CInt 1]),
       EvReadCsv "two.csv" :: EvPrint WarnDefaultWeight :: rest)
    ∧ load_data 0%Z "two_weighted.csv" "features" "feature_file" "class"
        (Some 4%Z) "example_weight" demo_fs
      = (Ok (X, y, w'), EvReadCsv "two_weighted.csv" :: rest).
Proof.
  destruct (load_data_default_weights 0%Z demo_fs "two.csv" "features"
              "feature_file" "class" "example_weight" 4%Z 2 two_manifest)
    as (X & y & w & rest & Hrun & Hw & _ & _ & _ & _ & Hsame);
    [reflexivity|lia|reflexivity|by_decide|by_decide|reflexivity
    |by_decide|].
  destruct (Hsame "two_weighted.csv" two_weighted_manifest)
    as (w' & Hrun' & _ & _);
    [reflexivity|reflexivity|exact two_weighted_adds_column|].
  exists X, y, rest, w'. rewrite Hw in Hrun. split; [exact Hrun|exact Hrun'].
Defined.

(** C8 as worded fails.  Given a scaler, [load_train_data] with the weight
    column [weight], which the manifest lacks, prints the warning of line
    34, which [load_eval_data] on the same manifest does not; and with the
    column [example_weight] it returns the matrix and labels that
    [load_eval_data] returns together with the weights, which
    [load_eval_data] does not return. *)
Lemma loader_wrappers_scaler_handling_counterexample :
  ¬ differ_only_in_scaler_handling (elt:=Z) 0%Z
  ∧ (load_train_data 0%Z "two_weighted.csv" "features" "feature_file"
       "class" (Some 4%Z) "weight" (Some 0%Z) demo_fs).2
    = [EvReadCsv "two_weighted.csv"; EvPrint WarnDefaultWeight;
       EvExists "features/gone.npy";
       EvPrint (WarnMissing "features/gone.npy");
       EvExists "features/a.npy"; EvLoad "features/a.npy"]
  ∧ (load_eval_data 0%Z "two_weighted.csv" "features" "feature_file"
       "class" (Some 4%Z) None demo_fs).2
    = [EvReadCsv "two_weighted.csv";
       EvExists "features/gone.npy";
       EvPrint (WarnMissing "features/gone.npy");
       EvExists "features/a.npy"; EvLoad "features/a.npy"]
  ∧ (∃ X y,
       (load_train_data 0%Z "two_weighted.csv" "features" "feature_file"
          "class" (Some 4%Z) "example_weight" (Some 0%Z) demo_fs).1
       = Ok (X, y, [CFloat (1 # 2)], 0%Z)
       ∧ (load_eval_data 0%Z "two_weighted.csv" "features" "feature_file"
            "class" (Some 4%Z) None demo_fs).1
         = Ok (X, y)).
Proof.
  split; [|split; [|split]].
  - intros Hsame.
    destruct (Hsame demo_fs "two_weighted.csv" "features" "feature_file"
                "class" (Some 4%Z) "weight" 0%Z) as [Htrace _].
    vm_compute in Htrace. discriminate.
  - reflexivity.
  - reflexivity.
  - eexists _, _. split; reflexivity.
Qed.

Lemma evaluate_model_threshold_strict_witness :
  ∃ y_eval_pred : list Z,
    length y_eval_pred = 1 ∧ y_eval_pred !! 0 = Some 0%Z.
Proof.
  destruct (@evaluate_model_threshold_strict Z constant_forest pipeline_fs
              tt (ramp 0 1) [CInt 1] (1 # 10)%Q [[(9 # 10)%Q; (1 # 10)%Q]])
    as (y_eval_pred & Hlen & Hpred & _);
    [reflexivity|repeat constructor|].
  exists y_eval_pred. split; [exact Hlen|].
  destruct (Hpred 0 [(9 # 10)%Q; (1 # 10)%Q] eq_refl)
    as (score & pred & Hscore & Hp & _ & Hzero).
  injection Hscore as <-. rewrite Hp. f_equal.
  apply Hzero, Qlt_irrefl.
Defined.

(** C9 as worded fails on the table [main] writes for a model with three
    features, two of them equally important: the table has three rows of
    two fields, index and importance, and the importances of its first two
    rows are equal. *)
Lemma main_feature_importance_csv_counterexample :
  ∃ table,
    EvSaveTxt "data/visualization/feature_importance_downsampled.csv"
              "Feature,Importance" table ∈ (main 0%Z pipeline_fs).1.2
    ∧ table = [[2%Q; (1 # 2)%Q]; [0%Q; (1 # 2)%Q]; [1%Q; (1 # 4)%Q]]
    ∧ length table ≠ 20
    ∧ ¬ rows_give_rank_index_importance table
    ∧ ¬ strictly_decreasing_importance table.
Proof.
  eexists. split; [by apply (list_elem_of_lookup_2 _ 27)|].
  split; [reflexivity|]. split; [by cbn|]. split.
  - intros Hrows. by destruct (Hrows 0 _ eq_refl) as (index & importance & ?).
  - intros Hdec.
    apply (Qlt_irrefl (1 # 2)), (Hdec 0 1 _ _ _ _ ltac:(lia) eq_refl eq_refl);
      reflexivity.
Qed.

(** A run that returned, with its trace and the file system it left. *)
Lemma run_returned {elt A}
    (run : result A * list event * gmap string (fsnode elt)) (a : A) :
  run.1.1 = Ok a → run = (Ok a, run.1.2, run.2).
Proof. destruct run as [[r tr] fs]. cbn. by intros ->. Qed.

Lemma main_returns_on_pipeline_fs : (main 0%Z pipeline_fs).1.1 = Ok ().
Proof. vm_compute. reflexivity. Qed.

Lemma main_feature_importance_csv_witness :
  ∃ table,
    EvSaveTxt "data/visualization/feature_importance_downsampled.csv"
              "Feature,Importance" table ∈ (main 0%Z pipeline_fs).1.2
    ∧ length table = 3.
Proof.
  destruct (main_feature_importance_csv 0%Z pipeline_fs
              (main 0%Z pipeline_fs).1.2 (main 0%Z pipeline_fs).2)
    as (model & table & indices & _ & Hin & Hlen & _);
    [exact (run_returned _ _ main_returns_on_pipeline_fs)
    |intros []; vm_compute; reflexivity|].
  exists table. split; [exact Hin|exact Hlen].
Defined.

Section LoadingCalls.
Context {elt : Type} `{!Casting elt} (zero : elt)
  `{ScalerAPI elt} `{ForestAPI elt}.

(** The loading calls of a run of [main]: the target length is what
    [get_max_sequence_length] returns for the label manifest and its
    column [feature_file]; that one integer is the [target_length] of both
    loading calls, which read the training and the evaluation manifest
    through the column [contextual_feature_file]; and the evaluation data
    is transformed by the scaler the training call fitted. *)
Lemma main_loading_calls (fs : gmap string (fsnode elt)) tr fs' :
  main zero fs = (Ok (), tr, fs') →
  ∃ target_length tr0 train scaler tr1 eval tr2,
    get_max_sequence_length "data/metadata/label_downsampled.csv"
      "data/downsampled_features" "feature_file" fs
    = (Ok target_length, tr0)
    ∧ load_train_data zero "data/metadata/train_downsample.csv"
        "data/downsampled_features" "contextual_feature_file" "class"
        (Some target_length) "example_weight" None fs
      = (Ok (train, scaler), tr1)
    ∧ load_eval_data zero "data/metadata/eval_downsample.csv"
        "data/downsampled_features" "contextual_feature_file" "class"
        (Some target_length) (Some scaler) fs
      = (Ok eval, tr2).
Proof.
  intros Hmain. unfold main in Hmain. run_inv Hmain. eauto 10.
Qed.

End LoadingCalls.

(** C4 at a failing input.  Where the label manifest names an array of one
    row and the training manifest one of three, [main] uses the target
    length [1], the maximum over the label manifest, although the maximum
    over the manifest the training set is loaded from is [3]; both training
    samples are cut to one row. *)
Theorem main_target_length_from_label_manifest :
  (get_max_sequence_length "data/metadata/train_downsample.csv"
     "data/downsampled_features" "contextual_feature_file" pipeline_fs).1
  = Ok 3%Z
  ∧ (get_max_sequence_length "data/metadata/label_downsampled.csv"
       "data/downsampled_features" "feature_file" pipeline_fs).1
    = Ok 1%Z
  ∧ (main 0%Z pipeline_fs).1.2 !! 3 = Some (EvPrint (MsgTargetLength 1))
  ∧ (load_train_data 0%Z "data/metadata/train_downsample.csv"
       "data/downsampled_features" "contextual_feature_file" "class"
       (Some 1%Z) "example_weight" (Some 0%Z) pipeline_fs).1
    = Ok (NdArray np_float64 [2; 2] [11; 12; 1; 2]%Z, [CInt 1; CInt 0],
          [CFloat 2; CFloat 1], 0%Z).
Proof. repeat split; reflexivity. Qed.

(** * Further properties of the code *)

(** ** Length normalization outside the usual case *)

Section NormalizationEdges.
Context {elt : Type} `{!Casting elt} (zero : elt).
Implicit Types (a : ndarray elt).

(** X1.  With a negative target length nothing is raised: lines 48-49 take the
    truncating branch, whose slice drops the last [- target_length] rows. *)
Theorem normalize_length_negative_target (target_length : Z) (n d : nat) a :
  shape a = [n; d] → wf_ndarray a → (target_length < 0)%Z →
  ∃ a',
    normalize_length zero target_length a = Ok a'
    ∧ shape a' = [n - Z.to_nat (- target_length); d]
    ∧ array_rows a'
      = take (n - Z.to_nat (- target_length)) (array_rows a).
Proof.
  destruct a as [dt sh l]. cbn [shape]. intros -> Hwf Ht.
  unfold wf_ndarray in Hwf. cbn in Hwf. rewrite Nat.mul_1_r in Hwf.
  unfold normalize_length, shape_at. cbn.
  destruct (Z.gtb_spec (Z.of_nat n) target_length) as [_|?]; [|lia].
  unfold slice_rows, slice_stop. cbn [shape data dtype].
  destruct (Z.leb_spec 0 target_length) as [?|_]; [lia|].
  replace (Z.to_nat (Z.max 0 (Z.of_nat n + target_length)))
    with (n - Z.to_nat (- target_length)) by lia.
  eexists. split; [reflexivity|]. split; [reflexivity|].
  cbn [size_of foldr]. rewrite Nat.mul_1_r, !array_rows_2d.
  apply chunks_take. lia.
Qed.

(** X2.  Only a 2-D array can be padded: for an array that is too short and has
    another number of axes, line 51 raises [IndexError] when there is one
    axis and line 52 raises [ValueError] when there are three or more. *)
Theorem normalize_length_pads_only_2d (target_length : Z) (n : nat)
    (rest : list nat) a :
  shape a = n :: rest → length rest ≠ 1 → (Z.of_nat n < target_length)%Z →
  normalize_length zero target_length a
  = Raise (if decide (rest = [])
           then IndexError "tuple index out of range"
           else ValueError concat_ndim_msg).
Proof.
  destruct a as [dt sh l]. cbn [shape]. intros -> Hrest Hlt.
  unfold normalize_length, shape_at. cbn.
  destruct (Z.gtb_spec (Z.of_nat n) target_length) as [?|_]; [lia|].
  destruct (Z.ltb_spec (Z.of_nat n) target_length) as [_|?]; [|lia].
  destruct rest as [|d [|e rest]]; [done|done|]. cbn.
  unfold np_zeros2.
  destruct (Z.ltb_spec (target_length - Z.of_nat n) 0) as [?|_]; [lia|].
  cbn. unfold vstack, concatenate0. cbn.
  by rewrite decide_False by (cbn; lia).
Qed.

(** X3.  For a target length that is a length, normalizing what lines 48-52
    returned changes nothing, whatever the number of axes of the array. *)
Theorem normalize_length_idempotent (target_length : Z) a a' :
  (0 ≤ target_length)%Z →
  normalize_length zero target_length a = Ok a' →
  normalize_length zero target_length a' = Ok a'.
Proof.
  intros Ht. destruct a as [dt sh l].
  unfold normalize_length at 1. unfold shape_at. cbn [shape].
  destruct sh as [|n rest]; [done|]. cbn.
  assert (∀ b : ndarray elt,
            hd_error (shape b) = Some (Z.to_nat target_length) →
            normalize_length zero target_length b = Ok b) as Hfix.
  { intros [dt' [|k sh'] l'] [= Hk]. unfold normalize_length, shape_at. cbn.
    destruct (Z.gtb_spec (Z.of_nat k) target_length) as [?|_]; [lia|].
    by destruct (Z.ltb_spec (Z.of_nat k) target_length) as [?|_]; [lia|]. }
  destruct (Z.gtb_spec (Z.of_nat n) target_length) as [Hgt|Hle].
  - unfold slice_rows, slice_stop. cbn [shape data].
    rewrite (proj2 (Z.leb_le _ _) Ht). intros [= <-].
    apply Hfix. cbn. f_equal. lia.
  - destruct (Z.ltb_spec (Z.of_nat n) target_length) as [Hlt|Hge].
    + destruct rest as [|d rest]; [done|]. cbn. unfold np_zeros2.
      destruct (Z.ltb_spec (target_length - Z.of_nat n) 0) as [?|_]; [lia|].
      cbn. unfold vstack, concatenate0.
      destruct rest as [|e rest]; cbn.
      * rewrite !decide_True by done. intros [= <-].
        apply Hfix. cbn. f_equal. lia.
      * by rewrite decide_False by (cbn; lia).
    + intros [= <-]. apply Hfix. cbn. f_equal. lia.
Qed.

End NormalizationEdges.

(** ** Loops over the manifest *)

Section LoopInversion.
Context {elt : Type} `{!Casting elt}.
Implicit Types (fs : gmap string (fsnode elt)).

Lemma for_each_app {S A} (body : S → A → IO elt S) s l1 l2 fs :
  for_each body s (l1 ++ l2) fs
  = (s' ← for_each body s l1; for_each body s' l2) fs.
Proof.
  revert s. induction l1 as [|x l1 IH]; intros s; cbn.
  - unfold mbind, IO_bind, mret, IO_ret.
    by destruct (for_each body s l2 fs) as [r tr].
  - unfold mbind, IO_bind in *.
    destruct (body s x fs) as [[s'|e] tr]; [|done].
    rewrite IH. destruct (for_each body s' l1 fs) as [[s''|e] tr1]; [|done].
    destruct (for_each body s'' l2 fs) as [r tr2]. by rewrite app_assoc.
Qed.

Lemma IO_bind_raise {A B} (m : IO elt A) (f : A → IO elt B) fs e tr :
  m fs = (Raise e, tr) → (m ≫= f) fs = (Raise e, tr).
Proof. intros Hm. unfold mbind, IO_bind. by rewrite Hm. Qed.

(** What every iteration that returns keeps, a loop that returns keeps. *)
Lemma for_each_invariant {S A} (body : S → A → IO elt S) (I : S → Prop)
    l fs s s' tr :
  (∀ s x s1 tr1, I s → body s x fs = (Ok s1, tr1) → I s1) →
  I s → for_each body s l fs = (Ok s', tr) → I s'.
Proof.
  intros Hbody. revert s tr. induction l as [|x l IH]; intros s tr Hs Hrun.
  - cbn in Hrun. by injection Hrun as <- _.
  - cbn in Hrun. apply IO_bind_inv in Hrun as (s1 & tr1 & tr2 & H1 & H2 & _).
    eapply IH; [|done]. by eapply Hbody.
Qed.

Lemma mret_ok {A} (a b : A) fs tr :
  mret (M:=IO elt) a fs = (Ok b, tr) → a = b ∧ tr = [].
Proof. by intros [= -> <-]. Qed.

Lemma lift_inv {A} (r : result A) fs (a : A) tr :
  lift (elt:=elt) r fs = (Ok a, tr) → r = Ok a ∧ tr = [].
Proof. unfold lift. by intros [= -> <-]. Qed.

Lemma max_length_step_grows dir fc acc row fs acc' tr :
  max_length_step dir fc acc row fs = (Ok acc', tr) → (acc ≤ acc')%Z.
Proof.
  unfold max_length_step. intros Hrun. io_inv Hrun.
  match goal with found : bool |- _ => destruct found end; cbn in Hrun.
  - io_inv Hrun. apply mret_ok in Hrun as [<- _]. lia.
  - io_inv Hrun. apply mret_ok in Hrun as [<- _]. lia.
Qed.

(** X4.  Whenever [get_max_sequence_length] returns, what it returns is not
    negative: it can be passed on as a target length that is a length. *)
Theorem get_max_sequence_length_nonneg fs path dir fc m tr :
  get_max_sequence_length path dir fc fs = (Ok m, tr) → (0 ≤ m)%Z.
Proof.
  unfold get_max_sequence_length. intros Hrun. io_inv Hrun.
  eapply (for_each_invariant _ (λ acc, (0 ≤ acc)%Z)); [|done|exact Hrun].
  intros acc row acc' tr' Hacc Hstep.
  apply max_length_step_grows in Hstep. lia.
Qed.

Lemma max_length_step_bad_cell dir fc acc row fs :
  feature_path_of dir fc row = None →
  max_length_step dir fc acc row fs
  = (Raise (match row !! fc with
            | None => KeyError fc
            | Some _ => TypeError "expected str, bytes or os.PathLike object"
            end), []).
Proof.
  unfold feature_path_of, max_length_step, mbind, IO_bind, lift, row_get.
  by destruct (row !! fc) as [[]|].
Qed.

(** X5.  A row whose feature cell is absent or holds no string is not skipped:
    after the rows before it, [get_max_sequence_length] raises [KeyError]
    for an absent cell and [TypeError] for any other, before looking for
    any file of that row or of the rows after it. *)
Theorem get_max_sequence_length_bad_feature_cell fs path dir fc df
    pre row post :
  fs !! path = Some (CsvFile df) → df_rows df = pre ++ row :: post →
  forallb (row_walkable fs dir fc) pre = true →
  feature_path_of dir fc row = None →
  get_max_sequence_length path dir fc fs
  = (Raise (match row !! fc with
            | None => KeyError fc
            | Some _ => TypeError "expected str, bytes or os.PathLike object"
            end),
     EvReadCsv path :: concat (row_trace fs dir fc <$> pre)).
Proof.
  intros Hcsv Hrows Hpre Hbad. unfold get_max_sequence_length.
  eapply IO_bind_ok_eq; [unfold read_csv; by rewrite Hcsv| |reflexivity].
  rewrite Hrows, for_each_app.
  eapply IO_bind_ok_eq; [by apply max_length_loop| |by rewrite app_nil_r].
  cbn [for_each]. unfold mbind, IO_bind.
  by rewrite max_length_step_bad_cell.
Qed.

End LoopInversion.

(** ** [load_data] beyond the well-formed manifest *)

Section LoadDataEdges.
Context {elt : Type} `{!Casting elt} (zero : elt).
Implicit Types (fs : gmap string (fsnode elt)) (row : gmap string cell).

Lemma load_row_inv dir fc lc t wc F L W row fs F' L' W' tr :
  load_row zero dir fc lc t wc (F, L, W) row fs = (Ok (F', L', W'), tr) →
  (F' = F ∧ L' = L ∧ W' = W)
  ∨ ∃ v l w, F' = F ++ [v] ∧ L' = L ++ [l] ∧ W' = W ++ [w].
Proof.
  unfold load_row. intros Hrun. io_inv Hrun.
  match goal with found : bool |- _ => destruct found end; cbn in Hrun.
  - io_inv Hrun. apply mret_ok in Hrun as [[= <- <- <-] _]. right.
    by eexists _, _, _.
  - io_inv Hrun. apply mret_ok in Hrun as [[= <- <- <-] _]. by left.
Qed.

Lemma np_array_len (vs : list (ndarray elt)) X :
  np_array vs = Ok X → np_len X = Ok (length vs).
Proof.
  unfold np_array. destruct vs as [|v vs]; [by intros [= <-]|].
  case_match; [|done]. by intros [= <-].
Qed.

(** X7.  Whenever [load_data] returns, the three arrays it returns have one
    length, whatever the manifest and the files are. *)
Theorem load_data_lengths_agree fs path dir fc lc tl wc X y w tr :
  load_data zero path dir fc lc tl wc fs = (Ok (X, y, w), tr) →
  np_len X = Ok (length y) ∧ length w = length y.
Proof.
  unfold load_data. destruct tl as [t|]; [|done]. intros Hrun. io_inv Hrun.
  match goal with
  | Hloop : for_each _ _ _ _ = (Ok (?F, ?L, ?W), _),
    Harr : lift (np_array _) _ = _ |- _ =>
      apply lift_inv in Harr as [Harr _];
      apply np_array_len in Harr;
      apply mret_ok in Hrun as [[= <- <- <-] _];
      assert (length F = length L ∧ length W = length L) as [HF HW]
  end.
  { match goal with
    | Hloop : for_each _ _ _ _ = (Ok (?F, ?L, ?W), _) |- _ =>
        apply (for_each_invariant _
                 (λ acc, length acc.1.1 = length acc.1.2
                         ∧ length acc.2 = length acc.1.2)) in Hloop;
          [exact Hloop| |done]
    end.
    intros [[F0 L0] W0] row [[F1 L1] W1] tr_step [HF HW] Hstep. cbn in *.
    apply load_row_inv in Hstep
      as [(-> & -> & ->)|(? & ? & ? & -> & -> & ->)]; [done|].
    rewrite !length_app. cbn. lia. }
  split; [by rewrite <- HF|done].
Qed.

Lemma load_row_bad_cell dir fc lc t wc acc row fs :
  feature_path_of dir fc row = None →
  load_row zero dir fc lc t wc acc row fs
  = (Raise (match row !! fc with
            | None => KeyError fc
            | Some _ => TypeError "expected str, bytes or os.PathLike object"
            end), []).
Proof.
  destruct acc as [[F L] W].
  unfold feature_path_of, load_row, mbind, IO_bind, lift, row_get.
  by destruct (row !! fc) as [[]|].
Qed.

(** X6.  A row whose feature cell is absent or holds no string makes
    [load_data] raise, after the rows before it have been processed:
    nothing of what was loaded from them is returned. *)
Theorem load_data_bad_feature_cell fs path dir fc lc wc t d df
    pre row post :
  fs !! path = Some (CsvFile df) → wc ∈ columns df →
  df_rows df = pre ++ row :: post → (0 ≤ t)%Z →
  forallb (row_loadable fs dir fc lc wc d) pre = true →
  feature_path_of dir fc row = None →
  load_data zero path dir fc lc (Some t) wc fs
  = (Raise (match row !! fc with
            | None => KeyError fc
            | Some _ => TypeError "expected str, bytes or os.PathLike object"
            end),
     EvReadCsv path :: concat (row_trace fs dir fc <$> pre)).
Proof.
  intros Hcsv Hwc Hrows Ht Hpre Hbad. unfold load_data.
  eapply IO_bind_ok_eq; [unfold read_csv; by rewrite Hcsv| |reflexivity].
  rewrite bool_decide_true by done.
  eapply IO_bind_ok_eq; [reflexivity| |reflexivity].
  apply IO_bind_raise. rewrite Hrows, for_each_app.
  eapply IO_bind_ok_eq;
    [by apply (load_loop zero fs dir fc lc wc t d)| |by rewrite app_nil_r].
  cbn [for_each]. apply IO_bind_raise. by apply load_row_bad_cell.
Qed.

Lemma load_rows_all_missing dir fc lc t wc acc rows fs :
  forallb (row_file_missing fs dir fc) rows = true →
  for_each (load_row zero dir fc lc t wc) acc rows fs
  = (Ok acc, concat (row_trace fs dir fc <$> rows)).
Proof.
  induction rows as [|row rows IH]; [done|].
  cbn. intros [Hrow Hrows]%andb_prop.
  unfold row_file_missing in Hrow. unfold row_trace at 1.
  destruct (feature_path_of dir fc row) as [p|] eqn:Hp; [|done].
  apply bool_decide_eq_true in Hrow. rewrite Hrow.
  eapply IO_bind_ok; [by apply load_row_missing|by apply IH].
Qed.

(** X8.  When no row names a file that exists, [load_data] returns an empty
    1-D float64 array and two empty vectors after one warning per row.  The rows
    are never asked for a label or a weight, so this holds even for a
    manifest without those columns. *)
Theorem load_data_all_missing fs path dir fc lc wc t df :
  fs !! path = Some (CsvFile df) → fc ≠ wc →
  forallb (row_file_missing fs dir fc) (df_rows df) = true →
  load_data zero path dir fc lc (Some t) wc fs
  = (Ok (NdArray np_float64 [0] [], [], []), load_trace fs path dir fc wc df)
  ∧ List.filter (λ m, negb (is_default_warning m))
      (printed (load_trace fs path dir fc wc df))
    = (λ row, WarnMissing (default "" (feature_path_of dir fc row)))
        <$> df_rows df.
Proof.
  intros Hcsv Hne Hmiss. split.
  - unfold load_data, load_trace.
    eapply IO_bind_ok_eq; [unfold read_csv; by rewrite Hcsv| |reflexivity].
    assert (∀ rows',
              Forall2 (λ r r' : gmap string cell, r !! fc = r' !! fc)
                      (df_rows df) rows' →
              (for_each (load_row zero dir fc lc t wc)
                        (([] : list (ndarray elt)), [], []) rows'
               ≫= λ '(features, labels, sample_weights),
                    lift (np_array features)
                    ≫= λ X, mret (X, labels, sample_weights)) fs
              = (Ok (NdArray np_float64 [0] [], [], []),
                 concat (row_trace fs dir fc <$> df_rows df))) as Htail.
    { intros rows' Hagree.
      rewrite (row_traces_agree fs dir fc (df_rows df) rows') by done.
      eapply IO_bind_ok_eq;
        [apply load_rows_all_missing|reflexivity|by rewrite app_nil_r].
      clear Hcsv. revert Hmiss.
      induction Hagree as [|r r' rs rs' Hr _ IH]; [done|]. cbn.
      intros [H1 H2]%andb_prop. rewrite IH by done.
      unfold row_file_missing in *.
      by rewrite <- (feature_path_of_agree dir fc r r'), H1. }
    case_bool_decide.
    + eapply IO_bind_ok_eq; [reflexivity| |reflexivity].
      apply Htail, Forall_Forall2_diag, Forall_true. done.
    + eapply IO_bind_ok_eq; [reflexivity| |reflexivity].
      apply Htail. cbn. apply Forall2_fmap_r, Forall_Forall2_diag, Forall_true.
      intros r. unfold compose. by rewrite lookup_insert_ne.
  - rewrite printed_load_trace.
    assert (List.filter (λ m, negb (is_default_warning m))
              (missing_warnings fs dir fc (df_rows df))
            = (λ row, WarnMissing (default "" (feature_path_of dir fc row)))
                <$> df_rows df) as Hwarn.
    { clear Hcsv. induction (df_rows df) as [|row rows IH]; [done|].
      cbn in Hmiss. apply andb_prop in Hmiss as [Hrow Hrows].
      unfold missing_warnings in *. cbn [omap list_omap fmap list_fmap].
      unfold row_file_missing in Hrow.
      destruct (feature_path_of dir fc row) as [p|]; [|done].
      apply bool_decide_eq_true in Hrow. cbn. rewrite Hrow. cbn.
      by rewrite IH. }
    by case_bool_decide.
Qed.

End LoadDataEdges.

(** ** The matrix [load_data] assembles *)

Section LoadDataMatrix.
Context {elt : Type} `{!Casting elt} (zero : elt).
Implicit Types (fs : gmap string (fsnode elt)) (row : gmap string cell).

Lemma length_concat_uniform {A} (ls : list (list A)) L :
  Forall (λ l, length l = L) ls → length (concat ls) = length ls * L.
Proof.
  induction 1 as [|l ls Hl _ IH]; [done|].
  cbn. rewrite length_app, IH, Hl. lia.
Qed.

Lemma np_array_stacked (v : ndarray elt) (vs : list (ndarray elt)) X :
  np_array (v :: vs) = Ok X →
  shape X = S (length vs) :: shape v
  ∧ dtype X = common_dtype v vs
  ∧ data X = concat ((λ u, data (astype_array (dtype X) u)) <$> v :: vs).
Proof. unfold np_array. case_match; [|done]. by intros [= <-]. Qed.

(** One float64 array among those stacked makes the stack float64. *)
Lemma common_dtype_float64 (v u : ndarray elt) (vs : list (ndarray elt)) :
  u ∈ v :: vs → dtype u = np_float64 → common_dtype v vs = np_float64.
Proof.
  unfold common_dtype.
  assert (∀ l : list (ndarray elt),
            foldl (λ dt u, promote_types dt (dtype u)) np_float64 l
            = np_float64) as Habsorb.
  { induction l as [|w l IH]; [done|]. cbn [foldl].
    by rewrite promote_types_float64_l. }
  intros [->|Hin]%elem_of_cons Hu.
  - rewrite Hu. apply Habsorb.
  - generalize (dtype v).
    induction Hin as [w l|w w' l _ IH]; intros dt; cbn [foldl].
    + rewrite Hu, promote_types_float64_r. apply Habsorb.
    + by apply IH.
Qed.

(** X9.  The matrix has one row of [target_length * d] entries per loaded file
    and is well formed; when no file was loaded it is not a matrix but an
    empty 1-D array. *)
Theorem load_data_matrix_shape fs path dir fc lc wc t d df :
  fs !! path = Some (CsvFile df) → (0 ≤ t)%Z → df_consistent df = true →
  fc ∈ columns df → lc ∈ columns df →
  forallb (row_feature_ok fs dir fc d) (df_rows df) = true →
  ∃ X y w tr,
    load_data zero path dir fc lc (Some t) wc fs = (Ok (X, y, w), tr)
    ∧ shape X = (if decide (length y = 0) then [0]
                 else [length y; Z.to_nat t * d])
    ∧ wf_ndarray X.
Proof.
  intros Hcsv Ht Hdf Hfc Hlc Hok.
  destruct (load_data_run zero fs path dir fc lc wc t d df)
    as (X & HX & _ & _ & Hrun); try done.
  eexists X, _, _, _. split; [exact Hrun|]. rewrite length_fmap.
  pose proof (resolved_rows_shapes fs dir fc d _ Hok) as Hsh.
  destruct (resolved_rows fs dir fc (df_rows df)) as [|[r a] kept].
  - cbn in HX. by injection HX as <-.
  - apply Forall_cons in Hsh as [(n & Ha & Hlen) Hsh]. cbn in Ha, Hlen.
    rewrite decide_False by done.
    change (np_array (fit_length zero (Z.to_nat t) a
                      :: ((λ k, fit_length zero (Z.to_nat t) k.2) <$> kept))
            = Ok X) in HX.
    apply np_array_stacked in HX as (HshX & _ & HdataX).
    rewrite length_fmap in HshX.
    rewrite HshX, (fit_length_shape zero _ n d) by done. split; [done|].
    unfold wf_ndarray.
    rewrite HshX, (fit_length_shape zero _ n d), HdataX by done.
    rewrite (length_concat_uniform _ (Z.to_nat t * d)).
    + rewrite length_fmap. cbn [length size_of foldr]. rewrite length_fmap. lia.
    + apply Forall_fmap. constructor.
      * cbn. rewrite astype_array_length.
        by apply (fit_length_length zero _ n d).
      * apply Forall_fmap.
        eapply Forall_impl; [exact Hsh|]. intros [r' a'] (n' & ? & ?). cbn.
        rewrite astype_array_length.
        by apply (fit_length_length zero _ n' d).
Qed.

Lemma rows_walkable_of_feature_ok fs dir fc d rows :
  forallb (row_feature_ok fs dir fc d) rows = true →
  forallb (row_walkable fs dir fc) rows = true.
Proof.
  induction rows as [|row rows IH]; [done|].
  cbn. intros [Hrow Hrows]%andb_prop. rewrite IH by done.
  rewrite andb_true_r. unfold row_feature_ok in Hrow. unfold row_walkable.
  destruct (feature_path_of dir fc row) as [p|]; [|done].
  destruct (fs !! p) as [[|a| |]|]; try done.
  destruct (shape a); [done|]. by apply bool_decide_eq_true.
Qed.


Lemma paths_of_row_traces fs dir fc rows :
  checked_paths (concat (row_trace fs dir fc <$> rows))
  = omap (feature_path_of dir fc) rows
  ∧ loaded_paths (concat (row_trace fs dir fc <$> rows))
    = omap (feature_path_of dir fc)
        (List.filter (row_file_exists fs dir fc) rows)
  ∧ manifests_read (concat (row_trace fs dir fc <$> rows)) = [].
Proof.
  unfold checked_paths, loaded_paths, manifests_read.
  induction rows as [|row rows (IH1 & IH2 & IH3)]; [done|].
  cbn [fmap list_fmap concat List.filter]. rewrite !omap_app, IH1, IH2, IH3.
  unfold row_trace, row_file_exists. cbn [omap list_omap].
  destruct (feature_path_of dir fc row) as [p|] eqn:Hp; [|done].
  destruct (fs !! p) as [node|].
  - rewrite bool_decide_true by eauto. cbn. by rewrite Hp.
  - by rewrite bool_decide_false by (by intros []).
Qed.

(** X11.  The file accesses of [load_data]: it reads the manifest once, checks
    the path of every row once, in manifest order, and loads exactly the
    files it found to exist, in that order. *)
Theorem load_data_file_accesses fs path dir fc lc wc t d df :
  fs !! path = Some (CsvFile df) → (0 ≤ t)%Z → df_consistent df = true →
  fc ∈ columns df → lc ∈ columns df →
  forallb (row_feature_ok fs dir fc d) (df_rows df) = true →
  ∃ out tr,
    load_data zero path dir fc lc (Some t) wc fs = (Ok out, tr)
    ∧ manifests_read tr = [path]
    ∧ checked_paths tr = omap (feature_path_of dir fc) (df_rows df)
    ∧ loaded_paths tr
      = omap (feature_path_of dir fc)
          (List.filter (row_file_exists fs dir fc) (df_rows df)).
Proof.
  intros Hcsv Ht Hdf Hfc Hlc Hok.
  destruct (load_data_run zero fs path dir fc lc wc t d df)
    as (X & _ & _ & _ & Hrun); try done.
  eexists _, _. split; [exact Hrun|].
  destruct (paths_of_row_traces fs dir fc (df_rows df)) as (H1 & H2 & H3).
  unfold load_trace, checked_paths, loaded_paths, manifests_read in *.
  cbn [omap list_omap]. rewrite !omap_app, H1, H2, H3.
  by case_bool_decide.
Qed.

End LoadDataMatrix.

Section InconsistentDim.
Context {elt : Type} `{!Casting elt} (zero : elt).
Implicit Types (fs : gmap string (fsnode elt)) (row : gmap string cell).

Lemma load_loop_any fs dir fc lc wc t rows F L W :
  (0 ≤ t)%Z → forallb (row_loadable_any fs dir fc lc wc) rows = true →
  for_each (load_row zero dir fc lc t wc) (F, L, W) rows fs
  = (Ok (F ++ ((λ kept, fit_length zero (Z.to_nat t) kept.2)
                 <$> resolved_rows fs dir fc rows),
         L ++ ((λ kept, cell_at kept.1 lc) <$> resolved_rows fs dir fc rows),
         W ++ ((λ kept, cell_at kept.1 wc) <$> resolved_rows fs dir fc rows)),
     concat (row_trace fs dir fc <$> rows)).
Proof.
  intros Ht. revert F L W.
  induction rows as [|row rows IH]; intros F L W Hrows.
  - cbn. unfold mret, IO_ret. by rewrite !app_nil_r.
  - cbn in Hrows. apply andb_prop in Hrows as [Hrow Hrows].
    apply andb_prop in Hrow as [[Ha Hl%bool_decide_eq_true]%andb_prop
                                 Hw%bool_decide_eq_true].
    cbn [for_each fmap list_fmap concat].
    unfold resolved_rows, row_trace. cbn [omap list_omap].
    destruct (feature_path_of dir fc row) as [p|] eqn:Hp; [|done].
    cbn [mbind option_bind].
    destruct (fs !! p) as [[df|a| |]|] eqn:Hfs; try done.
    + destruct (shape a) as [|n [|d [|]]] eqn:Hsh; try done.
      apply bool_decide_eq_true in Ha.
      erewrite IO_bind_ok;
        [|by eapply load_row_found|by apply IH].
      cbn. by rewrite <- !app_assoc.
    + erewrite IO_bind_ok;
        [|by eapply load_row_missing|by apply IH].
      done.
Qed.

(** X12.  Arrays of different numbers of columns are not detected while they are
    loaded.  Every row is processed, and only the assembly of the matrix at
    line 62 raises [ValueError]; nothing is returned. *)
Theorem load_data_inconsistent_feature_dim fs path dir fc lc wc t df
    r1 a1 more r2 a2 n1 d1 n2 d2 :
  fs !! path = Some (CsvFile df) → wc ∈ columns df → (0 < t)%Z →
  forallb (row_loadable_any fs dir fc lc wc) (df_rows df) = true →
  resolved_rows fs dir fc (df_rows df) = (r1, a1) :: more →
  (r2, a2) ∈ more →
  shape a1 = [n1; d1] → shape a2 = [n2; d2] → d1 ≠ d2 →
  load_data zero path dir fc lc (Some t) wc fs
  = (Raise (ValueError inhomogeneous_msg), load_trace fs path dir fc wc df).
Proof.
  intros Hcsv Hwc Ht Hrows Hkept Hin H1 H2 Hd.
  unfold load_data, load_trace.
  eapply IO_bind_ok_eq; [unfold read_csv; by rewrite Hcsv| |reflexivity].
  cbv beta. rewrite !bool_decide_true by done.
  eapply IO_bind_ok_eq; [reflexivity| |reflexivity].
  eapply IO_bind_ok_eq;
    [apply (load_loop_any fs dir fc lc wc t); [lia|done]|
    |by rewrite app_nil_r].
  cbn [app]. apply IO_bind_raise. unfold lift. f_equal.
  rewrite Hkept. cbn [fmap list_fmap]. unfold np_array.
  match goal with
  | |- context [forallb ?f ?l] => destruct (forallb f l) eqn:Hall
  end; [|done]. exfalso.
  apply Is_true_true, forallb_True in Hall. rewrite Forall_forall in Hall.
  specialize (Hall (fit_length zero (Z.to_nat t) a2)).
  cbn in Hall. apply bool_decide_unpack in Hall.
  - rewrite (fit_length_shape zero _ n2 d2), (fit_length_shape zero _ n1 d1)
      in Hall by done.
    injection Hall as Hall. nia.
  - apply (list_elem_of_fmap_2 (λ k, fit_length zero (Z.to_nat t) k.2)
             more (r2, a2) Hin).
Qed.

End InconsistentDim.

(** ** What the runs touch *)

Section TraceAll.
Context {elt : Type} `{!Casting elt} (P : event → Prop).

Lemma trace_all_bind {A B} (m : IO elt A) (f : A → IO elt B) :
  trace_all P m → (∀ a, trace_all P (f a)) → trace_all P (m ≫= f).
Proof.
  intros Hm Hf fs. unfold mbind, IO_bind.
  specialize (Hm fs). destruct (m fs) as [[a|e] tr]; [|done].
  specialize (Hf a fs). destruct (f a fs) as [r tr']. cbn in *.
  by apply Forall_app.
Qed.

Lemma trace_all_ret {A} (a : A) : trace_all (elt:=elt) P (mret a).
Proof. intros fs. by constructor. Qed.

Lemma trace_all_lift {A} (r : result A) : trace_all (elt:=elt) P (lift r).
Proof. intros fs. by constructor. Qed.

Lemma trace_all_emit ev : P ev → trace_all (elt:=elt) P (emit ev).
Proof. intros Hev fs. by repeat constructor. Qed.

Lemma trace_all_for_each {S A} (body : S → A → IO elt S) s l :
  (∀ s x, trace_all P (body s x)) → trace_all P (for_each body s l).
Proof.
  intros Hbody. revert s. induction l as [|x l IH]; intros s; cbn.
  - apply trace_all_ret.
  - apply trace_all_bind; [apply Hbody|]. intros s'. apply IH.
Qed.

Hypothesis reads_and_prints : ∀ ev, is_write ev = false → P ev.

Lemma trace_all_print m : trace_all (elt:=elt) P (print m).
Proof. by apply trace_all_emit, reads_and_prints. Qed.

Lemma trace_all_read_csv p : trace_all (elt:=elt) P (read_csv p).
Proof. intros fs. repeat constructor. by apply reads_and_prints. Qed.

Lemma trace_all_path_exists p : trace_all (elt:=elt) P (path_exists p).
Proof. intros fs. repeat constructor. by apply reads_and_prints. Qed.

Lemma trace_all_np_load p : trace_all (elt:=elt) P (np_load p).
Proof. intros fs. repeat constructor. by apply reads_and_prints. Qed.

End TraceAll.

(** Takes a computation apart along its binds. *)
Ltac trace_all_step :=
  first
    [ apply trace_all_ret
    | apply trace_all_lift
    | apply trace_all_print; assumption
    | apply trace_all_read_csv; assumption
    | apply trace_all_path_exists; assumption
    | apply trace_all_np_load; assumption
    | apply trace_all_bind; [|intros ?]
    | match goal with
      | x : (_ * _)%type |- _ => destruct x
      | |- trace_all _ (if ?b then _ else _) => destruct b
      | |- trace_all _ (match ?o with Some _ => _ | None => _ end) =>
          destruct o
      end ].

Ltac trace_all_steps := repeat trace_all_step.

Section ReadOnly.
Context {elt : Type} `{!Casting elt} (zero : elt)
  `{ScalerAPI elt} `{ForestAPI elt}.
Context (P : event → Prop).
Hypothesis reads_and_prints : ∀ ev, is_write ev = false → P ev.

Lemma trace_all_get_max path dir fc :
  trace_all (elt:=elt) P (get_max_sequence_length path dir fc).
Proof.
  unfold get_max_sequence_length. trace_all_steps.
  apply trace_all_for_each. intros acc row. unfold max_length_step.
  trace_all_steps.
Qed.

Lemma trace_all_load_data path dir fc lc tl wc :
  trace_all P (load_data zero path dir fc lc tl wc).
Proof.
  unfold load_data. destruct tl as [t|]; [|apply trace_all_lift].
  trace_all_steps.
  apply trace_all_for_each. intros acc row. unfold load_row.
  trace_all_steps.
Qed.

Lemma trace_all_load_train_data path dir fc lc tl wc scaler :
  trace_all P (load_train_data zero path dir fc lc tl wc scaler).
Proof.
  unfold load_train_data.
  apply trace_all_bind; [apply trace_all_load_data|]. intros ?.
  trace_all_steps.
Qed.

Lemma trace_all_load_eval_data path dir fc lc tl scaler :
  trace_all P (load_eval_data zero path dir fc lc tl scaler).
Proof.
  unfold load_eval_data.
  apply trace_all_bind; [apply trace_all_load_data|]. intros ?.
  trace_all_steps.
Qed.

Lemma trace_all_evaluate model X y threshold :
  trace_all (elt:=elt) P (evaluate_model_with_threshold model X y threshold).
Proof. unfold evaluate_model_with_threshold. trace_all_steps. Qed.

Lemma trace_all_print_ranking importances indices :
  trace_all (elt:=elt) P (print_ranking importances indices).
Proof.
  unfold print_ranking. apply trace_all_for_each. intros [] [f i].
  trace_all_steps.
Qed.

End ReadOnly.

Section Writes.
Context {elt : Type} `{!Casting elt} (zero : elt)
  `{ScalerAPI elt} `{ForestAPI elt}.
Implicit Types (fs : gmap string (fsnode elt)).

(** X13.  No run of a loading function, returning or raising, creates or writes
    a file or directory: all they do to the file system is read the
    manifest, test whether paths exist, and load arrays. *)
Theorem loaders_never_write fs path dir fc lc tl wc scaler :
  Forall (λ ev, is_write ev = false)
    (get_max_sequence_length path dir fc fs).2
  ∧ Forall (λ ev, is_write ev = false)
      (load_data zero path dir fc lc tl wc fs).2
  ∧ Forall (λ ev, is_write ev = false)
      (load_train_data zero path dir fc lc tl wc scaler fs).2
  ∧ Forall (λ ev, is_write ev = false)
      (load_eval_data zero path dir fc lc tl scaler fs).2
  ∧ Forall (λ ev, is_write ev = false)
      (load_test_data zero path dir fc lc tl scaler fs).2.
Proof.
  repeat split.
  - by apply trace_all_get_max.
  - by apply trace_all_load_data.
  - by apply trace_all_load_train_data.
  - by apply trace_all_load_eval_data.
  - by apply (trace_all_load_eval_data zero).
Qed.

Lemma run_trace_all_bind {A B} P (m : Run elt A) (f : A → Run elt B) :
  run_trace_all P m → (∀ a, run_trace_all P (f a)) →
  run_trace_all P (m ≫= f).
Proof.
  intros Hm Hf fs. unfold mbind, Run_bind.
  specialize (Hm fs). destruct (m fs) as [[[a|e] tr] fs1]; [|done].
  specialize (Hf a fs1). destruct (f a fs1) as [[r tr'] fs2]. cbn in *.
  by apply Forall_app.
Qed.

Lemma run_trace_all_reads {A} P (m : IO elt A) :
  trace_all P m → run_trace_all P (reads m).
Proof. intros Hm fs. apply Hm. Qed.

Lemma run_trace_all_write_file P path ev :
  P ev → run_trace_all (elt:=elt) P (write_file path ev).
Proof.
  intros Hev fs. unfold write_file.
  destruct (parent_error fs path); [by constructor|].
  destruct (fs !! path) as [[]|]; cbn; by repeat constructor.
Qed.

Lemma makedirs_under_silent heads name fs :
  (makedirs_under (elt:=elt) heads name fs).1.2 = [].
Proof.
  assert (∀ name fs, (mkdir_exist_ok (elt:=elt) name fs).1.2 = []) as Hmk.
  { intros name' fs'. unfold mkdir_exist_ok.
    destruct (fs' !! name') as [[]|]; try done.
    by destruct (parent_error fs' name'). }
  revert name fs. induction heads as [|head heads IH]; intros name fs;
    [apply Hmk|].
  cbn [makedirs_under]. unfold mbind, Run_bind.
  case_bool_decide.
  - specialize (Hmk name fs).
    destruct (mkdir_exist_ok name fs) as [[r tr] fs']. by cbn in *.
  - specialize (IH head fs).
    destruct (makedirs_under heads head fs) as [[[u|e] tr] fs1];
      cbn in IH; subst tr.
    + specialize (Hmk name fs1).
      destruct (mkdir_exist_ok name fs1) as [[r tr] fs']. by cbn in *.
    + destruct e; try done. specialize (Hmk name fs1).
      destruct (mkdir_exist_ok name fs1) as [[r tr] fs']. by cbn in *.
Qed.

Lemma run_trace_all_makedirs P name :
  P (EvMakedirs name) → run_trace_all (elt:=elt) P (makedirs name).
Proof.
  intros Hev fs. unfold makedirs, mbind, Run_bind.
  pose proof (makedirs_under_silent (reverse (dirs_above "" name)) name fs)
    as Hsilent.
  destruct (makedirs_under _ name fs) as [[[u|e] tr] fs1]; cbn in *; subst tr;
    by repeat constructor.
Qed.

(** X14.  Whatever the files and the library do, and whether it returns or
    raises, [main] writes nowhere but to its four fixed paths. *)
Theorem main_writes_only_outputs fs ev p :
  ev ∈ (main zero fs).1.2 → write_target ev = Some p → p ∈ output_paths.
Proof.
  assert (run_trace_all
            (λ ev, ∀ p, write_target ev = Some p → p ∈ output_paths)
            (main zero)) as Hall.
  { assert (∀ ev, is_write ev = false →
                  ∀ p, write_target ev = Some p → p ∈ output_paths) as Hread
      by (by intros []).
    unfold main.
    repeat first
      [ match goal with
        | |- run_trace_all _ (reads _) => apply run_trace_all_reads
        | |- run_trace_all _ (makedirs _) =>
            apply run_trace_all_makedirs; intros ? [= <-]; by_decide
        | |- run_trace_all _ (savefig _ _ _ _) =>
            apply run_trace_all_write_file; intros ? [= <-]; by_decide
        | |- run_trace_all _ (savetxt _ _ _) =>
            apply run_trace_all_write_file; intros ? [= <-]; by_decide
        | |- run_trace_all _ (dump _ _) =>
            apply run_trace_all_write_file; intros ? [= <-]; by_decide
        | |- run_trace_all _ (_ ≫= _) =>
            apply run_trace_all_bind; [|intros ?]
        end
      | apply trace_all_get_max; assumption
      | apply trace_all_load_train_data; assumption
      | apply trace_all_load_eval_data; assumption
      | apply trace_all_evaluate; assumption
      | apply trace_all_print_ranking; assumption
      | trace_all_step
      | progress cbv beta zeta
      | match goal with x : (_ * _)%type |- _ => destruct x end ]. }
  intros Hin. specialize (Hall fs). rewrite Forall_forall in Hall.
  by apply Hall.
Qed.

Lemma leaves_bind {A B} Q (m : Run elt A) (f : A → Run elt B) :
  leaves Q m → (∀ a, leaves Q (f a)) → leaves Q (m ≫= f).
Proof.
  intros Hm Hf fs q Hq. unfold mbind, Run_bind.
  specialize (Hm fs q Hq). destruct (m fs) as [[[a|e] tr] fs1]; [|done].
  specialize (Hf a fs1 q Hq). destruct (f a fs1) as [[r tr'] fs2].
  cbn in *. congruence.
Qed.

Lemma leaves_reads {A} Q (m : IO elt A) : leaves Q (reads m).
Proof. by intros fs q Hq. Qed.

Lemma leaves_write_file Q path ev :
  ¬ Q path → leaves (elt:=elt) Q (write_file path ev).
Proof.
  intros Hpath fs q Hq. unfold write_file.
  destruct (parent_error fs path); [done|].
  destruct (fs !! path) as [[]|]; cbn; try done;
    apply lookup_insert_ne; congruence.
Qed.

Lemma leaves_mkdir Q path :
  ¬ Q path → leaves (elt:=elt) Q (mkdir_exist_ok path).
Proof.
  intros Hpath fs q Hq. unfold mkdir_exist_ok.
  destruct (fs !! path) as [[]|]; try done.
  destruct (parent_error fs path); [done|]. cbn.
  apply lookup_insert_ne. congruence.
Qed.

Lemma leaves_makedirs_under Q heads name :
  ¬ Q name → Forall (λ head, ¬ Q head) heads →
  leaves (elt:=elt) Q (makedirs_under heads name).
Proof.
  intros Hname Hheads. revert name Hname.
  induction Hheads as [|head heads Hhead _ IH]; intros name Hname;
    [by apply leaves_mkdir|].
  cbn [makedirs_under]. apply leaves_bind; [|intros _; by apply leaves_mkdir].
  intros fs q Hq. case_bool_decide; [done|].
  specialize (IH head Hhead fs q Hq).
  destruct (makedirs_under heads head fs) as [[[u|e] tr] fs1]; [done|].
  by destruct e.
Qed.

Lemma leaves_makedirs Q name :
  ¬ Q name → Forall (λ head, ¬ Q head) (dirs_above "" name) →
  leaves (elt:=elt) Q (makedirs name).
Proof.
  intros Hname Hheads. unfold makedirs.
  apply leaves_bind; [|intros _; apply leaves_reads].
  apply leaves_makedirs_under; [done|]. by apply Forall_reverse.
Qed.

Lemma dump_last_bind {A B} (m : Run elt A) (f : A → Run elt B) :
  run_trace_all (λ ev, is_dump ev = false) m →
  leaves (λ q, q = model_path ∨ q = model_dir) m →
  (∀ a, dump_last (f a)) → dump_last (m ≫= f).
Proof.
  intros Hm Hkeep Hf fs. unfold mbind, Run_bind.
  specialize (Hm fs).
  pose proof (Hkeep fs model_path (or_introl eq_refl)) as Hpath.
  pose proof (Hkeep fs model_dir (or_intror eq_refl)) as Hdir.
  destruct (m fs) as [[[a|e] tr] fs1]; [|done].
  specialize (Hf a fs1). destruct (f a fs1) as [[[b|e] tr'] fs2]; cbn in *.
  - destruct Hf as ((tr'' & -> & Htr'') & Hmodel & Hfound).
    split; [|split; congruence].
    exists (tr ++ tr''). split; [by rewrite app_assoc|by apply Forall_app].
  - destruct Hf as [Htr' Hmodel]. split; [by apply Forall_app|congruence].
Qed.

Lemma dump_last_dump {Model'} (model : Model') :
  dump_last (elt:=elt) (dump model model_path).
Proof.
  intros fs. unfold dump, write_file, parent_error.
  change (dirname model_path) with model_dir.
  rewrite bool_decide_false by done.
  destruct (fs !! model_dir) as [[]|] eqn:Hdir; try done.
  destruct (fs !! model_path) as [[]|] eqn:Hpath; try done;
    (split; [by exists []|]); by rewrite lookup_insert_eq.
Qed.

(** X15.  The model is written only by a run in which everything before
    succeeded, and as its last action.  A run of [main] that returns has
    written it once, at the end, into a directory that was there before
    [main] began: [main] does not create it.  A run that raises, be it at
    line 113 itself, has written no model and leaves what was at the
    model's path. *)
Theorem main_dumps_model_last fs :
  match main zero fs with
  | (Ok _, tr, fs') =>
      (∃ tr', tr = tr' ++ [EvDump model_path]
              ∧ Forall (λ ev, is_dump ev = false) tr')
      ∧ fs' !! model_path = Some OtherFile
      ∧ fs !! model_dir = Some Directory
  | (Raise _, tr, fs') =>
      Forall (λ ev, is_dump ev = false) tr
      ∧ fs' !! model_path = fs !! model_path
  end.
Proof.
  assert (dump_last (main zero)) as Hlast; [|exact (Hlast fs)].
  assert (∀ ev, is_write ev = false → is_dump ev = false) as Hread
    by (by intros []).
  unfold main.
  repeat first
    [ match goal with
      | |- dump_last (dump _ _) => apply dump_last_dump
      | |- dump_last (_ ≫= _) => apply dump_last_bind; [| |intros ?]
      | |- leaves _ (reads _) => apply leaves_reads
      | |- leaves _ (makedirs _) =>
          apply leaves_makedirs;
            [by intros [|]|by repeat constructor; intros [|]]
      | |- leaves _ (savefig _ _ _ _) => apply leaves_write_file; by intros [|]
      | |- leaves _ (savetxt _ _ _) => apply leaves_write_file; by intros [|]
      | |- run_trace_all _ (reads _) => apply run_trace_all_reads
      | |- run_trace_all _ (makedirs _) =>
          apply run_trace_all_makedirs; reflexivity
      | |- run_trace_all _ (savefig _ _ _ _) =>
          apply run_trace_all_write_file; reflexivity
      | |- run_trace_all _ (savetxt _ _ _) =>
          apply run_trace_all_write_file; reflexivity
      end
    | apply trace_all_get_max; assumption
    | apply trace_all_load_train_data; assumption
    | apply trace_all_load_eval_data; assumption
    | apply trace_all_evaluate; assumption
    | apply trace_all_print_ranking; assumption
    | trace_all_step
    | progress cbv beta zeta
    | match goal with x : (_ * _)%type |- _ => destruct x end ].
Qed.

(** X23.  Whether it returns or raises, [main] leaves everything in the file
    system as it was, except at its four output paths and at [data], the
    directory above its output directory: nothing else is created,
    replaced or removed. *)
Theorem main_changes_only_outputs fs q :
  q ∉ written_paths → (main zero fs).2 !! q = fs !! q.
Proof.
  assert (leaves (λ q, q ∉ written_paths) (main zero)) as Hleaves;
    [|by apply Hleaves].
  assert (∀ p : string, p ∈ written_paths → ¬ (p ∉ written_paths)) as Hin
    by (intros p Hp Hn; by apply Hn).
  unfold main.
  repeat first
    [ match goal with
      | |- leaves _ (reads _) => apply leaves_reads
      | |- leaves _ (makedirs _) =>
          apply leaves_makedirs;
            [apply Hin; by_decide|repeat constructor; apply Hin; by_decide]
      | |- leaves _ (savefig _ _ _ _) =>
          apply leaves_write_file, Hin; by_decide
      | |- leaves _ (savetxt _ _ _) =>
          apply leaves_write_file, Hin; by_decide
      | |- leaves _ (dump _ _) => apply leaves_write_file, Hin; by_decide
      | |- leaves _ (_ ≫= _) => apply leaves_bind; [|intros ?]
      end
    | progress cbv beta zeta
    | match goal with x : (_ * _)%type |- _ => destruct x end ].
Qed.

End Writes.

(** ** More on the decision threshold *)

(** X17.  Raising the threshold never turns a negative prediction of line 16 into
    a positive one. *)
Theorem threshold_predictions_monotone (y_scores : list Q) (t1 t2 : Q) i :
  (t1 <= t2)%Q →
  threshold_predictions y_scores t2 !! i = Some 1%Z →
  threshold_predictions y_scores t1 !! i = Some 1%Z.
Proof.
  intros Hle. unfold threshold_predictions. rewrite !list_lookup_fmap.
  destruct (y_scores !! i) as [score|]; [|done]. cbn.
  destruct (Qgtb score t2) eqn:H2; [|done]. intros _.
  apply Qgtb_lt in H2.
  by rewrite (proj2 (Qgtb_lt score t1)) by (by eapply Qle_lt_trans).
Qed.

(** X18.  For scores that are probabilities, a threshold of [1] or more predicts
    every sample negative, a score of [1] included, and a threshold below
    [0] predicts every sample positive; a threshold of [0] still predicts
    a sample of score [0] negative. *)
Theorem threshold_predictions_extremes (y_scores : list Q) (threshold : Q) :
  Forall (λ score, (0 <= score)%Q ∧ (score <= 1)%Q) y_scores →
  ((1 <= threshold)%Q →
     threshold_predictions y_scores threshold
     = replicate (length y_scores) 0%Z)
  ∧ ((threshold < 0)%Q →
       threshold_predictions y_scores threshold
       = replicate (length y_scores) 1%Z)
  ∧ threshold_predictions [0%Q] 0%Q = [0%Z].
Proof.
  intros Hprob. unfold threshold_predictions. repeat split.
  - intros Ht. apply const_fmap. intros i score Hi.
    rewrite Forall_forall in Hprob.
    destruct (Hprob score) as [_ Hs]; [by eapply list_elem_of_lookup_2|].
    destruct (Qgtb score threshold) eqn:Hgt; [|done].
    apply Qgtb_lt in Hgt. exfalso.
    apply (Qlt_irrefl 1), Qle_lt_trans with threshold; [done|].
    by eapply Qlt_le_trans.
  - intros Ht. apply const_fmap. intros i score Hi.
    rewrite Forall_forall in Hprob.
    destruct (Hprob score) as [Hs _]; [by eapply list_elem_of_lookup_2|].
    by rewrite (proj2 (Qgtb_lt score threshold))
      by (by eapply Qlt_le_trans).
Qed.

Lemma column1_short_row (proba : list (list Q)) :
  Exists (λ row, length row < 2) proba →
  column1 proba = Raise (IndexError "index 1 is out of bounds for axis 1").
Proof.
  unfold column1. induction proba as [|row proba IH]; intros Hex.
  - by apply Exists_nil in Hex.
  - cbn. destruct (row !! 1) as [p|] eqn:Hp; [|done]. cbn.
    apply Exists_cons in Hex as [Hrow|Hrest].
    + apply lookup_lt_Some in Hp. lia.
    + by rewrite IH.
Qed.

Section SingleClass.
Context {elt : Type} `{!Casting elt} `{ForestAPI elt}.

(** X19.  When [predict_proba] has no column 1, as for a model fit on a single
    class, line 15 raises [IndexError]: no metric is computed and nothing
    is printed. *)
Theorem evaluate_model_without_positive_column
    (fs : gmap string (fsnode elt)) model X_eval y_eval threshold proba :
  predict_proba model X_eval = Ok proba →
  Exists (λ row : list Q, length row < 2) proba →
  evaluate_model_with_threshold model X_eval y_eval threshold fs
  = (Raise (IndexError "index 1 is out of bounds for axis 1"), []).
Proof.
  intros Hproba Hshort.
  unfold evaluate_model_with_threshold, mbind, IO_bind, lift.
  by rewrite Hproba, column1_short_row.
Qed.

End SingleClass.

(** ** The printed ranking *)

Section PrintedRanking.
Context {elt : Type} `{!Casting elt}.
Implicit Types (fs : gmap string (fsnode elt)).

Lemma print_ranking_from importances fs (start : nat) indices :
  Forall (λ i, i < length importances) indices →
  for_each (λ (_ : ()) '(f, i),
              x ← lift (np_index importances i);
              print (elt:=elt) (MsgFeatureRank (f + 1) i x))
           () (imap (λ f i, (start + f, i)) indices) fs
  = (Ok (),
     imap (λ f i, EvPrint (MsgFeatureRank (start + f + 1) i
                             (default 0%Q (importances !! i)))) indices).
Proof.
  intros Hall. revert start.
  induction Hall as [|i indices Hi _ IH]; intros start; [done|].
  destruct (lookup_lt_is_Some_2 importances i Hi) as [x Hx].
  cbn [imap for_each].
  eapply IO_bind_ok_eq.
  - unfold mbind, IO_bind, lift, np_index, print, emit. rewrite Hx.
    reflexivity.
  - rewrite (imap_ext _ (λ f i, (S start + f, i)))
      by (intros; unfold compose; f_equal; lia).
    apply IH.
  - cbn. rewrite Hx. cbn. f_equal.
    apply imap_ext. intros. unfold compose. do 3 f_equal. lia.
Qed.

(** X20.  The ranking printed by lines 103-104 is the table of line 107 with the
    ranks [1], [2], ... put in front: its line [k + 1] gives rank [k + 1]
    and the feature index and importance of row [k] of the table. *)
Theorem print_ranking_matches_table importances sorted_idx fs :
  argsort_ok importances sorted_idx = true →
  ∃ tr,
    print_ranking importances (take 20 (reverse sorted_idx)) fs = (Ok (), tr)
    ∧ length tr = length (ranking_rows importances sorted_idx)
    ∧ ∀ k i, take 20 (reverse sorted_idx) !! k = Some i →
        ∃ x, ranking_rows importances sorted_idx !! k
             = Some [inject_Z (Z.of_nat i); x]
             ∧ tr !! k = Some (EvPrint (MsgFeatureRank (k + 1) i x)).
Proof.
  intros (_ & _ & Hr & _)%argsort_ok_inv.
  assert (Forall (λ i, i < length importances) (take 20 (reverse sorted_idx)))
    as Hall.
  { apply Forall_forall. intros i [k [Hk _]]%elem_of_take.
    rewrite Forall_forall in Hr. apply Hr.
    apply elem_of_reverse. by eapply list_elem_of_lookup_2. }
  eexists. split.
  { unfold print_ranking.
    rewrite <- (print_ranking_from importances fs 0 _ Hall). reflexivity. }
  unfold ranking_rows. rewrite length_imap, length_fmap. split; [done|].
  intros k i Hk. eexists. rewrite list_lookup_fmap, list_lookup_imap, Hk.
  by cbn.
Qed.

End PrintedRanking.

(** ** Where feature files are looked for *)

Lemma basename_no_sep (s : string) : contains_sep (basename s) = false.
Proof.
  induction s as [|c rest IH]; [done|]. cbn.
  destruct (contains_sep rest) eqn:Hrest; [done|].
  destruct (is_sep c) eqn:Hc; [done|]. cbn. by rewrite Hc, Hrest.
Qed.

(** X21.  Lines 14 and 40 keep only the base name of the manifest's path, so the
    file is always looked for directly inside the feature directory:
    whatever directory the manifest names, even an absolute one, plays no
    part. *)
Theorem feature_path_in_feature_dir dir fc (row : gmap string cell) p :
  feature_path_of dir fc row = Some p →
  ∃ s base,
    row !! fc = Some (CStr s) ∧ base = basename s
    ∧ contains_sep base = false
    ∧ (p = dir +:+ base ∨ p = dir +:+ "/" +:+ base).
Proof.
  unfold feature_path_of. destruct (row !! fc) as [[s| | |]|]; try done.
  intros [= <-]. exists s, (basename s).
  pose proof (basename_no_sep s) as Hsep.
  split; [done|]. split; [done|]. split; [done|].
  unfold path_join.
  assert (starts_with_sep (basename s) = false) as ->.
  { destruct (basename s) as [|c b]; [done|]. cbn in *.
    by destruct (is_sep c). }
  destruct (bool_decide (dir = "") || ends_with_sep dir); eauto.
Qed.

(** ** The wrappers and the driver *)

Section WrapperEdges.
Context {elt : Type} `{!Casting elt} (zero : elt)
  `{ScalerAPI elt} `{ForestAPI elt}.
Implicit Types (fs : gmap string (fsnode elt)).

(** X22.  Called without a target length, which is their default, the three
    wrappers raise the configuration error of [load_data] before anything
    is read and before any scaler is used. *)
Theorem wrappers_require_target_length fs path dir fc lc wc scaler :
  load_train_data zero path dir fc lc None wc scaler fs
  = (Raise config_error, [])
  ∧ load_eval_data zero path dir fc lc None scaler fs
    = (Raise config_error, [])
  ∧ load_test_data zero path dir fc lc None scaler fs
    = (Raise config_error, []).
Proof. by destruct scaler. Qed.

Lemma load_train_data_inv fs path dir fc lc tl wc X y w scaler tr :
  load_train_data zero path dir fc lc tl wc None fs
  = (Ok (X, y, w, scaler), tr) →
  ∃ X_raw,
    load_data zero path dir fc lc tl wc fs = (Ok (X_raw, y, w), tr)
    ∧ fit_transform StandardScaler X_raw = Ok (X, scaler).
Proof.
  unfold load_train_data. intros Hrun. io_inv Hrun.
  match goal with
  | Hfit : lift (fit_transform _ _) _ = _ |- _ =>
      apply lift_inv in Hfit as [Hfit ->]
  end.
  apply mret_ok in Hrun as [[= <- <- <- <-] ->].
  rewrite !app_nil_r. eauto.
Qed.

Lemma load_eval_data_inv fs path dir fc lc tl X y scaler tr :
  load_eval_data zero path dir fc lc tl (Some scaler) fs = (Ok (X, y), tr) →
  ∃ X_raw w,
    load_data zero path dir fc lc tl "example_weight" fs
    = (Ok (X_raw, y, w), tr)
    ∧ transform scaler X_raw = Ok X.
Proof.
  unfold load_eval_data. intros Hrun. io_inv Hrun.
  match goal with
  | Htr : lift (transform _ _) _ = _ |- _ =>
      apply lift_inv in Htr as [Htr ->]
  end.
  apply mret_ok in Hrun as [[= <- <-] ->].
  rewrite !app_nil_r. eauto.
Qed.

(** X16.  In a run of [main] that returns, the scaler is fit on the training
    matrix alone; the evaluation matrix is transformed by that fitted
    scaler and never fit on; the classifier is fit on the scaled training
    matrix with the training labels and weights and the class weights
    computed from the training labels; and it is evaluated on the scaled
    evaluation matrix at the threshold [1/2]. *)
Theorem main_fits_on_training_data_only fs tr fs' :
  main zero fs = (Ok (), tr, fs') →
  ∃ target_length X_raw y_train w_train X_train scaler
    Xe_raw y_eval w_eval X_eval class_weights model metrics,
    (load_data zero "data/metadata/train_downsample.csv"
       "data/downsampled_features" "contextual_feature_file" "class"
       (Some target_length) "example_weight" fs).1
    = Ok (X_raw, y_train, w_train)
    ∧ fit_transform StandardScaler X_raw = Ok (X_train, scaler)
    ∧ (load_data zero "data/metadata/eval_downsample.csv"
         "data/downsampled_features" "contextual_feature_file" "class"
         (Some target_length) "example_weight" fs).1
      = Ok (Xe_raw, y_eval, w_eval)
    ∧ transform scaler Xe_raw = Ok X_eval
    ∧ compute_class_weight_balanced y_train = Ok class_weights
    ∧ forest_fit (list_to_map (imap (λ i w, (i, w)) class_weights))
        X_train y_train w_train = Ok model
    ∧ (evaluate_model_with_threshold model X_eval y_eval (1 # 2) fs).1
      = Ok metrics.
Proof.
  intros Hmain. unfold main in Hmain. run_inv Hmain.
  match goal with
  | Htrain : load_train_data _ _ _ _ _ _ _ _ _ = _,
    Heval : load_eval_data _ _ _ _ _ _ _ _ = _,
    Hcw : lift (compute_class_weight_balanced _) _ = _,
    Hfit : lift (forest_fit _ _ _ _) _ = _,
    Hev : evaluate_model_with_threshold _ _ _ _ _ = _ |- _ =>
      apply load_train_data_inv in Htrain as (X_raw & Htrain & Hscale);
      apply load_eval_data_inv in Heval as (Xe_raw & w_eval & Heval & Htrans);
      apply lift_inv in Hcw as [Hcw _];
      apply lift_inv in Hfit as [Hfit _];
      eexists _, X_raw, _, _, _, _, Xe_raw, _, w_eval, _, _, _, _;
      rewrite Htrain, Heval, Hev
  end.
  by repeat split.
Qed.

End WrapperEdges.

(** ** Runs of the further properties on concrete inputs *)

Lemma normalize_length_negative_target_witness :
  ∃ a', normalize_length 0%Z (-1)%Z (ramp 0 3) = Ok a'
        ∧ array_rows a' = [[1; 2]; [3; 4]]%Z.
Proof.
  destruct (normalize_length_negative_target 0%Z (-1)%Z 3 2 (ramp 0 3))
    as (a' & Hrun & _ & Hrows); [reflexivity|reflexivity|lia|].
  exists a'. split; [exact Hrun|]. rewrite Hrows. reflexivity.
Defined.

Lemma normalize_length_pads_only_2d_witness :
  normalize_length 0%Z 3%Z (NdArray np_float64 [2] [1; 2]%Z)
  = Raise (IndexError "tuple index out of range")
  ∧ normalize_length 0%Z 3%Z (NdArray np_float64 [2; 1; 1] [1; 2]%Z)
    = Raise (ValueError concat_ndim_msg).
Proof.
  split.
  - exact (normalize_length_pads_only_2d 0%Z 3%Z 2 [] (NdArray np_float64 [2] [1; 2]%Z)
             eq_refl ltac:(cbn; lia) ltac:(lia)).
  - exact (normalize_length_pads_only_2d 0%Z 3%Z 2 [1; 1]
             (NdArray np_float64 [2; 1; 1] [1; 2]%Z)
             eq_refl ltac:(cbn; lia) ltac:(lia)).
Defined.

Lemma normalize_length_idempotent_witness :
  normalize_length 0%Z 5%Z
    (NdArray np_float64 [5; 2] [1; 2; 3; 4; 5; 6; 0; 0; 0; 0]%Z)
  = Ok (NdArray np_float64 [5; 2] [1; 2; 3; 4; 5; 6; 0; 0; 0; 0]%Z).
Proof.
  apply (normalize_length_idempotent 0%Z 5%Z (ramp 0 3));
    [lia|reflexivity].
Defined.

Lemma get_max_sequence_length_nonneg_witness : (0 ≤ 7)%Z.
Proof.
  apply (get_max_sequence_length_nonneg demo_fs "lengths.csv" "features"
           "feature_file" 7%Z
           (get_max_sequence_length "lengths.csv" "features" "feature_file"
              demo_fs).2).
  reflexivity.
Defined.

Lemma get_max_sequence_length_bad_feature_cell_witness :
  get_max_sequence_length "bad.csv" "features" "feature_file" edge_fs
  = (Raise (TypeError "expected str, bytes or os.PathLike object"),
     [EvReadCsv "bad.csv"; EvExists "features/a.npy";
      EvLoad "features/a.npy"]).
Proof.
  exact (get_max_sequence_length_bad_feature_cell edge_fs "bad.csv"
           "features" "feature_file" bad_cell_manifest
           [manifest_row [("feature_file", CStr "raw/a.npy");
                          ("class", CInt 0); ("example_weight", CFloat 1)]]
           (manifest_row [("feature_file", CNaN); ("class", CInt 1);
                          ("example_weight", CFloat 1)])
           [manifest_row [("feature_file", CStr "raw/a.npy");
                          ("class", CInt 1); ("example_weight", CFloat 1)]]
           eq_refl eq_refl eq_refl eq_refl).
Defined.

Lemma load_data_lengths_agree_witness :
  np_len (NdArray np_float64 [1; 8] [1; 2; 3; 4; 5; 6; 0; 0]%Z) = Ok (length [CInt 0])
  ∧ length [CInt 1] = length [CInt 0].
Proof.
  apply (load_data_lengths_agree 0%Z demo_fs "two.csv" "features"
           "feature_file" "class" (Some 4%Z) "example_weight" _ _ _
           (load_data 0%Z "two.csv" "features" "feature_file" "class"
              (Some 4%Z) "example_weight" demo_fs).2).
  reflexivity.
Defined.

Lemma load_data_bad_feature_cell_witness :
  load_data 0%Z "bad.csv" "features" "feature_file" "class" (Some 3%Z)
    "example_weight" edge_fs
  = (Raise (TypeError "expected str, bytes or os.PathLike object"),
     [EvReadCsv "bad.csv"; EvExists "features/a.npy";
      EvLoad "features/a.npy"]).
Proof.
  exact (load_data_bad_feature_cell 0%Z edge_fs "bad.csv" "features"
           "feature_file" "class" "example_weight" 3%Z 2 bad_cell_manifest
           [manifest_row [("feature_file", CStr "raw/a.npy");
                          ("class", CInt 0); ("example_weight", CFloat 1)]]
           (manifest_row [("feature_file", CNaN); ("class", CInt 1);
                          ("example_weight", CFloat 1)])
           [manifest_row [("feature_file", CStr "raw/a.npy");
                          ("class", CInt 1); ("example_weight", CFloat 1)]]
           eq_refl ltac:(by_decide) eq_refl ltac:(lia) eq_refl eq_refl).
Defined.

Lemma load_data_all_missing_witness :
  load_data 0%Z "missing.csv" "features" "feature_file" "class" (Some 3%Z)
    "example_weight" edge_fs
  = (Ok (NdArray np_float64 [0] [], [], []),
     [EvReadCsv "missing.csv"; EvPrint WarnDefaultWeight;
      EvExists "features/gone1.npy";
      EvPrint (WarnMissing "features/gone1.npy");
      EvExists "features/gone2.npy";
      EvPrint (WarnMissing "features/gone2.npy")]).
Proof.
  exact (proj1 (load_data_all_missing 0%Z edge_fs "missing.csv" "features"
                  "feature_file" "class" "example_weight" 3%Z
                  missing_only_manifest eq_refl ltac:(discriminate) eq_refl)).
Defined.

Lemma load_data_matrix_shape_witness :
  ∃ X y w tr,
    load_data 0%Z "two.csv" "features" "feature_file" "class" (Some 4%Z)
      "example_weight" demo_fs = (Ok (X, y, w), tr)
    ∧ length y = 1 ∧ shape X = [1; 8].
Proof.
  destruct (load_data_matrix_shape 0%Z demo_fs "two.csv" "features"
              "feature_file" "class" "example_weight" 4%Z 2 two_manifest)
    as (X & y & w & tr & Hrun & Hshape & _);
    [reflexivity|lia|reflexivity|by_decide|by_decide|reflexivity|].
  exists X, y, w, tr. split; [exact Hrun|].
  assert (length y = 1) as Hy.
  { change (Ok (X, y, w), tr).1 with (Ok (X, y, w)) in *.
    pose proof (f_equal (λ r, match r.1 with
                              | Ok (_, y, _) => length y
                              | Raise _ => 0
                              end) Hrun) as Hlen.
    exact (eq_sym Hlen). }
  split; [exact Hy|]. rewrite Hshape, Hy. reflexivity.
Defined.


Lemma load_data_file_accesses_witness :
  ∃ out tr,
    load_data 0%Z "lengths.csv" "features" "feature_file" "class" (Some 7%Z)
      "example_weight" demo_fs = (Ok out, tr)
    ∧ manifests_read tr = ["lengths.csv"]
    ∧ checked_paths tr
      = ["features/a.npy"; "features/gone.npy"; "features/b.npy";
         "features/c.npy"]
    ∧ loaded_paths tr
      = ["features/a.npy"; "features/b.npy"; "features/c.npy"].
Proof.
  destruct (load_data_file_accesses 0%Z demo_fs "lengths.csv" "features"
              "feature_file" "class" "example_weight" 7%Z 2 lengths_manifest)
    as (out & tr & Hrun & Hread & Hchecked & Hloaded);
    [reflexivity|lia|reflexivity|by_decide|by_decide|reflexivity|].
  exists out, tr. repeat split; [exact Hrun|exact Hread| |].
  - rewrite Hchecked. reflexivity.
  - rewrite Hloaded. reflexivity.
Defined.

Lemma load_data_inconsistent_feature_dim_witness :
  load_data 0%Z "mixed.csv" "features" "feature_file" "class" (Some 3%Z)
    "example_weight" edge_fs
  = (Raise (ValueError inhomogeneous_msg),
     [EvReadCsv "mixed.csv"; EvExists "features/a.npy";
      EvLoad "features/a.npy"; EvExists "features/wide.npy";
      EvLoad "features/wide.npy"]).
Proof.
  apply (load_data_inconsistent_feature_dim 0%Z edge_fs "mixed.csv"
           "features" "feature_file" "class" "example_weight" 3%Z
           mixed_width_manifest
           (manifest_row [("feature_file", CStr "a.npy"); ("class", CInt 0);
                          ("example_weight", CFloat 1)])
           (ramp 0 3)
           [(manifest_row [("feature_file", CStr "wide.npy");
                           ("class", CInt 1); ("example_weight", CFloat 1)],
             NdArray np_float64 [2; 3] [1; 2; 3; 4; 5; 6]%Z)]
           (manifest_row [("feature_file", CStr "wide.npy");
                          ("class", CInt 1); ("example_weight", CFloat 1)])
           (NdArray np_float64 [2; 3] [1; 2; 3; 4; 5; 6]%Z) 3 2 2 3);
    [reflexivity|by_decide|lia|reflexivity|reflexivity|by repeat constructor
    |reflexivity|reflexivity|lia].
Defined.

(** Where the model directory is missing, [main] does all its work and
    raises at line 113: the figure and the table are written, the model is
    not. *)
Example main_without_model_directory :
  (main 0%Z no_model_dir_fs).1.1 = Raise (FileNotFoundError model_path)
  ∧ (main 0%Z no_model_dir_fs).2
      !! "data/visualization/roc_auc_curve_RD_DOWN.png"
    = Some OtherFile
  ∧ (main 0%Z no_model_dir_fs).2
      !! "data/visualization/feature_importance_downsampled.csv"
    = Some OtherFile
  ∧ (main 0%Z no_model_dir_fs).2 !! model_path = None.
Proof. vm_compute. repeat split. Qed.

Lemma main_changes_only_outputs_witness :
  (main 0%Z pipeline_fs).2 !! "data/metadata/train_downsample.csv"
  = pipeline_fs !! "data/metadata/train_downsample.csv".
Proof.
  apply (main_changes_only_outputs 0%Z pipeline_fs
           "data/metadata/train_downsample.csv").
  by_decide.
Defined.

Lemma main_writes_only_outputs_witness :
  "models/baseline_model/best_rf_model.joblib" ∈ output_paths.
Proof.
  apply (main_writes_only_outputs 0%Z pipeline_fs
           (EvDump "models/baseline_model/best_rf_model.joblib")).
  - by apply (list_elem_of_lookup_2 _ 28).
  - reflexivity.
Defined.

Lemma threshold_predictions_monotone_witness :
  threshold_predictions [(3 # 10)%Q; (7 # 10)%Q] (1 # 10)%Q !! 1 = Some 1%Z.
Proof.
  apply (threshold_predictions_monotone _ (1 # 10)%Q (1 # 2)%Q 1);
    [discriminate|reflexivity].
Defined.

Lemma threshold_predictions_extremes_witness :
  threshold_predictions [0%Q; (1 # 2)%Q; 1%Q] 1%Q = [0; 0; 0]%Z
  ∧ threshold_predictions [0%Q; (1 # 2)%Q; 1%Q] (-1 # 10)%Q = [1; 1; 1]%Z.
Proof.
  destruct (threshold_predictions_extremes [0%Q; (1 # 2)%Q; 1%Q] 1%Q)
    as (Hhigh & _ & _); [repeat constructor; discriminate|].
  destruct (threshold_predictions_extremes [0%Q; (1 # 2)%Q; 1%Q]
              (-1 # 10)%Q)
    as (_ & Hlow & _); [repeat constructor; discriminate|].
  split; [apply Hhigh; discriminate|apply Hlow; reflexivity].
Defined.

Lemma evaluate_model_without_positive_column_witness :
  @evaluate_model_with_threshold Z single_class_forest tt (ramp 0 2)
    [CInt 0; CInt 0] (1 # 2)%Q edge_fs
  = (Raise (IndexError "index 1 is out of bounds for axis 1"), []).
Proof.
  apply (@evaluate_model_without_positive_column Z single_class_forest
           edge_fs tt (ramp 0 2) [CInt 0; CInt 0] (1 # 2)%Q
           [[1%Q]; [1%Q]]);
    [reflexivity|constructor; cbn; lia].
Defined.

Lemma print_ranking_matches_table_witness :
  ∃ tr,
    print_ranking [(1 # 2)%Q; (1 # 4)%Q; (1 # 2)%Q]
      (take 20 (reverse [1; 0; 2])) pipeline_fs = (Ok (), tr)
    ∧ ∃ x, ranking_rows [(1 # 2)%Q; (1 # 4)%Q; (1 # 2)%Q] [1; 0; 2] !! 0
           = Some [inject_Z 2; x]
           ∧ tr !! 0 = Some (EvPrint (MsgFeatureRank 1 2 x)).
Proof.
  destruct (print_ranking_matches_table [(1 # 2)%Q; (1 # 4)%Q; (1 # 2)%Q]
              [1; 0; 2] pipeline_fs)
    as (tr & Hrun & _ & Hrows); [reflexivity|].
  exists tr. split; [exact Hrun|]. exact (Hrows 0 2 eq_refl).
Defined.

Lemma feature_path_in_feature_dir_witness :
  ∃ s base,
    manifest_row [("feature_file", CStr "/abs/gone2.npy")] !! "feature_file"
    = Some (CStr s)
    ∧ base = basename s ∧ contains_sep base = false
    ∧ ("features/gone2.npy" = "features" +:+ base
       ∨ "features/gone2.npy" = "features" +:+ "/" +:+ base).
Proof.
  exact (feature_path_in_feature_dir "features" "feature_file"
           (manifest_row [("feature_file", CStr "/abs/gone2.npy")])
           "features/gone2.npy" eq_refl).
Defined.

Lemma main_fits_on_training_data_only_witness :
  ∃ X_raw X_train (scaler : Z) Xe_raw X_eval,
    fit_transform StandardScaler X_raw = Ok (X_train, scaler)
    ∧ transform scaler Xe_raw = Ok X_eval.
Proof.
  destruct (main_fits_on_training_data_only 0%Z pipeline_fs
              (main 0%Z pipeline_fs).1.2 (main 0%Z pipeline_fs).2)
    as (tl & X_raw & y & w & X_train & scaler & Xe_raw & ye & we & X_eval
        & cw & model & metrics & _ & Hfit & _ & Htrans & _);
    [exact (run_returned _ _ main_returns_on_pipeline_fs)|].
  exists X_raw, X_train, scaler, Xe_raw, X_eval.
  split; [exact Hfit|exact Htrans].
Defined.
